(** * yt-transcriber: cue parsing, link extraction, file naming, batch workflow

    A shallow embedding of the Python sources
      - [src/utils/filename.py]   (sanitising and composing output paths),
      - [src/core/downloader.py]  (video ids, timestamps, links, VTT cues),
      - [src/core/models.py]      (batch state),
      - [yt_transcriber_ui.py]    (review and processing screens),
    followed by the properties of these functions.

    Python [str] values are lists of characters.  A character is a code
    point in U+0000..U+00FF (Rocq's 8-bit [ascii]); the character classes
    used by [re] and by the [str] methods are those of CPython on that
    range. *)

From Stdlib Require Import ZArith Ascii String DecimalString DecimalPos DecimalN.
From stdpp Require Import base decidable option list gmap strings.

Local Open Scope Z_scope.

(** ** Python strings *)

Module PyStr.

Abbreviation str := (list ascii).

(** A literal. *)
Definition py (s : string) : str := String.list_ascii_of_string s.

Definition code (c : ascii) : N := N_of_ascii c.

Definition in_range (lo hi : N) (c : ascii) : bool :=
  ((lo <=? code c) && (code c <=? hi))%N.

(** [str.isspace] for one character, which is also [\s] of [re] on [str]
    patterns and the set removed by [str.strip()]. *)
Definition is_space (c : ascii) : bool :=
  in_range 9 13 c || in_range 28 32 c
  || (code c =? 133)%N || (code c =? 160)%N.

(** [\d] of [re]: the decimal digits (category Nd). *)
Definition is_decimal (c : ascii) : bool := in_range 48 57 c.

(** [str.isdigit] for one character: decimal digits and the superscript
    digits U+00B2, U+00B3, U+00B9. *)
Definition is_digit (c : ascii) : bool :=
  is_decimal c || (code c =? 178)%N || (code c =? 179)%N || (code c =? 185)%N.

(** [str.isalnum] for one character. *)
Definition is_alnum (c : ascii) : bool :=
  is_decimal c || in_range 65 90 c || in_range 97 122 c
  || (code c =? 170)%N || in_range 178 179 c || (code c =? 181)%N
  || in_range 185 186 c || in_range 188 190 c
  || in_range 192 214 c || in_range 216 246 c || in_range 248 255 c.

(** [\w] of [re]: alphanumeric or underscore. *)
Definition is_word (c : ascii) : bool := is_alnum c || (code c =? 95)%N.

(** The explicit class [[a-zA-Z0-9_-]]. *)
Definition is_id_char (c : ascii) : bool :=
  in_range 97 122 c || in_range 65 90 c || in_range 48 57 c
  || (code c =? 95)%N || (code c =? 45)%N.

Definition eqc (a b : ascii) : bool := Ascii.eqb a b.

Fixpoint drop_while {A} (p : A -> bool) (l : list A) : list A :=
  match l with
  | [] => []
  | x :: l' => if p x then drop_while p l' else l
  end.

Fixpoint take_while {A} (p : A -> bool) (l : list A) : list A :=
  match l with
  | [] => []
  | x :: l' => if p x then x :: take_while p l' else []
  end.

(** [s.lstrip(...)], [s.rstrip(...)], [s.strip(...)] for the set of
    characters recognised by [p]. *)
Definition lstrip (p : ascii -> bool) (s : str) : str := drop_while p s.
Definition rstrip (p : ascii -> bool) (s : str) : str :=
  rev (drop_while p (rev s)).
Definition strip (p : ascii -> bool) (s : str) : str := rstrip p (lstrip p s).

(** [re.sub(r'[class]', '', s)]: delete every character of the class. *)
Definition delete_class (p : ascii -> bool) (s : str) : str :=
  filter (fun c => p c = false) s.

(** [re.sub(r'[class]+', c, s)] for a one-character template [c]: every
    maximal run of class characters becomes one [c].  [in_run] tells that
    the previous character belonged to the run being replaced. *)
Fixpoint sub_runs_from (p : ascii -> bool) (c : ascii) (in_run : bool)
    (s : str) : str :=
  match s with
  | [] => []
  | x :: s' =>
      if p x then
        if in_run then sub_runs_from p c true s'
        else c :: sub_runs_from p c true s'
      else x :: sub_runs_from p c false s'
  end.

Definition sub_runs (p : ascii -> bool) (c : ascii) (s : str) : str :=
  sub_runs_from p c false s.

(** [s[:n]] for any integer [n]: a negative bound counts from the end. *)
Definition slice_to (n : Z) (s : str) : str :=
  if 0 <=? n then take (Z.to_nat n) s
  else take (Z.to_nat (Z.of_nat (length s) + n)) s.

(** [s.startswith(prefix)]. *)
Fixpoint startswith (prefix s : str) : bool :=
  match prefix, s with
  | [], _ => true
  | _ :: _, [] => false
  | a :: p', b :: s' => eqc a b && startswith p' s'
  end.

(** [sub in s]. *)
Fixpoint contains (sub s : str) : bool :=
  startswith sub s ||
  match s with
  | [] => false
  | _ :: s' => contains sub s'
  end.

(** [s.split(sep)] for a one-character separator: always at least one
    piece. *)
Fixpoint split_on (sep : ascii) (s : str) : list str :=
  match s with
  | [] => [[]]
  | x :: s' =>
      if eqc x sep then [] :: split_on sep s'
      else match split_on sep s' with
           | [] => [[x]]
           | piece :: rest => (x :: piece) :: rest
           end
  end.

(** Scanning for the matches of a pattern.  [m s] is the length of the
    match of the pattern at the start of [s], if there is one; the patterns
    of this program never match the empty string.  The scan goes from the
    left and resumes behind each match: [skip] counts the characters of a
    match that are still to be passed over. *)
Section Scan.
Variable m : str -> option nat.

(** [re.findall(pattern, s)] for a pattern that is one group. *)
Fixpoint findall_from (skip : nat) (s : str) : list str :=
  match s with
  | [] => []
  | _ :: s' =>
      match skip with
      | S k => findall_from k s'
      | O =>
          match m s with
          | Some (S n) => take (S n) s :: findall_from n s'
          | _ => findall_from 0 s'
          end
      end
  end.

(** [re.sub(pattern, '', s)]. *)
Fixpoint delete_from (skip : nat) (s : str) : str :=
  match s with
  | [] => []
  | x :: s' =>
      match skip with
      | S k => delete_from k s'
      | O =>
          match m s with
          | Some (S n) => delete_from n s'
          | _ => x :: delete_from 0 s'
          end
      end
  end.

Definition findall (s : str) : list str := findall_from 0 s.
Definition delete_matches (s : str) : str := delete_from 0 s.
End Scan.

(** The value of a run of decimal digits, as [int(...)] reads it. *)
Definition digit_val (c : ascii) : Z := Z.of_N (code c) - 48.

Definition int_of_digits (s : str) : Z :=
  fold_left (fun acc c => 10 * acc + digit_val c) s 0.

(** [str(n)] and [f"{n:02d}"] for a non-negative integer. *)
Definition str_of_nonneg (n : Z) : str :=
  py (NilZero.string_of_uint (N.to_uint (Z.to_N n))).

Definition fmt_02d (n : Z) : str :=
  let s := str_of_nonneg n in
  repeat "0"%char (2 - length s)%nat ++ s.

End PyStr.

Import PyStr.

(** ** Exceptions and effects

    Code that touches the outside world runs in a state-and-exception
    monad over a type [W] of worlds (file system, network, the [yt-dlp]
    process).  Only subclasses of [Exception] are represented. *)

Module Py.

Inductive Exn :=
  | ValueError (msg : str)
  | IndexError (msg : str)
  | ExternalError (msg : str).

(** [str(e)]. *)
Definition exn_str (e : Exn) : str :=
  match e with
  | ValueError msg | IndexError msg | ExternalError msg => msg
  end.

Definition M (W A : Type) : Type := W -> (Exn + A) * W.

Definition ret {W A} (a : A) : M W A := fun w => (inr a, w).

Definition raise {W A} (e : Exn) : M W A := fun w => (inl e, w).

Definition bind {W A B} (c : M W A) (k : A -> M W B) : M W B :=
  fun w =>
    match c w with
    | (inl e, w') => (inl e, w')
    | (inr a, w') => k a w'
    end.

(** [try: c  except Exception as e: h(e)]. *)
Definition try_except {W A} (c : M W A) (h : Exn -> M W A) : M W A :=
  fun w =>
    match c w with
    | (inl e, w') => h e w'
    | (inr a, w') => (inr a, w')
    end.

End Py.

Import Py.

Notation "x <- c ;; k" := (bind c (fun x => k))
  (at level 100, c at next level, right associativity).
Notation "c ;;; k" := (bind c (fun _ => k))
  (at level 100, right associativity).

(** ** [src/utils/filename.py] *)

Module Filename.

(** The class of the first substitution: the characters < > : / \ | ? *,
    the double quote (code 34) and the controls [\x00-\x1f]. *)
Definition is_illegal (c : ascii) : bool :=
  existsb (eqc c) (py "<>:/\|?*") || (code c =? 34)%N || in_range 0 31 c.

(** What the second substitution [[^\w\s-]] keeps. *)
Definition is_kept (c : ascii) : bool :=
  is_word c || is_space c || eqc c "-"%char.

Definition placeholder : str := py "untitled".

(** [sanitize_for_filename(text, max_length, replacement)], the fallback
    of the module.  [replacement] is one character, as the default ["_"]
    that every caller uses; [max_length] is any Python [int]. *)
Definition sanitize_for_filename (text : str) (max_length : Z)
    (replacement : ascii) : str :=
  match text with
  | [] => placeholder
  | _ =>
      let clean := delete_class is_illegal text in
      let clean := filter (fun c => is_kept c = true) clean in
      let clean := sub_runs is_space replacement (strip is_space clean) in
      let clean := sub_runs (eqc replacement) replacement clean in
      let clean := strip (eqc replacement) clean in
      let clean :=
        if Z.of_nat (length clean) >? max_length
        then rstrip (eqc replacement) (slice_to max_length clean)
        else clean in
      match clean with
      | [] => placeholder
      | _ => clean
      end
  end.

Definition underscore : ascii := "_"%char.

(** [build_filename(author, topic, year, max_length=50)]. *)
Definition build_filename (author topic year : str) (max_length : Z) : str :=
  let clean_author := sanitize_for_filename author 30 underscore in
  let clean_topic := sanitize_for_filename topic max_length underscore in
  let clean_year := sanitize_for_filename year 4 underscore in
  clean_author ++ py "_" ++ clean_topic ++ py "_" ++ clean_year.

(** A [pathlib.Path] is kept in its string form; [p / name] joins with a
    slash. *)
Abbreviation Path := (list ascii).

Definition path_join (p : Path) (name : str) : Path := p ++ py "/" ++ name.

(** What [build_output_path] and [generate_unique_filename] ask of the
    operating system. *)
Section FileSystem.
Context {W : Type}.
(** [expand_path(path)]: home directory and variables expanded, made
    absolute. *)
Variable expand_path : str -> Path.
(** [p.mkdir(parents=True, exist_ok=True)]. *)
Variable mkdir_p : Path -> M W unit.
(** [p.exists()]. *)
Variable path_exists : Path -> W -> bool.

(** [build_output_path(base_dir, author, filename, extension)]. *)
Definition build_output_path (base_dir author filename extension : str)
    : M W Path :=
  let base := expand_path base_dir in
  let author_folder := sanitize_for_filename author 50 underscore in
  let output_dir := path_join base author_folder in
  mkdir_p output_dir ;;;
  let extension := lstrip (eqc "."%char) extension in
  ret (path_join output_dir (filename ++ py "." ++ extension)).

(** The [while True] loop of [generate_unique_filename], entered with
    the current [counter].  It ends by itself, with a path or with the
    [ValueError]; [fuel] bounds the number of turns and [None] tells
    that it ran out. *)
Fixpoint unique_loop (fuel : nat) (base_dir author filename extension : str)
    (counter : Z) : M W (option Path) :=
  match fuel with
  | O => ret None
  | S fuel' =>
      let numbered_filename := filename ++ py "_" ++ str_of_nonneg counter in
      path <- build_output_path base_dir author numbered_filename extension ;;
      fun w =>
        if negb (path_exists path w) then ret (Some path) w
        else
          let counter := counter + 1 in
          if counter >? 100 then
            raise (ValueError (py "Too many files with same name: " ++ filename)) w
          else unique_loop fuel' base_dir author filename extension counter w
  end.

(** [generate_unique_filename(base_dir, author, topic, year, extension)];
    the loop is given more turns than it can take. *)
Definition generate_unique_filename (base_dir author topic year extension : str)
    : M W (option Path) :=
  let filename := build_filename author topic year 50 in
  path <- build_output_path base_dir author filename extension ;;
  fun w =>
    if negb (path_exists path w) then ret (Some path) w
    else unique_loop 100 base_dir author filename extension 2 w.
End FileSystem.

End Filename.

Import Filename.


(** ** [src/core/models.py]: the records *)

Module Models.

(** [TranscriptEntry]: a dataclass with two fields. *)
Record TranscriptEntry := mkEntry { timestamp : str; text : str }.

(** A link dictionary, with its two keys ["url"] and ["context"]. *)
Record Link := mkLink { url : str; context : str }.

(** A chapter dictionary of the metadata, with the keys the writers read. *)
Record Chapter := mkChapter { chapter_title : str; start_time : Z }.

(** [VideoMeta]. *)
Record VideoMeta := mkVideo {
  video_id : str;
  video_url : str;
  title : str;
  channel : str;
  channel_url : str;
  upload_date : str;
  upload_date_formatted : str;
  duration : Z;
  duration_formatted : str;
  view_count : Z;
  like_count : Z;
  channel_follower_count : Z;
  description : str;
  proposed_author : str;
  proposed_topic : str;
  proposed_year : str;
  chapters : list Chapter;
  links : list Link;
  selected : bool;
  transcript : list TranscriptEntry
}.

(** [ProcessResult]; [status] is one of the strings ["success"], ["error"],
    ["skipped"]. *)
Record ProcessResult := mkResult {
  result_video_id : str;
  result_url : str;
  status : str;
  message : str;
  result_title : str;
  files : list str
}.

Definition is_success (r : ProcessResult) : bool :=
  bool_decide (status r = py "success").

(** Dataclass equality ([__eq__]) is field-wise. *)
#[global] Instance entry_eq_dec : EqDecision TranscriptEntry.
Proof. solve_decision. Defined.
#[global] Instance link_eq_dec : EqDecision Link.
Proof. solve_decision. Defined.
#[global] Instance chapter_eq_dec : EqDecision Chapter.
Proof. solve_decision. Defined.
#[global] Instance video_eq_dec : EqDecision VideoMeta.
Proof. solve_decision. Defined.
#[global] Instance result_eq_dec : EqDecision ProcessResult.
Proof. solve_decision. Defined.

(** [BatchState]; [phase] is one of the strings ["input"], ["review"],
    ["processing"], ["complete"]. *)
Record BatchState := mkBatch {
  phase : str;
  pending_videos : list VideoMeta;
  results : list ProcessResult
}.

(** [BatchState.reset]. *)
Definition reset (b : BatchState) : BatchState := mkBatch (py "input") [] [].

(** [BatchState.to_review]. *)
Definition to_review (b : BatchState) (videos : list VideoMeta) : BatchState :=
  mkBatch (py "review") videos (results b).

(** [BatchState.to_processing]. *)
Definition to_processing (b : BatchState) : BatchState :=
  mkBatch (py "processing") (pending_videos b) [].

(** [BatchState.to_complete]. *)
Definition to_complete (b : BatchState) (rs : list ProcessResult) : BatchState :=
  mkBatch (py "complete") (pending_videos b) rs.

End Models.

Import Models.

(** ** [src/core/downloader.py] *)

Module Downloader.

(** *** [extract_video_id] *)

(** The alternatives of [(?:v=|/v/|youtu\.be/|/embed/|/shorts/|/live/)],
    in the order the pattern lists them. *)
Definition id_prefixes : list str :=
  [py "v="; py "/v/"; py "youtu.be/"; py "/embed/"; py "/shorts/"; py "/live/"].

(** [([a-zA-Z0-9_-]{11})] at the start of [s]. *)
Definition match_id (s : str) : option str :=
  let g := take 11 s in
  if (length g =? 11)%nat && forallb is_id_char g then Some g else None.

(** One alternative after the other at the start of [s], each followed by
    the group. *)
Fixpoint match_prefixed (alts : list str) (s : str) : option str :=
  match alts with
  | [] => None
  | a :: alts' =>
      match (if startswith a s then match_id (drop (length a) s) else None) with
      | Some g => Some g
      | None => match_prefixed alts' s
      end
  end.

(** [re.search] of the first pattern: the leftmost position that matches. *)
Fixpoint search_prefixed (s : str) : option str :=
  match match_prefixed id_prefixes s with
  | Some g => Some g
  | None =>
      match s with
      | [] => None
      | _ :: s' => search_prefixed s'
      end
  end.

Definition newline : ascii := "010"%char.

(** [re.search] of [^([a-zA-Z0-9_-]{11})$]: only at position 0, and [$]
    holds at the end or before a final newline. *)
Definition search_bare (s : str) : option str :=
  match match_id s with
  | Some g =>
      match drop 11 s with
      | [] => Some g
      | [c] => if eqc c newline then Some g else None
      | _ => None
      end
  | None => None
  end.

Definition extract_video_id (url : str) : option str :=
  let u := strip is_space url in
  match search_prefixed u with
  | Some g => Some g
  | None => search_bare u
  end.

(** *** [format_timestamp] *)

(** [f"{n:02d}"] for any integer: the sign counts in the width. *)
Definition format_02d (n : Z) : str :=
  if n <? 0 then
    let s := str_of_nonneg (- n) in
    py "-" ++ repeat "0"%char (1 - length s)%nat ++ s
  else fmt_02d n.

(** [format_timestamp(seconds)], on the whole number [int(seconds)]. *)
Definition format_timestamp (total_secs : Z) : str :=
  let m := total_secs / 60 in
  let s := total_secs mod 60 in
  py "[" ++ format_02d m ++ py ":" ++ format_02d s ++ py "]".

(** *** [extract_links_from_description] *)

(** The class of the URL pattern: anything but [\s], [<], [>] and the
    double quote (code 34). *)
Definition is_url_char (c : ascii) : bool :=
  negb (is_space c || eqc c "<"%char || eqc c ">"%char || (code c =? 34)%N).

(** [://] and one or more URL characters at the start of [r]; [k]
    characters were matched before.
    The result is the length of the whole match. *)
Definition match_url_tail (k : nat) (r : str) : option nat :=
  if startswith (py "://") r then
    match take_while is_url_char (drop 3 r) with
    | [] => None
    | body => Some (k + 3 + length body)%nat
    end
  else None.

(** The URL pattern at the start of [s]: [http], then the optional [s]
    (first with it, then without), then the tail. *)
Definition match_url (s : str) : option nat :=
  if startswith (py "http") s then
    let r := drop 4 s in
    match (if startswith (py "s") r then match_url_tail 5 (drop 1 r) else None) with
    | Some n => Some n
    | None => match_url_tail 4 r
    end
  else None.

(** [re.findall(url_pattern, line)] and [re.sub(url_pattern, '', line)]. *)
Definition findall_urls (s : str) : list str := findall match_url s.
Definition remove_urls (s : str) : str := delete_matches match_url s.

(** The links of one line: every URL with the context of the line. *)
Definition links_of_line (line : str) : list Link :=
  match findall_urls line with
  | [] => []
  | urls =>
      let context := strip is_space (remove_urls line) in
      map (fun u => mkLink u (match context with
                               | [] => []
                               | _ => slice_to 100 context
                               end)) urls
  end.

Definition extract_links_from_description (description : str) : list Link :=
  match description with
  | [] => []
  | _ => take 20 (concat (map links_of_line (split_on newline description)))
  end.

(** *** [parse_vtt_transcript] *)

(** [line.startswith(('WEBVTT', 'Kind:', 'Language:'))]. *)
Definition is_header (line : str) : bool :=
  startswith (py "WEBVTT") line || startswith (py "Kind:") line
  || startswith (py "Language:") line.

(** [line.isdigit()]. *)
Definition isdigit (line : str) : bool :=
  match line with
  | [] => false
  | _ => forallb is_digit line
  end.

(** [(\d+)] followed by the character [sep], at the start of [s]: the
    digits and what follows [sep]. *)
Definition digits_then (sep : ascii) (s : str) : option (str * str) :=
  match take_while is_decimal s with
  | [] => None
  | ds =>
      match drop (length ds) s with
      | c :: r => if eqc c sep then Some (ds, r) else None
      | [] => None
      end
  end.

(** [re.match(r'(\d+):(\d+):(\d+)\.(\d+)', line)], giving the three
    groups that are read, as integers. *)
Definition match_cue_time (line : str) : option (Z * Z * Z) :=
  match digits_then ":"%char line with
  | Some (h, r1) =>
      match digits_then ":"%char r1 with
      | Some (m, r2) =>
          match digits_then "."%char r2 with
          | Some (s, r3) =>
              match take_while is_decimal r3 with
              | [] => None
              | _ => Some (int_of_digits h, int_of_digits m, int_of_digits s)
              end
          | None => None
          end
      | None => None
      end
  | None => None
  end.

(** [<[^>]+>] at the start of [s]. *)
Definition match_tag (s : str) : option nat :=
  match s with
  | c :: r =>
      if eqc c "<"%char then
        match take_while (fun x => negb (eqc x ">"%char)) r with
        | [] => None
        | body =>
            match drop (length body) r with
            | _ :: _ => Some (length body + 2)%nat
            | [] => None
            end
        end
      else None
  | [] => None
  end.

Definition remove_tags (s : str) : str := delete_matches match_tag s.

(** The variables of the loop. *)
Record ParseState := mkParse {
  entries : list TranscriptEntry;
  current_time : option Z;
  seen_text : gset str
}.

Definition sentinel : str := py "[00:00]".

(** One turn of the loop over the lines. *)
Definition parse_line (st : ParseState) (raw : str) : ParseState :=
  let line := strip is_space raw in
  if bool_decide (line = []) || is_header line || isdigit line then st
  else if contains (py "-->") line then
    match match_cue_time line with
    | Some (h, m, s) =>
        mkParse (entries st) (Some (h * 3600 + m * 60 + s)) (seen_text st)
    | None => st
    end
  else
    let clean := remove_tags line in
    if negb (bool_decide (clean = [])) && bool_decide (clean ∉ seen_text st)
    then
      mkParse
        (entries st ++
           [mkEntry (match current_time st with
                     | Some t => format_timestamp t
                     | None => sentinel
                     end) clean])
        (current_time st)
        ({[clean]} ∪ seen_text st)
    else st.

(** [parse_vtt_transcript(vtt_path)]; the argument is the text of the file,
    [None] when the file does not exist. *)
Definition parse_vtt_transcript (vtt : option str) : list TranscriptEntry :=
  match vtt with
  | None => []
  | Some content =>
      entries (fold_left parse_line (split_on newline content)
                 (mkParse [] None ∅))
  end.

End Downloader.

Import Downloader.

(** ** [yt_transcriber_ui.py] *)

Module UI.

(** [st.session_state], with the three keys the screens use. *)
Record Session := mkSession {
  ss_phase : str;
  ss_pending_videos : list VideoMeta;
  ss_results : list ProcessResult
}.

(** [reset_state()]. *)
Definition reset_state (st : Session) : Session :=
  mkSession (py "input") [] [].

(** Assignments to fields of a video. *)
Definition set_transcript (v : VideoMeta) (t : list TranscriptEntry) : VideoMeta :=
  mkVideo (video_id v) (video_url v) (title v) (channel v) (channel_url v)
    (upload_date v) (upload_date_formatted v) (duration v)
    (duration_formatted v) (view_count v) (like_count v)
    (channel_follower_count v) (description v) (proposed_author v)
    (proposed_topic v) (proposed_year v) (chapters v) (links v)
    (selected v) t.

Definition set_links (v : VideoMeta) (l : list Link) : VideoMeta :=
  mkVideo (video_id v) (video_url v) (title v) (channel v) (channel_url v)
    (upload_date v) (upload_date_formatted v) (duration v)
    (duration_formatted v) (view_count v) (like_count v)
    (channel_follower_count v) (description v) (proposed_author v)
    (proposed_topic v) (proposed_year v) (chapters v) l
    (selected v) (transcript v).

(** *** The review screen *)

(** A row of the edited table: the editable columns and the hidden
    [_idx]; the two read-only display columns are left out. *)
Record Row := mkRow {
  row_select : bool;
  row_author : str;
  row_topic : str;
  row_year : str;
  row_idx : nat
}.

(** [videos.index(v)]: the first position of an element equal to [v]
    (the length of the list if there is none, which does not happen for
    an element of the list). *)
Fixpoint index (v : VideoMeta) (videos : list VideoMeta) : nat :=
  match videos with
  | [] => O
  | v' :: rest => if decide (v' = v) then O else S (index v rest)
  end.

(** The table shown to the user. *)
Definition review_table (videos : list VideoMeta) : list Row :=
  map (fun v => mkRow (selected v) (proposed_author v) (proposed_topic v)
                  (proposed_year v) (index v videos)) videos.

(** The four assignments made for one edited row. *)
Definition edit_video (r : Row) (v : VideoMeta) : VideoMeta :=
  mkVideo (video_id v) (video_url v) (title v) (channel v) (channel_url v)
    (upload_date v) (upload_date_formatted v) (duration v)
    (duration_formatted v) (view_count v) (like_count v)
    (channel_follower_count v) (description v) (row_author r)
    (row_topic r) (row_year r) (chapters v) (links v)
    (row_select r) (transcript v).

(** The loop over the edited rows; [videos[idx]] raises [IndexError] out
    of range. *)
Fixpoint apply_rows (rows : list Row) (videos : list VideoMeta)
    : Exn + list VideoMeta :=
  match rows with
  | [] => inr videos
  | r :: rows' =>
      match videos !! row_idx r with
      | Some v => apply_rows rows' (<[row_idx r := edit_video r v]> videos)
      | None => inl (IndexError (py "list index out of range"))
      end
  end.

(** What the user did in this run of the script. *)
Inductive Click := NoClick | ClickBack | ClickSave.

Definition clicked_back (c : Click) : bool :=
  match c with ClickBack => true | _ => false end.

Definition clicked_save (c : Click) : bool :=
  match c with ClickSave => true | _ => false end.

(** [st.button(..., disabled=d)]: a disabled button does not report a
    click. *)
Definition button (clicked disabled : bool) : bool := clicked && negb disabled.

(** [render_review_phase()]; [edited] is what [st.data_editor] returns.
    [st.rerun()] ends the run of the script. *)
Definition render_review_phase (st : Session) (edited : list Row)
    (click : Click) : Exn + Session :=
  match apply_rows edited (ss_pending_videos st) with
  | inl e => inl e
  | inr videos =>
      let st := mkSession (ss_phase st) videos (ss_results st) in
      let selected_count := length (filter (fun v => selected v = true) videos) in
      let back_btn := button (clicked_back click) false in
      let save_btn :=
        button (clicked_save click) (selected_count =? 0)%nat in
      if back_btn then inr (reset_state st)
      else if save_btn then
        inr (mkSession (py "processing") (ss_pending_videos st) (ss_results st))
      else inr st
  end.

(** *** The processing screen *)

Section Processing.
Context {W : Type}.
(** Configuration: [OUTPUT_BASE], [FILENAME_MAX_LENGTH] and
    [include_links_default]. *)
Variable OUTPUT_BASE : str.
Variable FILENAME_MAX_LENGTH : Z.
Variable include_links_default : bool.
(** The file system, as in [Filename]. *)
Variable expand_path : str -> Path.
Variable mkdir_p : Path -> M W unit.
(** [subprocess.run(cmd, ...)] of [yt-dlp] for a video id, writing under
    the given base name. *)
Variable run_yt_dlp : str -> str -> M W unit.
(** The text of a file, [None] if it does not exist. *)
Variable read_text_if_exists : Path -> M W (option str).
(** [if p.exists(): p.unlink()]. *)
Variable unlink_if_exists : Path -> M W unit.
(** The writers of [src/core/writers.py]. *)
Variable write_markdown : VideoMeta -> Path -> M W unit.
Variable write_docx : VideoMeta -> Path -> M W unit.
Variable write_json : VideoMeta -> Path -> M W unit.

(** [fetch_transcript(video, include_links)] of [downloader.py]. *)
Definition fetch_transcript (video : VideoMeta) (include_links : bool)
    : M W VideoMeta :=
  let vid := video_id video in
  let tmp_base := py "/tmp/yt_trans_" ++ vid in
  run_yt_dlp tmp_base vid ;;;
  let vtt_file := tmp_base ++ py ".en.vtt" in
  content <- read_text_if_exists vtt_file ;;
  let video := set_transcript video (parse_vtt_transcript content) in
  let video :=
    if include_links
    then set_links video (extract_links_from_description (description video))
    else video in
  unlink_if_exists vtt_file ;;;
  ret video.

(** The statements under [try] in [process_and_save_video]; [result] is
    the record built before, and the value is that record with the four
    fields assigned at the end. *)
Definition process_body (result : ProcessResult) (video : VideoMeta)
    (output_base : str) (include_links : bool) : M W ProcessResult :=
  video <- fetch_transcript video include_links ;;
  let filename :=
    build_filename (proposed_author video) (proposed_topic video)
      (proposed_year video) FILENAME_MAX_LENGTH in
  let files := [] in
  md_path <- build_output_path expand_path mkdir_p output_base
               (proposed_author video) filename (py "md") ;;
  write_markdown video md_path ;;;
  let files := files ++ [md_path] in
  docx_path <- build_output_path expand_path mkdir_p output_base
                 (proposed_author video) filename (py "docx") ;;
  write_docx video docx_path ;;;
  let files := files ++ [docx_path] in
  json_path <- build_output_path expand_path mkdir_p output_base
                 (proposed_author video) filename (py "json") ;;
  write_json video json_path ;;;
  let files := files ++ [json_path] in
  ret (mkResult (result_video_id result) (result_url result)
         (py "success") (py "Saved: " ++ filename) (title video) files).

(** [process_and_save_video(video, output_base, include_links)]: the
    handler of [except Exception as e] stores [str(e)] in the message. *)
Definition process_and_save_video (video : VideoMeta) (output_base : str)
    (include_links : bool) : M W ProcessResult :=
  let result := mkResult (video_id video) (video_url video) (py "error") [] [] [] in
  try_except
    (process_body result video output_base include_links)
    (fun e =>
       ret (mkResult (result_video_id result) (result_url result)
              (status result) (exn_str e) (result_title result)
              (files result))).

(** The loop of [render_processing_phase] over the frozen videos, with
    the list [results] it appends to. *)
Fixpoint process_videos (videos : list VideoMeta)
    (results : list ProcessResult) : M W (list ProcessResult) :=
  match videos with
  | [] => ret results
  | video :: rest =>
      result <- process_and_save_video video OUTPUT_BASE include_links_default ;;
      process_videos rest (results ++ [result])
  end.

(** [render_processing_phase()].  The progress bar, the status text and
    the optional metrics are display only. *)
Definition render_processing_phase (st : Session) : M W Session :=
  let videos := filter (fun v => selected v = true) (ss_pending_videos st) in
  results <- process_videos videos [] ;;
  ret (mkSession (py "complete") (ss_pending_videos st) results).
End Processing.

End UI.

Import UI.

(** ** A small world to run the screens on examples *)

Module Demo.

(** The world is the list of the files that exist; the directories are
    there already, and paths are absolute as they are given. *)
Definition absolute (p : str) : Path := p.

Definition demo_mkdir_p (p : Path) : M (list Path) unit := ret tt.

Definition demo_exists (p : Path) (w : list Path) : bool :=
  bool_decide (p ∈ w).

(** [yt-dlp] fails for the video id [bad]. *)
Definition demo_run_yt_dlp (tmp_base vid : str) : M (list Path) unit :=
  if bool_decide (vid = py "bad")
  then raise (ExternalError (py "yt-dlp failed"))
  else ret tt.

Definition demo_read_text (p : Path) : M (list Path) (option str) :=
  ret (Some (py "WEBVTT" ++ [newline]
             ++ py "00:00:01.000 --> 00:00:02.000" ++ [newline]
             ++ py "hello")).

Definition demo_unlink (p : Path) : M (list Path) unit := ret tt.

Definition demo_write (v : VideoMeta) (p : Path) : M (list Path) unit :=
  fun w => (inr tt, w ++ [p]).

Definition demo_video (vid : str) (sel : bool) : VideoMeta :=
  mkVideo vid (py "https://youtu.be/" ++ vid) (py "Title") (py "Chan") []
    (py "20240101") (py "2024-01-01") 60 (py "1:00") 0 0 0 []
    (py "Chan") (py "Topic " ++ vid) (py "2024") [] [] sel [].

End Demo.

Import Demo.

(** ** The specification's wording, where it is compared with the code *)

Module Spec.

(** The time format as the specification words it: [H:MM:SS] when the
    hours are positive, else [M:SS], in brackets. *)
Definition spec_format_timestamp (total_secs : Z) : str :=
  let h := total_secs / 3600 in
  let m := (total_secs mod 3600) / 60 in
  let s := total_secs mod 60 in
  if h >? 0 then
    py "[" ++ str_of_nonneg h ++ py ":" ++ fmt_02d m ++ py ":" ++ fmt_02d s ++ py "]"
  else
    py "[" ++ str_of_nonneg m ++ py ":" ++ fmt_02d s ++ py "]".

End Spec.

Import Spec.

(** ** Notions used to state and prove the properties *)

Module Shape.

(** The first element, if any, is outside the class [p]. *)
Definition hd_not {A} (p : A -> bool) (l : list A) : Prop :=
  match l with
  | [] => True
  | x :: _ => p x = false
  end.

(** No two neighbours are both [c]. *)
Fixpoint no_double (c : ascii) (s : str) : Prop :=
  match s with
  | x :: s' =>
      match s' with
      | y :: _ => eqc c x && eqc c y = false
      | [] => True
      end /\ no_double c s'
  | [] => True
  end.

(** A character that passes both character filters of
    [sanitize_for_filename] and is no white space. *)
Definition clean_char (x : ascii) : bool :=
  negb (is_illegal x) && is_kept x && negb (is_space x).

(** The shape of a sanitized name with separator [c]: clean characters,
    no doubled separator, no separator at either end. *)
Definition sanitized (c : ascii) (s : str) : Prop :=
  Forall (fun x => clean_char x = true) s
  /\ no_double c s
  /\ hd_not (eqc c) s
  /\ hd_not (eqc c) (rev s).

(** The stamp put on a cue when the time cursor is [t]. *)
Definition stamp (t : option Z) : str :=
  match t with
  | Some t => format_timestamp t
  | None => sentinel
  end.

(** The state in which the loop of [parse_vtt_transcript] starts. *)
Definition parse_start : ParseState := mkParse [] None ∅.

(** The cleaned text of a content line: what the loop body appends for
    the line when nothing has been seen yet.  [None] for the lines that
    never give a cue (blank, header, number, timing, nothing left once the
    tags are removed). *)
Definition clean_text (raw : str) : option str :=
  match entries (parse_line parse_start raw) with
  | [e] => Some (text e)
  | _ => None
  end.

(** The suffix [_k] that the collision loop appends to the base filename. *)
Definition numbered (k : Z) : str := py "_" ++ str_of_nonneg k.

(** The path that [generate_unique_filename] tries for a suffix of the
    base filename (no suffix at first, then [_2], [_3], ...). *)
Definition candidate (expand_path : str -> Path)
    (base_dir author topic year extension suffix : str) : Path :=
  path_join
    (path_join (expand_path base_dir) (sanitize_for_filename author 50 underscore))
    (build_filename author topic year 50 ++ suffix ++ py "."
     ++ lstrip (eqc "."%char) extension).

End Shape.

Import Shape.

(** ** Notions used by the further properties *)

Module Facts.

(** A character that is safe in a file name: a word character or a
    hyphen, hence no white space, none of the characters that
    [sanitize_for_filename] deletes first, no double quote (code 34), no
    control character. *)
Definition name_char (x : ascii) : Prop :=
  (is_word x = true \/ x = "-"%char)
  /\ is_space x = false
  /\ (x ∉ py "<>:/\|?*") /\ code x <> 34%N /\ (32 <= code x)%N.

End Facts.

Import Facts.

(** ** More of [src/core/downloader.py] and [src/core/models.py] *)

Module Meta.

(** [str(n)] and [f"{n}"] for any integer. *)
Definition str_of_int (n : Z) : str :=
  if n <? 0 then py "-" ++ str_of_nonneg (- n) else str_of_nonneg n.

(** [format_duration(seconds)]; [seconds] is [None] or an integer, and
    [not seconds] holds of [None] and of zero. *)
Definition format_duration (seconds : option Z) : str :=
  match seconds with
  | None => py "Unknown"
  | Some seconds =>
      if seconds =? 0 then py "Unknown"
      else
        let h := seconds / 3600 in
        let m := (seconds mod 3600) / 60 in
        let s := seconds mod 60 in
        if negb (h =? 0)
        then str_of_int h ++ py ":" ++ format_02d m ++ py ":" ++ format_02d s
        else str_of_int m ++ py ":" ++ format_02d s
  end.

(** [c.lower()] for one character: the capital letters of ASCII and of
    Latin-1 (U+00C0..U+00DE but the multiplication sign) move up by 32. *)
Definition lower (c : ascii) : ascii :=
  if in_range 65 90 c || in_range 192 214 c || in_range 216 222 c
  then ascii_of_N (code c + 32)
  else c.

(** [s.lower()]. *)
Definition lower_str (s : str) : str := map lower s.

(** Two characters that match each other under [re.IGNORECASE]. *)
Definition eqc_nocase (a b : ascii) : bool := eqc (lower a) (lower b).

(** The text [p] at the start of [s], letter case ignored. *)
Fixpoint startswith_nocase (p s : str) : bool :=
  match p, s with
  | [], _ => true
  | _ :: _, [] => false
  | a :: p', b :: s' => eqc_nocase a b && startswith_nocase p' s'
  end.

(** The class [[:\s-]]. *)
Definition is_title_sep (c : ascii) : bool :=
  eqc c ":"%char || is_space c || eqc c "-"%char.

(** One or more digits and then any number of characters of that class,
    at the start of [s]; [k] characters were matched before. *)
Definition match_number (k : nat) (s : str) : option nat :=
  match take_while is_decimal s with
  | [] => None
  | ds =>
      Some (k + length ds
            + length (take_while is_title_sep (drop (length ds) s)))%nat
  end.

(** The episode prefix at the start of [s], letter case ignored: [EP],
    an optional full stop, white space, a number and separators; or else
    [#], a number and separators.  The result is the length of the match. *)
Definition match_episode (s : str) : option nat :=
  match
    (if startswith_nocase (py "EP") s then
       let r := drop 2 s in
       let dot := if startswith (py ".") r then 1%nat else 0%nat in
       let r := drop dot r in
       let spaces := length (take_while is_space r) in
       match_number (2 + dot + spaces) (drop spaces r)
     else None)
  with
  | Some n => Some n
  | None =>
      if startswith (py "#") s then match_number 1 (drop 1 s) else None
  end.

(** [re.escape(channel)] at the start of [s], letter case ignored. *)
Definition match_channel (channel : str) (s : str) : option nat :=
  if startswith_nocase channel s then Some (length channel) else None.

(** [VideoMeta._clean_title_for_topic]. *)
Definition clean_title_for_topic (v : VideoMeta) : str :=
  let topic := title v in
  let topic :=
    match match_episode topic with
    | Some n => drop n topic
    | None => topic
    end in
  let topic :=
    if negb (bool_decide (channel v = []))
       && contains (lower_str (channel v)) (lower_str topic)
    then delete_matches (match_channel (channel v)) topic
    else topic in
  match slice_to 100 (strip is_space topic) with
  | [] => py "Untitled"
  | t => t
  end.

Definition set_naming (v : VideoMeta) (author topic year : str) : VideoMeta :=
  mkVideo (video_id v) (video_url v) (title v) (channel v) (channel_url v)
    (upload_date v) (upload_date_formatted v) (duration v)
    (duration_formatted v) (view_count v) (like_count v)
    (channel_follower_count v) (description v) author topic year
    (chapters v) (links v) (selected v) (transcript v).

(** [VideoMeta.__post_init__], applied to the record of the fields given
    to the constructor. *)
Definition post_init (v : VideoMeta) : VideoMeta :=
  let author :=
    match proposed_author v with
    | [] => match channel v with [] => py "Unknown" | ch => ch end
    | a => a
    end in
  let v := set_naming v author (proposed_topic v) (proposed_year v) in
  let topic :=
    match proposed_topic v with
    | [] => clean_title_for_topic v
    | t => t
    end in
  let v := set_naming v (proposed_author v) topic (proposed_year v) in
  let year :=
    match proposed_year v with
    | [] =>
        if (4 <=? length (upload_date v))%nat
        then slice_to 4 (upload_date v)
        else py "Unknown"
    | y => y
    end in
  set_naming v (proposed_author v) (proposed_topic v) year.

End Meta.

Import Meta.

(** ** [fetch_metadata] of [src/core/downloader.py] *)

Module Fetch.

(** [format_date(date_str)]: [YYYYMMDD] becomes [YYYY-MM-DD]; any other
    text is returned as it is, the empty one as [Unknown]. *)
Definition format_date (date_str : str) : str :=
  if negb (bool_decide (date_str = [])) && (length date_str =? 8)%nat
  then take 4 date_str ++ py "-" ++ take 2 (drop 4 date_str) ++ py "-"
       ++ drop 6 date_str
  else match date_str with
       | [] => py "Unknown"
       | _ => date_str
       end.

(** The dictionary read from the [.info.json] file, with the keys that are
    looked up; [None] is a key that is missing. *)
Record Info := mkInfo {
  info_title : option str;
  info_channel : option str;
  info_uploader : option str;
  info_channel_url : option str;
  info_upload_date : option str;
  info_duration : option Z;
  info_view_count : option Z;
  info_like_count : option Z;
  info_channel_follower_count : option Z;
  info_description : option str;
  info_chapters : option (list Chapter)
}.

(** [try: c finally: f]: [f] runs in both cases, and an exception of [f]
    replaces what [c] gave. *)
Definition try_finally {W A} (c : M W A) (f : M W unit) : M W A :=
  fun w =>
    let (r, w1) := c w in
    match f w1 with
    | (inl e, w2) => (inl e, w2)
    | (inr _, w2) => (r, w2)
    end.

(** The call [VideoMeta(video_id=vid, url=url, title=..., ...)] at the end
    of [fetch_metadata]: the fields from the dictionary with their
    defaults, then [__post_init__]. *)
Definition video_of_info (vid url : str) (meta : Info) : VideoMeta :=
  post_init
    (mkVideo vid url
       (default (py "Untitled") (info_title meta))
       (match info_channel meta with
        | Some (x :: c) => x :: c
        | _ => default (py "Unknown") (info_uploader meta)
        end)
       (default [] (info_channel_url meta))
       (default [] (info_upload_date meta))
       (format_date (default [] (info_upload_date meta)))
       (default 0 (info_duration meta))
       (format_duration (info_duration meta))
       (default 0 (info_view_count meta))
       (default 0 (info_like_count meta))
       (default 0 (info_channel_follower_count meta))
       (default [] (info_description meta))
       [] [] []
       (default [] (info_chapters meta))
       [] true []).

Section FetchMetadata.
Context {W : Type}.
(** [subprocess.run(cmd, ...)] of [yt-dlp --write-info-json] for a video
    id, writing under the given base name. *)
Variable run_yt_dlp_info : str -> str -> M W unit.
(** [p.exists()]. *)
Variable path_exists : Path -> W -> bool.
(** [json.loads(p.read_text())]. *)
Variable load_json : Path -> M W Info.
(** [if p.exists(): p.unlink()]. *)
Variable unlink_if_exists : Path -> M W unit.

(** [fetch_metadata(url)]. *)
Definition fetch_metadata (url : str) : M W (option VideoMeta) :=
  match extract_video_id url with
  | None => ret None
  | Some vid =>
      let tmp_base := py "/tmp/yt_meta_" ++ vid in
      run_yt_dlp_info tmp_base vid ;;;
      let json_file := tmp_base ++ py ".info.json" in
      fun w =>
        if negb (path_exists json_file w) then ret None w
        else
          (meta <- try_finally (load_json json_file)
                     (unlink_if_exists json_file) ;;
           ret (Some (video_of_info vid url meta))) w
  end.
End FetchMetadata.

End Fetch.

Import Fetch.

(** ** The input screen of [yt_transcriber_ui.py] *)

Module Input.

(** [l[:n]] for a list and any integer [n]. *)
Definition slice_list {A} (n : Z) (l : list A) : list A :=
  if 0 <=? n then take (Z.to_nat n) l
  else take (Z.to_nat (Z.of_nat (length l) + n)) l.

(** The non-empty stripped lines of the text area. *)
Definition url_lines (urls_text : str) : list str :=
  filter (fun u => u <> [])
    (map (strip is_space) (split_on newline (strip is_space urls_text))).

(** The list [valid_urls] that [render_input_phase] computes from the text
    area. *)
Definition valid_urls (BATCH_MAX_SIZE : Z) (urls_text : str) : list str :=
  match urls_text with
  | [] => []
  | _ =>
      let urls := url_lines urls_text in
      let valid_urls := filter (fun u => is_Some (extract_video_id u)) urls in
      match valid_urls with
      | [] => []
      | _ =>
          if Z.of_nat (length valid_urls) >? BATCH_MAX_SIZE
          then slice_list BATCH_MAX_SIZE valid_urls
          else valid_urls
      end
  end.

Section InputPhase.
Context {W : Type}.
Variable BATCH_MAX_SIZE : Z.
Variable fetch_metadata : str -> M W (option VideoMeta).

(** The loop over [valid_urls], with the list [videos] it appends to. *)
Fixpoint fetch_videos (urls : list str) (videos : list VideoMeta)
    : M W (list VideoMeta) :=
  match urls with
  | [] => ret videos
  | url :: rest =>
      meta <- fetch_metadata url ;;
      fetch_videos rest
        (match meta with
         | Some m => videos ++ [m]
         | None => videos
         end)
  end.

(** [render_input_phase()]; [urls_text] is what the text area holds and
    [clicked] tells that the user pressed the fetch button. *)
Definition render_input_phase (st : Session) (urls_text : str)
    (clicked : bool) : M W Session :=
  let valid_urls := valid_urls BATCH_MAX_SIZE urls_text in
  let fetch_btn := button clicked (bool_decide (valid_urls = [])) in
  if fetch_btn && negb (bool_decide (valid_urls = [])) then
    videos <- fetch_videos valid_urls [] ;;
    match videos with
    | [] => ret st
    | _ => ret (mkSession (py "review") videos (ss_results st))
    end
  else ret st.
End InputPhase.

End Input.

Import Input.

(** ** The transcript section of [src/core/writers.py] *)

Module Writers.

(** [sep.join(parts)]. *)
Fixpoint join_with (sep : str) (parts : list str) : str :=
  match parts with
  | [] => []
  | [p] => p
  | p :: rest => p ++ sep ++ join_with sep rest
  end.

(** [f"{ts}"] for a variable that holds [None] or a string. *)
Definition str_of_ts (ts : option str) : str :=
  match ts with
  | None => py "None"
  | Some s => s
  end.

(** The paragraph that [write_markdown] appends for a time stamp and the
    texts collected under it. *)
Definition md_paragraph (current_ts : option str) (para_lines : list str)
    : str :=
  py "**" ++ str_of_ts current_ts ++ py "** "
  ++ join_with (py " ") para_lines ++ [newline].

(** The variables of the loop of [write_markdown]. *)
Record MdLoop := mkMd {
  md_lines : list str;
  md_current_ts : option str;
  md_para_lines : list str
}.

(** One turn of that loop, for an entry that is a [TranscriptEntry]. *)
Definition md_step (st : MdLoop) (entry : TranscriptEntry) : MdLoop :=
  let ts := timestamp entry in
  let st :=
    if bool_decide (Some ts <> md_current_ts st) then
      let st :=
        match md_para_lines st with
        | [] => st
        | _ =>
            mkMd (md_lines st
                  ++ [md_paragraph (md_current_ts st) (md_para_lines st)])
              (md_current_ts st) []
        end in
      mkMd (md_lines st) (Some ts) (md_para_lines st)
    else st in
  mkMd (md_lines st) (md_current_ts st) (md_para_lines st ++ [text entry]).

(** The transcript section of [write_markdown]: what is appended to
    [lines] from the heading of the section on. *)
Definition md_transcript (lines : list str) (transcript : list TranscriptEntry)
    : list str :=
  let lines :=
    lines ++ [[newline] ++ py "---" ++ [newline; newline]
              ++ py "## Transcript" ++ [newline]] in
  match transcript with
  | [] => lines ++ [py "*No transcript available*"]
  | _ =>
      let st := fold_left md_step transcript (mkMd lines None []) in
      match md_para_lines st with
      | [] => md_lines st
      | _ =>
          md_lines st ++ [md_paragraph (md_current_ts st) (md_para_lines st)]
      end
  end.

(** A run of a paragraph of the Word document: its text, and whether it
    is set in bold at 9 points. *)
Record Run := mkRun { run_text : str; run_stamp : bool }.

(** A paragraph of the Word document: its style, if one is given, and
    its runs. *)
Record Paragraph := mkPara { para_style : option str; para_runs : list Run }.

(** The paragraph that [write_docx] adds for a time stamp and the texts
    collected under it: the run of the time stamp is left out when the
    time stamp is [None] or empty. *)
Definition docx_paragraph (last_timestamp : option str)
    (current_para_lines : list str) : Paragraph :=
  mkPara None
    (match last_timestamp with
     | Some (x :: ts) => [mkRun ((x :: ts) ++ py " ") true]
     | _ => []
     end
     ++ [mkRun (join_with (py " ") current_para_lines) false]).

(** The variables of the loop of [write_docx]. *)
Record DocxLoop := mkDocx {
  docx_paragraphs : list Paragraph;
  docx_current_para_lines : list str;
  docx_last_timestamp : option str
}.

(** One turn of that loop, for an entry that is a [TranscriptEntry]. *)
Definition docx_step (st : DocxLoop) (entry : TranscriptEntry) : DocxLoop :=
  let ts := timestamp entry in
  let st :=
    if bool_decide (docx_last_timestamp st = None)
       || bool_decide (Some ts <> docx_last_timestamp st) then
      let st :=
        match docx_current_para_lines st with
        | [] => st
        | _ =>
            mkDocx (docx_paragraphs st
                    ++ [docx_paragraph (docx_last_timestamp st)
                          (docx_current_para_lines st)])
              [] (docx_last_timestamp st)
        end in
      mkDocx (docx_paragraphs st) (docx_current_para_lines st) (Some ts)
    else st in
  mkDocx (docx_paragraphs st) (docx_current_para_lines st ++ [text entry])
    (docx_last_timestamp st).

(** The paragraphs that [write_docx] adds after the heading of the
    transcript. *)
Definition docx_transcript (transcript : list TranscriptEntry)
    : list Paragraph :=
  match transcript with
  | [] =>
      [mkPara (Some (py "Intense Quote"))
         [mkRun (py "No transcript available") false]]
  | _ =>
      let st := fold_left docx_step transcript (mkDocx [] [] None) in
      match docx_current_para_lines st with
      | [] => docx_paragraphs st
      | _ =>
          docx_paragraphs st
          ++ [docx_paragraph (docx_last_timestamp st)
                (docx_current_para_lines st)]
      end
  end.

End Writers.

Import Writers.

(** ** [cli.py] *)

Module Cli.

(** What [parse_args()] returns. *)
Record Args := mkArgs {
  arg_urls : list str;
  arg_from_file : option str;
  arg_output_dir : option str;
  arg_author : option str;
  arg_topic : option str;
  arg_year : option str;
  arg_no_links : bool
}.

(** The settings read by [load_config], with the keys that are looked
    up; [None] is a key that is missing. *)
Record Config := mkConfig {
  cfg_output_base : option str;
  cfg_filename_max_length : option Z
}.

(** The truth value of an argument that is [None] or a string. *)
Definition truthy (o : option str) : bool :=
  match o with
  | Some (_ :: _) => true
  | _ => false
  end.

(** The characters at which [str.splitlines] ends a line. *)
Definition is_linebreak (c : ascii) : bool :=
  in_range 10 13 c || in_range 28 30 c || (code c =? 133)%N.

(** [s.splitlines()]: [cur] is the line that is being read, and
    [after_cr] tells that the character before was a carriage return,
    which takes a line feed after it into the same line end. *)
Fixpoint splitlines_from (cur : str) (after_cr : bool) (s : str) : list str :=
  match s with
  | [] =>
      match cur with
      | [] => []
      | _ => [cur]
      end
  | c :: s' =>
      if after_cr && eqc c newline then splitlines_from [] false s'
      else if is_linebreak c then
        cur :: splitlines_from [] (eqc c "013"%char) s'
      else splitlines_from (cur ++ [c]) false s'
  end.

Definition splitlines (s : str) : list str := splitlines_from [] false s.

(** The URLs of a file: its lines, stripped, but the empty ones and those
    that start with [#]. *)
Definition file_urls (content : str) : list str :=
  filter (fun line => negb (startswith (py "#") line) = true)
    (filter (fun line => line <> [])
       (map (strip is_space) (splitlines content))).

Section Main.
Context {W : Type}.
Variable expand_path : str -> Path.
Variable mkdir_p : Path -> M W unit.
Variable path_exists : Path -> W -> bool.
(** [p.read_text()]. *)
Variable read_text : Path -> M W str.
(** [load_config("settings", ...)]. *)
Variable load_config : M W Config.
Variable run_yt_dlp_info : str -> str -> M W unit.
Variable load_json : Path -> M W Info.
Variable unlink_if_exists : Path -> M W unit.
Variable run_yt_dlp : str -> str -> M W unit.
Variable read_text_if_exists : Path -> M W (option str).
Variable write_markdown write_docx write_json : VideoMeta -> Path -> M W unit.

(** [load_output_base(override)]. *)
Definition load_output_base (override : option str) : M W str :=
  if truthy override then ret (expand_path (default [] override))
  else
    config <- load_config ;;
    ret (default (py "~/transcripts") (cfg_output_base config)).

(** [process_single(url, output_base, author_override, topic_override,
    year_override, include_links)]; what is printed is left out. *)
Definition process_single (url output_base : str)
    (author_override topic_override year_override : option str)
    (include_links : bool) : M W bool :=
  match extract_video_id url with
  | None => ret false
  | Some vid =>
      video <- fetch_metadata run_yt_dlp_info path_exists load_json
                 unlink_if_exists url ;;
      match video with
      | None => ret false
      | Some video =>
          let video :=
            if truthy author_override
            then set_naming video (default [] author_override)
                   (proposed_topic video) (proposed_year video)
            else video in
          let video :=
            if truthy topic_override
            then set_naming video (proposed_author video)
                   (default [] topic_override) (proposed_year video)
            else video in
          let video :=
            if truthy year_override
            then set_naming video (proposed_author video)
                   (proposed_topic video) (default [] year_override)
            else video in
          video <- fetch_transcript run_yt_dlp read_text_if_exists
                     unlink_if_exists video include_links ;;
          config <- load_config ;;
          let max_length := default 50 (cfg_filename_max_length config) in
          let filename :=
            build_filename (proposed_author video) (proposed_topic video)
              (proposed_year video) max_length in
          md_path <- build_output_path expand_path mkdir_p output_base
                       (proposed_author video) filename (py "md") ;;
          write_markdown video md_path ;;;
          docx_path <- build_output_path expand_path mkdir_p output_base
                         (proposed_author video) filename (py "docx") ;;
          write_docx video docx_path ;;;
          json_path <- build_output_path expand_path mkdir_p output_base
                         (proposed_author video) filename (py "json") ;;
          write_json video json_path ;;;
          ret true
      end
  end.

(** The loop of [main] over the URLs that are left, with the two
    counters; [urls] is the whole list, whose length decides on the
    overrides. *)
Fixpoint process_urls (urls todo : list str) (output_base : str)
    (include_links : bool) (args : Args) (success_count fail_count : Z)
    : M W (Z * Z) :=
  match todo with
  | [] => ret (success_count, fail_count)
  | url :: rest =>
      ok <- (if (length urls =? 1)%nat
             then process_single url output_base (arg_author args)
                    (arg_topic args) (arg_year args) include_links
             else process_single url output_base None None None
                    include_links) ;;
      if ok : bool
      then process_urls urls rest output_base include_links args
             (success_count + 1) fail_count
      else process_urls urls rest output_base include_links args
             success_count (fail_count + 1)
  end.

(** [main()], from the parsed arguments on; the value is the exit code
    given to [sys.exit]. *)
Definition main (args : Args) : M W Z :=
  let urls := arg_urls args in
  collected <-
    (if truthy (arg_from_file args) then
       let file_path := default [] (arg_from_file args) in
       fun w =>
         if negb (path_exists file_path w) then ret None w
         else
           (content <- read_text file_path ;;
            ret (Some (urls ++ file_urls content))) w
     else ret (Some urls)) ;;
  match collected with
  | None => ret 1
  | Some [] => ret 1
  | Some urls =>
      output_base <- load_output_base (arg_output_dir args) ;;
      let include_links := negb (arg_no_links args) in
      counts <- process_urls urls urls output_base include_links args 0 0 ;;
      ret (if snd counts =? 0 then 0 else 1)
  end.
End Main.

End Cli.

Import Cli.

(** ** The screens of [yt_transcriber_ui.py] together *)

Module App.

(** What the widgets hold in one run of the script: the text area and
    the fetch button of the input screen, the table and the buttons of
    the review screen, the button of the last screen. *)
Record Widgets := mkWidgets {
  ui_urls_text : str;
  ui_fetch_clicked : bool;
  ui_edited : list Row;
  ui_review_click : Click;
  ui_new_batch_clicked : bool
}.

(** [render_complete_phase()]: the summary is display only. *)
Definition render_complete_phase (st : Session) (clicked : bool) : Session :=
  if button clicked false then reset_state st else st.

Section Main.
Context {W : Type}.
Variable BATCH_MAX_SIZE : Z.
Variable OUTPUT_BASE : str.
Variable FILENAME_MAX_LENGTH : Z.
Variable include_links_default : bool.
Variable fetch_metadata : str -> M W (option VideoMeta).
Variable expand_path : str -> Path.
Variable mkdir_p : Path -> M W unit.
Variable run_yt_dlp : str -> str -> M W unit.
Variable read_text_if_exists : Path -> M W (option str).
Variable unlink_if_exists : Path -> M W unit.
Variable write_markdown write_docx write_json : VideoMeta -> Path -> M W unit.

(** [main()] for a session that has its three keys, as it has after
    [init_session_state()]; the sidebar is display only. *)
Definition ui_main (st : Session) (ui : Widgets) : M W Session :=
  let phase := ss_phase st in
  if bool_decide (phase = py "input") then
    render_input_phase BATCH_MAX_SIZE fetch_metadata st (ui_urls_text ui)
      (ui_fetch_clicked ui)
  else if bool_decide (phase = py "review") then
    match render_review_phase st (ui_edited ui) (ui_review_click ui) with
    | inl e => raise e
    | inr st' => ret st'
    end
  else if bool_decide (phase = py "processing") then
    render_processing_phase OUTPUT_BASE FILENAME_MAX_LENGTH
      include_links_default expand_path mkdir_p run_yt_dlp read_text_if_exists
      unlink_if_exists write_markdown write_docx write_json st
  else if bool_decide (phase = py "complete") then
    ret (render_complete_phase st (ui_new_batch_clicked ui))
  else ret (reset_state st).

(** The runs of the script that follow one another in a session, one for
    each state of the widgets. *)
Fixpoint ui_runs (uis : list Widgets) (st : Session) : M W Session :=
  match uis with
  | [] => ret st
  | ui :: rest => st' <- ui_main st ui ;; ui_runs rest st'
  end.
End Main.

(** The session of a new visitor. *)
Definition new_session : Session := mkSession (py "input") [] [].

(** What holds of the session in each phase.  Of the pending videos only
    the number and the selection are looked at: processing stores the
    transcript and the links in the videos it works on, which the record
    of the session does not show and no screen reads afterwards. *)
Definition session_ok (st : Session) : Prop :=
  let chosen := filter (fun v => selected v = true) (ss_pending_videos st) in
  (ss_phase st = py "input"
   /\ ss_pending_videos st = [] /\ ss_results st = [])
  \/ (ss_phase st = py "review"
      /\ ss_pending_videos st <> [] /\ ss_results st = [])
  \/ (ss_phase st = py "processing"
      /\ chosen <> [] /\ ss_results st = [])
  \/ (ss_phase st = py "complete"
      /\ chosen <> []
      /\ Forall2 (fun v r =>
            result_video_id r = video_id v /\ result_url r = video_url v
            /\ (status r = py "success" \/ status r = py "error"))
           chosen (ss_results st)).

End App.

Import App.

(** ** More of the small world, and notions used in the statements *)

Module Facts2.

(** The metadata that the small world has for every video. *)
Definition demo_info : Info :=
  mkInfo (Some (py "EP 7: A talk")) None (Some (py "Chan")) None
    (Some (py "20240131")) (Some 3661) None None None None None.

Definition demo_run_info (tmp_base vid : str) : M (list Path) unit :=
  fun w => (inr tt, w ++ [tmp_base ++ py ".info.json"]).

Definition demo_load_json (p : Path) : M (list Path) Info := ret demo_info.

Definition demo_unlink_file (p : Path) : M (list Path) unit :=
  fun w => (inr tt, filter (fun q => q <> p) w).

Definition demo_read_file (p : Path) : M (list Path) str :=
  ret (py "# more" ++ [newline] ++ py "https://youtu.be/aaaaaaaaaaa" ++ [newline]).

Definition demo_load_config : M (list Path) Config := ret (mkConfig None None).


(** The command line in the small world, with a writer for the Word
    document. *)
Definition demo_cli (write_docx : VideoMeta -> Path -> M (list Path) unit)
    (args : Args) : M (list Path) Z :=
  main absolute demo_mkdir_p demo_exists demo_read_file demo_load_config
    demo_run_info demo_load_json demo_unlink_file demo_run_yt_dlp
    demo_read_text demo_write write_docx demo_write args.

(** The screens in the small world. *)
Definition demo_ui (uis : list Widgets) (st : Session) : M (list Path) Session :=
  ui_runs 10 (py "/out") 50 true
    (fetch_metadata demo_run_info demo_exists demo_load_json demo_unlink_file)
    absolute demo_mkdir_p demo_run_yt_dlp demo_read_text demo_unlink
    demo_write demo_write demo_write uis st.

(** A visit: one URL is pasted and fetched, the table is saved as it is
    shown, and the video is processed. *)
Definition demo_visit : list Widgets :=
  [mkWidgets (py "https://youtu.be/dQw4w9WgXcQ") true [] NoClick false;
   mkWidgets []  false
     (review_table
        [video_of_info (py "dQw4w9WgXcQ") (py "https://youtu.be/dQw4w9WgXcQ")
           demo_info])
     ClickSave false;
   mkWidgets [] false [] NoClick false].

(** A paragraph of the transcript before it is written: a time stamp and
    the texts that go under it. *)
Definition Group : Type := str * list str.

(** The entries that a paragraph stands for. *)
Definition entries_of_group (g : Group) : list TranscriptEntry :=
  map (mkEntry (fst g)) (snd g).

(** Neighbouring paragraphs have different time stamps. *)
Fixpoint adjacent_differ (gs : list Group) : Prop :=
  match gs with
  | g1 :: rest =>
      match rest with
      | g2 :: _ => fst g1 <> fst g2
      | [] => True
      end /\ adjacent_differ rest
  | [] => True
  end.

(** The paragraphs of a list of entries that follows a paragraph begun
    with the time stamp [ts] and the texts [para]: the maximal runs of
    entries with one time stamp. *)
Fixpoint group_from (ts : str) (para : list str) (es : list TranscriptEntry)
    : list Group :=
  match es with
  | [] => [(ts, para)]
  | e :: es' =>
      if decide (timestamp e = ts) then group_from ts (para ++ [text e]) es'
      else (ts, para) :: group_from (timestamp e) [text e] es'
  end.

Definition group_runs (es : list TranscriptEntry) : list Group :=
  match es with
  | [] => []
  | e :: es' => group_from (timestamp e) [text e] es'
  end.

(** No match of the tag pattern at any place of [s]. *)
Definition tag_free (s : str) : Prop :=
  forall k : nat, match_tag (drop k s) = None.

End Facts2.

Import Facts2.
(** * Properties *)

(** ** Worked examples *)

Example sanitize_ex1 :
  sanitize_for_filename (py "Talk: Intro?") 50 underscore = py "Talk_Intro".
Proof. vm_compute. reflexivity. Qed.

Example sanitize_ex2 :
  sanitize_for_filename (py "") 4 underscore = py "untitled".
Proof. vm_compute. reflexivity. Qed.

Example sanitize_ex3 :
  sanitize_for_filename (py "  a  __ b/c  ") 4 underscore = py "a_bc".
Proof. vm_compute. reflexivity. Qed.

Example sanitize_ex4 :
  sanitize_for_filename (py "abc_def") 4 underscore = py "abc".
Proof. vm_compute. reflexivity. Qed.

Example sanitize_ex5 :
  sanitize_for_filename (py "untitled") 4 underscore = py "unti".
Proof. vm_compute. reflexivity. Qed.

Example sanitize_ex6 :
  sanitize_for_filename (py "abc") (-1) underscore = py "ab".
Proof. vm_compute. reflexivity. Qed.

Example build_ex1 :
  build_filename (py "A/B") (py "Talk: Intro?") (py "2024") 50 = py "AB_Talk_Intro_2024".
Proof. vm_compute. reflexivity. Qed.

Example video_id_ex1 :
  extract_video_id (py " https://youtu.be/dQw4w9WgXcQ?t=3 ") = Some (py "dQw4w9WgXcQ").
Proof. vm_compute. reflexivity. Qed.

Example video_id_ex2 : extract_video_id (py "dQw4w9WgXcQ") = Some (py "dQw4w9WgXcQ").
Proof. vm_compute. reflexivity. Qed.

Example video_id_ex3 : extract_video_id (py "dQw4w9WgXcQx") = None.
Proof. vm_compute. reflexivity. Qed.

Example timestamp_ex1 : format_timestamp 65 = py "[01:05]".
Proof. vm_compute. reflexivity. Qed.

Example timestamp_ex2 : format_timestamp 3661 = py "[61:01]".
Proof. vm_compute. reflexivity. Qed.

Example timestamp_ex3 : format_timestamp 360000 = py "[6000:00]".
Proof. vm_compute. reflexivity. Qed.

Example links_ex1 :
  extract_links_from_description
    (py "see https://a.b/c and http://d.e now") =
  [mkLink (py "https://a.b/c") (py "see  and  now");
   mkLink (py "http://d.e") (py "see  and  now")].
Proof. vm_compute. reflexivity. Qed.

Example links_ex2 : extract_links_from_description (py "https:// x httpss://y") = [].
Proof. vm_compute. reflexivity. Qed.

Example tags_ex1 : remove_tags (py "a<c> b</c><>d<e") = py "a b<>d<e".
Proof. vm_compute. reflexivity. Qed.

Example cue_time_ex1 : match_cue_time (py "00:01:05.520 --> 00:01:08.160") = Some (0, 1, 5).
Proof. vm_compute. reflexivity. Qed.

Example cue_time_ex2 : match_cue_time (py "01:05.520 --> 01:08.160") = None.
Proof. vm_compute. reflexivity. Qed.

(** ** Stripping *)

Section Strip.
Context {A : Type}.
Variable p : A -> bool.

Lemma drop_while_all (l : list A) : forallb p l = true -> drop_while p l = [].
Proof.
  induction l as [|x l IH]; simpl; [done|].
  destruct (p x); simpl; [exact IH|discriminate].
Qed.

Lemma drop_while_app (a b : list A) :
  drop_while p (a ++ b) =
  if forallb p a then drop_while p b else drop_while p a ++ b.
Proof.
  induction a as [|x a IH]; simpl; [done|].
  destruct (p x); simpl; [exact IH|done].
Qed.

Lemma drop_while_suffix (l : list A) : exists k, drop_while p l = drop k l.
Proof.
  induction l as [|x l [k IH]]; simpl.
  - by exists O.
  - destruct (p x); [by exists (S k)|by exists O].
Qed.

Lemma forallb_rev (l : list A) : forallb p (rev l) = forallb p l.
Proof.
  induction l as [|x l IH]; simpl; [done|].
  rewrite forallb_app, IH. simpl. destruct (p x), (forallb p l); done.
Qed.
End Strip.

Lemma rstrip_app_all (p : ascii -> bool) (s t : str) :
  forallb p t = true -> rstrip p (s ++ t) = rstrip p s.
Proof.
  intros H. unfold rstrip. rewrite rev_app_distr, drop_while_app.
  by rewrite forallb_rev, H.
Qed.

(** Characters of the stripped class around a string do not change what
    [strip] returns. *)
Lemma strip_padding (p : ascii -> bool) (pre s post : str) :
  forallb p pre = true -> forallb p post = true ->
  strip p (pre ++ s ++ post) = strip p s.
Proof.
  intros Hpre Hpost. unfold strip, lstrip.
  rewrite drop_while_app, Hpre, drop_while_app.
  destruct (forallb p s) eqn:Hs.
  - rewrite (drop_while_all p post Hpost), (drop_while_all p s Hs). done.
  - by apply rstrip_app_all.
Qed.

(** ** [extract_video_id] *)

Lemma match_id_shape (s g : str) :
  match_id s = Some g -> length g = 11%nat /\ forallb is_id_char g = true.
Proof.
  unfold match_id. intros H.
  destruct (length (take 11 s) =? 11)%nat eqn:Hlen; simpl in H; [|discriminate].
  destruct (forallb is_id_char (take 11 s)) eqn:Hall; [|discriminate].
  injection H as <-. split; [by apply Nat.eqb_eq|done].
Qed.

Lemma match_prefixed_shape (alts : list str) (s g : str) :
  match_prefixed alts s = Some g ->
  length g = 11%nat /\ forallb is_id_char g = true.
Proof.
  induction alts as [|a alts IH]; simpl; [discriminate|].
  destruct (startswith a s).
  - destruct (match_id (drop (length a) s)) as [g'|] eqn:Hm.
    + intros [= <-]. by apply match_id_shape in Hm.
    + exact IH.
  - exact IH.
Qed.

Lemma search_prefixed_shape (s g : str) :
  search_prefixed s = Some g ->
  length g = 11%nat /\ forallb is_id_char g = true.
Proof.
  induction s as [|c s IH]; cbn [search_prefixed].
  - destruct (match_prefixed id_prefixes []) as [g'|] eqn:Hm; [|discriminate].
    intros [= <-]. by apply match_prefixed_shape in Hm.
  - destruct (match_prefixed id_prefixes (c :: s)) as [g'|] eqn:Hm.
    + intros [= <-]. by apply match_prefixed_shape in Hm.
    + exact IH.
Qed.

Lemma search_bare_shape (s g : str) :
  search_bare s = Some g ->
  length g = 11%nat /\ forallb is_id_char g = true.
Proof.
  unfold search_bare.
  destruct (match_id s) as [g'|] eqn:Hm; [|discriminate].
  intros H. assert (g' = g) as <-.
  { destruct (drop 11 s) as [|c [|c' r]]; [congruence| |discriminate].
    destruct (eqc c newline); congruence. }
  by apply match_id_shape in Hm.
Qed.

(** The class [[a-zA-Z0-9_-]], spelled out. *)
Lemma is_id_char_spec (c : ascii) :
  is_id_char c = true <->
  (97 <= code c <= 122 \/ 65 <= code c <= 90 \/ 48 <= code c <= 57
   \/ c = "_"%char \/ c = "-"%char)%N.
Proof.
  unfold is_id_char, in_range.
  rewrite !orb_true_iff, !andb_true_iff, !N.leb_le, !N.eqb_eq.
  assert (forall a : ascii, code c = code a <-> c = a) as Hc.
  { intros a. unfold code. split; [|by intros ->].
    intros H. rewrite <- (ascii_N_embedding c), <- (ascii_N_embedding a).
    by rewrite H. }
  rewrite <- (Hc "_"%char), <- (Hc "-"%char). simpl. tauto.
Qed.

(** C10: [extract_video_id] returns [None] or exactly eleven characters,
    each an ASCII letter, a digit, an underscore or a hyphen; white space
    before and after the input does not change the result. *)
Theorem extract_video_id_shape :
  (forall url : str,
     match extract_video_id url with
     | None => True
     | Some g =>
         length g = 11%nat /\
         Forall (fun c => 97 <= code c <= 122 \/ 65 <= code c <= 90
                          \/ 48 <= code c <= 57
                          \/ c = "_"%char \/ c = "-"%char)%N g
     end) /\
  (forall pre url post : str,
     forallb is_space pre = true -> forallb is_space post = true ->
     extract_video_id (pre ++ url ++ post) = extract_video_id url).
Proof.
  split.
  - intros url. destruct (extract_video_id url) as [g|] eqn:H; [|done].
    assert (length g = 11%nat /\ forallb is_id_char g = true) as [Hl Hc].
    { unfold extract_video_id in H.
      destruct (search_prefixed (strip is_space url)) as [g'|] eqn:Hs.
      - injection H as <-. by apply search_prefixed_shape in Hs.
      - by apply search_bare_shape in H. }
    split; [done|]. apply Forall_forall. intros c Hin.
    apply is_id_char_spec. rewrite forallb_forall in Hc. apply Hc.
    by apply list_elem_of_In.
  - intros pre url post Hpre Hpost. unfold extract_video_id.
    by rewrite strip_padding.
Qed.

Lemma extract_video_id_shape_witness :
  extract_video_id (py "  " ++ py "https://youtu.be/dQw4w9WgXcQ" ++ py " ")
  = extract_video_id (py "https://youtu.be/dQw4w9WgXcQ").
Proof.
  apply (proj2 extract_video_id_shape); reflexivity.
Defined.

(** ** [format_timestamp] *)

Example spec_timestamp_ex1 : spec_format_timestamp 3661 = py "[1:01:01]".
Proof. vm_compute. reflexivity. Qed.

Example spec_timestamp_ex2 : spec_format_timestamp 65 = py "[1:05]".
Proof. vm_compute. reflexivity. Qed.

(** The characters of a decimal numeral. *)
Lemma chars_of_uint_decimal (d : Decimal.uint) :
  forallb is_decimal (py (NilZero.string_of_uint d)) = true.
Proof.
  assert (forall d, forallb is_decimal (py (NilEmpty.string_of_uint d)) = true) as H.
  { clear d. induction d; simpl; try done. }
  destruct d; simpl; try done; apply H.
Qed.

Lemma int_of_digits_acc (d : Decimal.uint) (acc : positive) :
  fold_left (fun a c => 10 * a + digit_val c)
    (py (NilEmpty.string_of_uint d)) (Z.pos acc)
  = Z.pos (Pos.of_uint_acc d acc).
Proof.
  revert acc. induction d; intros acc; cbn [NilEmpty.string_of_uint py
    String.list_ascii_of_string fold_left Pos.of_uint_acc]; [done|..];
  rewrite <- IHd; f_equal; unfold digit_val; cbn; lia.
Qed.

Lemma int_of_digits_uint (d : Decimal.uint) :
  int_of_digits (py (NilEmpty.string_of_uint d)) = Z.of_N (Pos.of_uint d).
Proof.
  unfold int_of_digits.
  induction d; cbn [NilEmpty.string_of_uint py String.list_ascii_of_string
    fold_left Pos.of_uint]; [done|exact IHd|..];
  match goal with
  | |- fold_left _ _ ?z = _ =>
      let z' := eval vm_compute in z in change z with z'
  end; rewrite int_of_digits_acc; done.
Qed.

Lemma string_of_uint_to_uint (n : N) :
  NilZero.string_of_uint (N.to_uint n) = NilEmpty.string_of_uint (N.to_uint n).
Proof.
  destruct (N.to_uint n) eqn:H; try done.
  destruct n; [discriminate|]. simpl in H.
  by apply DecimalPos.Unsigned.to_uint_nonnil in H.
Qed.

(** [int] reads back what [str] prints. *)
Lemma int_of_digits_str (n : Z) : 0 <= n -> int_of_digits (str_of_nonneg n) = n.
Proof.
  intros Hn. unfold str_of_nonneg.
  rewrite string_of_uint_to_uint, int_of_digits_uint.
  change (Pos.of_uint (N.to_uint (Z.to_N n))) with (N.of_uint (N.to_uint (Z.to_N n))).
  rewrite DecimalN.Unsigned.of_to. lia.
Qed.

Lemma str_of_nonneg_decimal (n : Z) : forallb is_decimal (str_of_nonneg n) = true.
Proof. apply chars_of_uint_decimal. Qed.

Lemma int_of_digits_zeros (k : nat) (s : str) :
  int_of_digits (repeat "0"%char k ++ s) = int_of_digits s.
Proof.
  unfold int_of_digits. rewrite fold_left_app.
  replace (fold_left _ (repeat "0"%char k) 0) with 0; [done|].
  induction k; simpl; [done|]. exact IHk.
Qed.

Lemma fmt_02d_value (n : Z) : 0 <= n -> int_of_digits (fmt_02d n) = n.
Proof.
  intros Hn. unfold fmt_02d. by rewrite int_of_digits_zeros, int_of_digits_str.
Qed.

Lemma fmt_02d_decimal (n : Z) : forallb is_decimal (fmt_02d n) = true.
Proof.
  unfold fmt_02d. rewrite forallb_app, str_of_nonneg_decimal, andb_true_r.
  induction (2 - length (str_of_nonneg n))%nat; simpl; done.
Qed.

Lemma fmt_02d_length (n : Z) : (2 <= length (fmt_02d n))%nat.
Proof.
  unfold fmt_02d. rewrite length_app, repeat_length. lia.
Qed.

(** Below one hundred the field has exactly two characters. *)
Lemma fmt_02d_two (n : Z) : 0 <= n < 100 -> length (fmt_02d n) = 2%nat.
Proof.
  intros Hn. rewrite <- (Z2Nat.id n) by lia.
  assert (Z.to_nat n < 100)%nat as Hk by lia.
  generalize dependent (Z.to_nat n). clear. intros k Hk.
  do 100 (destruct k as [|k]; [vm_compute; reflexivity|]). lia.
Qed.

Lemma format_02d_nonneg (n : Z) : 0 <= n -> format_02d n = fmt_02d n.
Proof. intros Hn. unfold format_02d. destruct (n <? 0) eqn:H; [lia|done]. Qed.

(** C3, as the code has it: for a time of [t >= 0] whole seconds the stamp
    is [[MM:SS]]: in brackets the total minutes [t / 60] in decimal, padded
    with zeros to at least two digits and never reduced to hours, a colon,
    and the seconds [t mod 60] in exactly two digits.  The stamp of a cue
    with no known time is the stamp of time zero. *)
Theorem format_timestamp_mm_ss (t : Z) :
  0 <= t ->
  exists mm ss : str,
    format_timestamp t = py "[" ++ mm ++ py ":" ++ ss ++ py "]"
    /\ forallb is_decimal mm = true /\ forallb is_decimal ss = true
    /\ (2 <= length mm)%nat /\ length ss = 2%nat
    /\ int_of_digits mm = t / 60 /\ int_of_digits ss = t mod 60
    /\ sentinel = format_timestamp 0.
Proof.
  intros Ht.
  assert (0 <= t / 60) as Hm by (apply Z.div_pos; lia).
  assert (0 <= t mod 60 < 60) as Hs by (apply Z.mod_pos_bound; lia).
  exists (fmt_02d (t / 60)), (fmt_02d (t mod 60)).
  unfold format_timestamp. rewrite !format_02d_nonneg by lia.
  repeat split.
  - apply fmt_02d_decimal.
  - apply fmt_02d_decimal.
  - apply fmt_02d_length.
  - apply fmt_02d_two. lia.
  - by apply fmt_02d_value.
  - apply fmt_02d_value. lia.
Qed.

Lemma format_timestamp_mm_ss_witness :
  exists mm ss : str,
    format_timestamp 3661 = py "[" ++ mm ++ py ":" ++ ss ++ py "]"
    /\ forallb is_decimal mm = true /\ forallb is_decimal ss = true
    /\ (2 <= length mm)%nat /\ length ss = 2%nat
    /\ int_of_digits mm = 3661 / 60 /\ int_of_digits ss = 3661 mod 60
    /\ sentinel = format_timestamp 0.
Proof. apply (format_timestamp_mm_ss 3661). lia. Defined.

(** C3, as the specification words it, fails: one hour, one minute and one
    second are stamped [[61:01]], not [[1:01:01]]. *)
Lemma format_timestamp_not_h_mm_ss :
  format_timestamp 3661 = py "[61:01]"
  /\ spec_format_timestamp 3661 = py "[1:01:01]"
  /\ format_timestamp 3661 <> spec_format_timestamp 3661.
Proof. vm_compute. repeat split. discriminate. Qed.

(** ** [sanitize_for_filename] *)

Section StripShape.
Context {A : Type}.
Variable p : A -> bool.

Lemma drop_while_hd_not (l : list A) : hd_not p (drop_while p l).
Proof.
  induction l as [|x l IH]; simpl; [done|].
  destruct (p x) eqn:E; [exact IH|exact E].
Qed.

Lemma hd_not_drop_while (l : list A) : hd_not p l -> drop_while p l = l.
Proof. destruct l as [|x l]; simpl; [done|]. by intros ->. Qed.

Lemma hd_not_take (n : nat) (l : list A) : hd_not p l -> hd_not p (take n l).
Proof. destruct l as [|x l], n; simpl; done. Qed.

Lemma rev_drop_while_take (l : list A) :
  exists k, rev (drop_while p (rev l)) = take k l.
Proof.
  destruct (drop_while_suffix p (rev l)) as [k ->].
  exists (length l - k)%nat.
  change (drop k (rev l)) with (skipn k (rev l)).
  by rewrite skipn_rev, rev_involutive.
Qed.
End StripShape.

Lemma rstrip_take (p : ascii -> bool) (s : str) : exists k, rstrip p s = take k s.
Proof. apply rev_drop_while_take. Qed.

Lemma rstrip_rev_hd_not (p : ascii -> bool) (s : str) :
  hd_not p (rev (rstrip p s)).
Proof. unfold rstrip. rewrite rev_involutive. apply drop_while_hd_not. Qed.

Lemma strip_fixed (p : ascii -> bool) (s : str) :
  hd_not p s -> hd_not p (rev s) -> strip p s = s.
Proof.
  intros H1 H2. unfold strip, lstrip, rstrip.
  rewrite (hd_not_drop_while p s H1), (hd_not_drop_while p (rev s) H2).
  apply rev_involutive.
Qed.

Lemma strip_take_drop (p : ascii -> bool) (s : str) :
  exists k j, strip p s = take k (drop j s).
Proof.
  unfold strip, lstrip.
  destruct (drop_while_suffix p s) as [j ->].
  destruct (rstrip_take p (drop j s)) as [k ->]. by exists k, j.
Qed.

Lemma length_rstrip (p : ascii -> bool) (s : str) :
  (length (rstrip p s) <= length s)%nat.
Proof. destruct (rstrip_take p s) as [k ->]. rewrite length_take. lia. Qed.

Lemma no_double_drop (c : ascii) (j : nat) (s : str) :
  no_double c s -> no_double c (drop j s).
Proof.
  revert s. induction j as [|j IH]; intros s H; [by rewrite drop_0|].
  destruct s as [|x s]; [done|]. simpl. apply IH. by destruct H.
Qed.

Lemma no_double_take (c : ascii) (k : nat) (s : str) :
  no_double c s -> no_double c (take k s).
Proof.
  revert s. induction k as [|k IH]; intros s H; [done|].
  destruct s as [|x s]; [done|]. destruct H as [H1 H2].
  change (no_double c (x :: take k s)).
  change ((match take k s with
           | y :: _ => eqc c x && eqc c y = false
           | [] => True
           end) /\ no_double c (take k s)).
  split; [|by apply IH].
  destruct s as [|y s]; [by destruct k|]. destruct k; [done|]. exact H1.
Qed.

Lemma eqc_eq (a b : ascii) : eqc a b = true <-> a = b.
Proof. apply Ascii.eqb_eq. Qed.

Section Runs.
Variable c : ascii.

Lemma sub_runs_from_Forall (p q : ascii -> bool) (b : bool) (s : str) :
  q c = true ->
  Forall (fun x => p x = false -> q x = true) s ->
  Forall (fun x => q x = true) (sub_runs_from p c b s).
Proof.
  intros Hc H. revert b. induction H as [|x s Hx Hs IH]; intros b; simpl.
  - constructor.
  - destruct (p x) eqn:E.
    + destruct b; [apply IH|]. constructor; [done|apply IH].
    + constructor; [by apply Hx|apply IH].
Qed.


(** Collapsing the runs of [c] leaves no doubled [c]; behind a run the
    result does not start with [c]. *)
Lemma collapse_no_double (b : bool) (s : str) :
  no_double c (sub_runs_from (eqc c) c b s)
  /\ (b = true -> hd_not (eqc c) (sub_runs_from (eqc c) c b s)).
Proof.
  revert b. induction s as [|x s IH]; intros b; simpl; [done|].
  destruct (eqc c x) eqn:E.
  - destruct b.
    + apply IH.
    + split; [|done]. destruct (IH true) as [H1 H2]. split; [|exact H1].
      specialize (H2 eq_refl).
      destruct (sub_runs_from (eqc c) c true s) as [|y r]; [done|].
      simpl in H2. rewrite H2. apply andb_false_r.
  - split; [|by intros _]. destruct (IH false) as [H1 _]. split; [|exact H1].
    destruct (sub_runs_from (eqc c) c false s); [done|]. by rewrite E.
Qed.

End Runs.


Lemma clean_char_parts (x : ascii) :
  clean_char x = true <->
  is_illegal x = false /\ is_kept x = true /\ is_space x = false.
Proof.
  unfold clean_char. rewrite !andb_true_iff, !negb_true_iff. tauto.
Qed.

Section Sanitize.
Variable c : ascii.
Hypothesis c_clean : clean_char c = true.

(** After the two filters, both substitutions of runs: clean characters
    and no doubled separator. *)
Lemma sanitize_collapsed (text : str) :
  let f :=
    sub_runs (eqc c) c
      (sub_runs is_space c
         (strip is_space
            (filter (fun x => is_kept x = true)
               (delete_class is_illegal text)))) in
  Forall (fun x => clean_char x = true) f /\ no_double c f.
Proof.
  intros f. split; [|apply collapse_no_double].
  apply sub_runs_from_Forall; [done|].
  eapply Forall_impl; [|by intros x Hx _; exact Hx].
  apply sub_runs_from_Forall; [done|].
  destruct (strip_take_drop is_space
    (filter (fun x => is_kept x = true) (delete_class is_illegal text)))
    as (k & j & ->).
  apply Forall_take, Forall_drop.
  apply Forall_forall. intros x Hx Hs.
  apply list_elem_of_filter in Hx as [Hk Hx].
  apply list_elem_of_filter in Hx as [Hi _].
  by apply clean_char_parts.
Qed.

Lemma strip_sanitized (f : str) :
  Forall (fun x => clean_char x = true) f -> no_double c f ->
  sanitized c (strip (eqc c) f).
Proof.
  intros Hf Hnd. unfold sanitized.
  destruct (strip_take_drop (eqc c) f) as (k & j & E).
  repeat split.
  - rewrite E. by apply Forall_take, Forall_drop.
  - rewrite E. by apply no_double_take, no_double_drop.
  - unfold strip. destruct (rstrip_take (eqc c) (lstrip (eqc c) f)) as [k' ->].
    apply hd_not_take, drop_while_hd_not.
  - apply rstrip_rev_hd_not.
Qed.

(** The truncation step keeps the shape and bounds the length. *)
Lemma truncate_sanitized (m : Z) (g : str) :
  0 <= m -> sanitized c g ->
  let h := if Z.of_nat (length g) >? m
           then rstrip (eqc c) (slice_to m g) else g in
  sanitized c h /\ Z.of_nat (length h) <= m.
Proof.
  intros Hm (Hf & Hnd & Hhd & Hlast) h. subst h.
  destruct (Z.of_nat (length g) >? m) eqn:E; [|split; [done|lia]].
  unfold slice_to. replace (0 <=? m) with true by lia.
  destruct (rstrip_take (eqc c) (take (Z.to_nat m) g)) as [k Ek].
  split; [repeat split|].
  - rewrite Ek. by apply Forall_take, Forall_take.
  - rewrite Ek. by apply no_double_take, no_double_take.
  - rewrite Ek. by apply hd_not_take, hd_not_take.
  - apply rstrip_rev_hd_not.
  - pose proof (length_rstrip (eqc c) (take (Z.to_nat m) g)) as Hl.
    rewrite length_take in Hl. lia.
Qed.

(** What [sanitize_for_filename] returns is the placeholder or a name of
    the sanitized shape within the length bound. *)
Lemma sanitize_result (text : str) (m : Z) :
  0 <= m ->
  sanitize_for_filename text m c = placeholder
  \/ (sanitized c (sanitize_for_filename text m c)
      /\ sanitize_for_filename text m c <> []
      /\ Z.of_nat (length (sanitize_for_filename text m c)) <= m).
Proof.
  intros Hm. unfold sanitize_for_filename.
  destruct text as [|x text]; [by left|].
  destruct (sanitize_collapsed (x :: text)) as [Hf Hnd].
  pose proof (truncate_sanitized m _ Hm (strip_sanitized _ Hf Hnd)) as [Hs Hl].
  cbv zeta in *.
  match goal with
  | |- context [match ?h with [] => placeholder | _ :: _ => _ end] =>
      destruct h eqn:E
  end; [by left|right]. done.
Qed.

End Sanitize.

Lemma underscore_clean : clean_char underscore = true.
Proof. reflexivity. Qed.

Lemma placeholder_sanitized : sanitized underscore placeholder.
Proof.
  unfold sanitized. repeat split; try reflexivity.
  repeat constructor.
Qed.






Example sanitize_twice_ex1 :
  sanitize_for_filename (sanitize_for_filename (py "") 4 underscore) 4 underscore
  = py "unti".
Proof. vm_compute. reflexivity. Qed.

Example sanitize_twice_ex2 :
  sanitize_for_filename (py "a b") 50 "."%char = py "a.b"
  /\ sanitize_for_filename (py "a.b") 50 "."%char = py "ab".
Proof. split; vm_compute; reflexivity. Qed.

(** ** [extract_links_from_description] *)

(** The context shared by the links of a line. *)
Lemma links_of_line_map (line : str) :
  links_of_line line =
  map (fun u => mkLink u (take 100 (strip is_space (remove_urls line))))
      (findall_urls line).
Proof.
  unfold links_of_line.
  assert (forall ctx : str,
            match ctx with [] => [] | _ => slice_to 100 ctx end = take 100 ctx)
    as ->.
  { intros [|x ctx]; done. }
  by destruct (findall_urls line).
Qed.

Lemma startswith_length (p l : str) :
  startswith p l = true -> (length p <= length l)%nat.
Proof.
  revert l. induction p as [|a p IH]; intros [|b l]; simpl; try done; [lia|].
  intros [_ H]%andb_true_iff. apply IH in H. lia.
Qed.

(** A pattern text without [x] sees the same prefix when the string is
    continued by [x]. *)
Lemma startswith_stop (x : ascii) (p l t : str) :
  Forall (fun a => a <> x) p ->
  startswith p (l ++ x :: t) = startswith p l.
Proof.
  intros Hp. revert l. induction Hp as [|a p Ha Hp IH]; intros l; [done|].
  destruct l as [|b l]; simpl.
  - destruct (eqc a x) eqn:E; [by apply eqc_eq in E|done].
  - by rewrite IH.
Qed.

Lemma take_while_stop {A} (p : A -> bool) (x : A) (l t : list A) :
  p x = false -> take_while p (l ++ x :: t) = take_while p l.
Proof.
  intros Hx. induction l as [|a l IH]; simpl; [by rewrite Hx|].
  destruct (p a); [by rewrite IH|done].
Qed.

Lemma take_while_length {A} (p : A -> bool) (l : list A) :
  (length (take_while p l) <= length l)%nat.
Proof.
  induction l as [|a l IH]; simpl; [done|]. destruct (p a); simpl; lia.
Qed.

Lemma drop_app_within {A} (n : nat) (l t : list A) :
  (n <= length l)%nat -> drop n (l ++ t) = drop n l ++ t.
Proof. intros H. rewrite drop_app. replace (n - length l)%nat with O by lia. done. Qed.

Lemma match_url_tail_stop (k : nat) (r t : str) :
  match_url_tail k (r ++ newline :: t) = match_url_tail k r.
Proof.
  unfold match_url_tail.
  rewrite startswith_stop by (repeat constructor; discriminate).
  destruct (startswith (py "://") r) eqn:E; [|done].
  apply startswith_length in E.
  rewrite drop_app_within by exact E.
  by rewrite take_while_stop.
Qed.

Lemma match_url_stop (l t : str) :
  match_url (l ++ newline :: t) = match_url l.
Proof.
  unfold match_url.
  rewrite startswith_stop by (repeat constructor; discriminate).
  destruct (startswith (py "http") l) eqn:E; [|done].
  apply startswith_length in E.
  rewrite drop_app_within by exact E.
  rewrite startswith_stop by (repeat constructor; discriminate).
  rewrite match_url_tail_stop.
  destruct (startswith (py "s") (drop 4 l)) eqn:E'; [|done].
  apply startswith_length in E'.
  rewrite drop_app_within by exact E'.
  by rewrite match_url_tail_stop.
Qed.

Lemma match_url_tail_length (k : nat) (r : str) (n : nat) :
  match_url_tail k r = Some n -> (n <= k + length r)%nat.
Proof.
  unfold match_url_tail. destruct (startswith (py "://") r) eqn:E; [|done].
  apply startswith_length in E.
  pose proof (take_while_length is_url_char (drop 3 r)) as H.
  rewrite length_drop in H.
  destruct (take_while is_url_char (drop 3 r)) eqn:E'; [done|].
  intros [= <-]. simpl in *. lia.
Qed.

(** A match lies within the string. *)
Lemma match_url_length (s : str) (n : nat) :
  match_url s = Some n -> (n <= length s)%nat.
Proof.
  unfold match_url. destruct (startswith (py "http") s) eqn:E; [|done].
  apply startswith_length in E. simpl in E.
  destruct (startswith (py "s") (drop 4 s)) eqn:E'.
  - apply startswith_length in E'. rewrite length_drop in E'. simpl in E'.
    destruct (match_url_tail 5 (drop 1 (drop 4 s))) eqn:T.
    + intros [= <-]. apply match_url_tail_length in T.
      rewrite !length_drop in T. lia.
    + intros T'. apply match_url_tail_length in T'.
      rewrite length_drop in T'. lia.
  - intros T'. apply match_url_tail_length in T'.
    rewrite length_drop in T'. lia.
Qed.

(** A scan that is inside a line goes on behind the newline as a fresh
    scan: no match reaches across the end of a line. *)
Lemma findall_urls_line (k : nat) (l t : str) :
  (k <= length l)%nat ->
  findall_from match_url k (l ++ newline :: t)
  = findall_from match_url k l ++ findall_from match_url 0 t.
Proof.
  revert k. induction l as [|x l IH]; intros k Hk.
  - simpl in Hk. replace k with O by lia. cbn [app findall_from].
    pose proof (match_url_stop [] t) as H. cbn [app] in H. by rewrite H.
  - change ((x :: l) ++ newline :: t) with (x :: (l ++ newline :: t)).
    cbn [findall_from]. destruct k as [|k].
    + change (x :: l ++ newline :: t) with ((x :: l) ++ newline :: t).
      rewrite match_url_stop.
      destruct (match_url (x :: l)) as [[|n]|] eqn:E.
      * by apply IH; simpl; lia.
      * apply match_url_length in E. simpl in E.
        rewrite IH by lia.
        change (take (S n) ((x :: l) ++ newline :: t))
          with (x :: take n (l ++ newline :: t)).
        rewrite take_app_le by lia. done.
      * by apply IH; simpl; lia.
    + apply IH. simpl in Hk. lia.
Qed.

(** The pieces of [split]: either there is no separator, or the text is
    the first piece, the separator and the rest. *)
Lemma split_on_cases (sep : ascii) (s : str) :
  (split_on sep s = [s] /\ Forall (fun x => x <> sep) s)
  \/ (exists l t, s = l ++ sep :: t /\ split_on sep s = l :: split_on sep t
                  /\ (length t < length s)%nat).
Proof.
  induction s as [|x s IH]; [by left|]. simpl.
  destruct (eqc x sep) eqn:E.
  - right. apply eqc_eq in E as ->. exists [], s. simpl. split_and!; [done|done|lia].
  - assert (x <> sep) as Hx by (intros H; apply eqc_eq in H; congruence).
    destruct IH as [[-> Hs]|(l & t & -> & -> & Hl)].
    + left. split; [done|by constructor].
    + right. exists (x :: l), t. split_and!; [done|done|simpl in *; lia].
Qed.

(** The URLs of a text are the URLs of its lines, line after line. *)
Lemma findall_urls_by_line (s : str) :
  findall_urls s = concat (map findall_urls (split_on newline s)).
Proof.
  remember (length s) as n eqn:En. revert s En.
  induction n as [n IH] using lt_wf_ind. intros s ->.
  destruct (split_on_cases newline s) as [[-> _]|(l & t & -> & -> & Hl)].
  - simpl. by rewrite app_nil_r.
  - unfold findall_urls, findall at 1.
    rewrite findall_urls_line by lia. simpl.
    f_equal. by apply (IH (length t)).
Qed.

Lemma extract_links_urls (description : str) :
  map url (extract_links_from_description description)
  = take 20 (findall_urls description).
Proof.
  unfold extract_links_from_description.
  destruct description as [|x d]; [done|].
  rewrite findall_urls_by_line.
  generalize (split_on newline (x :: d)). intros lines.
  change (take 20 (concat (map links_of_line lines)))
    with (firstn 20 (concat (map links_of_line lines))).
  rewrite <- firstn_map. f_equal.
  induction lines as [|l lines IH]; [done|].
  cbn [map concat]. rewrite map_app, IH. f_equal.
  rewrite links_of_line_map, map_map. simpl. apply map_id.
Qed.



Example links_ex3 :
  let d := concat (repeat (py "http://a.b c" ++ [newline]) 25) in
  length (findall_urls d) = 25%nat
  /\ length (extract_links_from_description d) = 20%nat.
Proof. vm_compute. done. Qed.

(** ** [parse_vtt_transcript] *)

Example parse_ex1 :
  parse_vtt_transcript
    (Some (py "WEBVTT" ++ [newline] ++ py "Kind: captions" ++ [newline]
           ++ [newline]
           ++ py "00:00:01.000 --> 00:00:03.000" ++ [newline]
           ++ py "hello <c>world</c>" ++ [newline]
           ++ py "00:01:05.000 --> 00:01:07.000" ++ [newline]
           ++ py "hello world" ++ [newline]
           ++ py "again" ++ [newline]))
  = [mkEntry (py "[00:01]") (py "hello world");
     mkEntry (py "[01:05]") (py "again")].
Proof. vm_compute. reflexivity. Qed.

Example parse_ex2 : parse_vtt_transcript None = [].
Proof. reflexivity. Qed.

(** What one turn of the loop does, by the cleaned text of the line. *)
Lemma parse_line_cases (st : ParseState) (raw : str) :
  match clean_text raw with
  | Some c =>
      if bool_decide (c ∈ seen_text st) then parse_line st raw = st
      else parse_line st raw =
           mkParse (entries st ++ [mkEntry (stamp (current_time st)) c])
                   (current_time st) ({[c]} ∪ seen_text st)
  | None =>
      entries (parse_line st raw) = entries st
      /\ seen_text (parse_line st raw) = seen_text st
  end.
Proof.
  unfold clean_text, parse_line, parse_start.
  set (line := strip is_space raw).
  destruct (bool_decide (line = []) || is_header line || isdigit line);
    [done|].
  destruct (contains (py "-->") line).
  { destruct (match_cue_time line) as [[[h m] s]|]; done. }
  set (clean := remove_tags line).
  destruct (bool_decide (clean = [])) eqn:E; cbn [negb andb]; [done|].
  cbn [seen_text entries current_time].
  rewrite (bool_decide_true (clean ∉ (∅ : gset str))) by set_solver.
  cbn [entries app text].
  destruct (bool_decide (clean ∈ seen_text st)) eqn:E'.
  - apply bool_decide_eq_true in E'.
    by rewrite (bool_decide_false (clean ∉ seen_text st)) by tauto.
  - apply bool_decide_eq_false in E'.
    by rewrite (bool_decide_true (clean ∉ seen_text st)) by done.
Qed.

Lemma parse_line_seen_mono (st : ParseState) (raw : str) :
  seen_text st ⊆ seen_text (parse_line st raw).
Proof.
  pose proof (parse_line_cases st raw) as H.
  destruct (clean_text raw) as [c|].
  - destruct (bool_decide (c ∈ seen_text st)); rewrite H; simpl; set_solver.
  - destruct H as [_ ->]. done.
Qed.

(** What a run of the loop appends: entries whose texts were not seen
    before, each the cleaned text of one of the lines, no text twice. *)
Lemma parse_lines_append (lines : list str) (st : ParseState) :
  exists more,
    entries (fold_left parse_line lines st) = entries st ++ more
    /\ Forall (fun e => (text e ∉ seen_text st)
                        /\ exists r, r ∈ lines /\ clean_text r = Some (text e))
         more
    /\ NoDup (map text more).
Proof.
  revert st. induction lines as [|raw lines IH]; intros st.
  { exists []. simpl. rewrite app_nil_r. split_and!; [done|constructor|constructor]. }
  cbn [fold_left].
  destruct (IH (parse_line st raw)) as (more & E & Hmore & Hnd).
  pose proof (parse_line_seen_mono st raw) as Hmono.
  assert (Forall (fun e => (text e ∉ seen_text st)
            /\ exists r, r ∈ raw :: lines /\ clean_text r = Some (text e)) more)
    as Hmore'.
  { eapply Forall_impl; [exact Hmore|]. intros e [H1 (r & Hr & Hc)].
    split; [set_solver|]. exists r. split; [by right|done]. }
  pose proof (parse_line_cases st raw) as H.
  destruct (clean_text raw) as [c|] eqn:Ec.
  - destruct (bool_decide (c ∈ seen_text st)) eqn:Es.
    + exists more. split_and!; [by rewrite E, H|done|done].
    + apply bool_decide_eq_false in Es.
      exists (mkEntry (stamp (current_time st)) c :: more).
      split_and!.
      * rewrite E, H. cbn [entries]. by rewrite <- app_assoc.
      * constructor; [|done]. simpl. split; [done|].
        exists raw. split; [by left|done].
      * simpl. constructor; [|done].
        intros Hin. apply list_elem_of_fmap in Hin as (e & He & Hin).
        assert (text e ∉ seen_text (parse_line st raw)) as Hne
          by (rewrite Forall_forall in Hmore; by apply Hmore).
        rewrite <- He, H in Hne. cbn [seen_text] in Hne. set_solver.
  - destruct H as [He Hs]. exists more. split_and!; [by rewrite E, He|done|done].
Qed.

(** A text that has been seen was seen before the run or is the cleaned
    text of one of its lines. *)
Lemma parse_lines_seen (lines : list str) (st : ParseState) (c : str) :
  c ∈ seen_text (fold_left parse_line lines st) ->
  c ∈ seen_text st \/ exists r, r ∈ lines /\ clean_text r = Some c.
Proof.
  revert st. induction lines as [|raw lines IH]; intros st; [by left|].
  cbn [fold_left]. intros Hc. apply IH in Hc as [Hc|(r & Hr & Hc)].
  - pose proof (parse_line_cases st raw) as H.
    destruct (clean_text raw) as [c'|] eqn:Ec.
    + destruct (bool_decide (c' ∈ seen_text st)); rewrite H in Hc;
        [by left|]. simpl in Hc.
      apply elem_of_union in Hc as [Hc|Hc]; [|by left].
      apply elem_of_singleton in Hc as ->. right. exists raw. split; [by left|done].
    + destruct H as [_ Hs]. rewrite Hs in Hc. by left.
  - right. exists r. split; [by right|done].
Qed.

Lemma parse_lines_entries_seen (lines : list str) (st : ParseState) :
  (forall e, e ∈ entries st -> text e ∈ seen_text st) ->
  forall e, e ∈ entries (fold_left parse_line lines st) ->
            text e ∈ seen_text (fold_left parse_line lines st).
Proof.
  revert st. induction lines as [|raw lines IH]; intros st Hst; [done|].
  cbn [fold_left]. apply IH. intros e He.
  pose proof (parse_line_cases st raw) as H.
  destruct (clean_text raw) as [c|].
  - destruct (bool_decide (c ∈ seen_text st)); rewrite H in He |- *;
      [by apply Hst|]. simpl in *.
    apply elem_of_app in He as [He|He]; [set_solver|].
    apply list_elem_of_singleton in He as ->. simpl. set_solver.
  - destruct H as [H1 H2]. rewrite H1 in He. rewrite H2. by apply Hst.
Qed.

(** C5: no text appears twice among the parsed cues, and of all the
    content lines with one cleaned text only the first gives a cue: it is
    stamped with the time cursor reached at that first line, whatever
    timing lines and repetitions follow. *)
Theorem parse_keeps_first_occurrence (content : str) :
  NoDup (map text (parse_vtt_transcript (Some content)))
  /\ forall (l1 l2 : list str) (raw c : str),
       split_on newline content = l1 ++ raw :: l2 ->
       clean_text raw = Some c ->
       (forall r, r ∈ l1 -> clean_text r <> Some c) ->
       exists before after,
         parse_vtt_transcript (Some content)
         = before
           ++ mkEntry (stamp (current_time (fold_left parse_line l1 parse_start))) c
           :: after
         /\ (c ∉ map text before) /\ (c ∉ map text after).
Proof.
  unfold parse_vtt_transcript. fold parse_start. split.
  - destruct (parse_lines_append (split_on newline content) parse_start)
      as (more & -> & _ & Hnd). done.
  - intros l1 l2 raw c -> Hc Hfirst.
    rewrite fold_left_app. cbn [fold_left].
    set (st1 := fold_left parse_line l1 parse_start).
    assert (c ∉ seen_text st1) as Hunseen.
    { intros Hin. apply parse_lines_seen in Hin as [Hin|(r & Hr & Hrc)].
      - set_solver.
      - by apply (Hfirst r). }
    pose proof (parse_line_cases st1 raw) as H. rewrite Hc in H.
    rewrite (bool_decide_false _ Hunseen) in H.
    destruct (parse_lines_append l2 (parse_line st1 raw))
      as (after & -> & Hafter & _).
    rewrite H in Hafter |- *. cbn [entries seen_text] in Hafter |- *.
    exists (entries st1), after. rewrite <- app_assoc. split_and!; [done| |].
    + intros Hin. apply list_elem_of_fmap in Hin as (e & -> & He).
      apply Hunseen. apply (parse_lines_entries_seen l1 parse_start); [|done].
      intros e' He'. by apply elem_of_nil in He'.
    + intros Hin. apply list_elem_of_fmap in Hin as (e & He & Hin).
      assert (text e ∉ {[c]} ∪ seen_text st1) as Hne
        by (rewrite Forall_forall in Hafter; by apply Hafter).
      rewrite <- He in Hne. set_solver.
Qed.

Lemma parse_keeps_first_occurrence_witness :
  exists before after,
    parse_vtt_transcript
      (Some (py "one" ++ [newline] ++ py "00:00:09.000 --> 00:00:10.000"
             ++ [newline] ++ py "<c>one</c>"))
    = before
      ++ mkEntry (stamp (current_time (fold_left parse_line [] parse_start)))
           (py "one")
      :: after
    /\ (py "one" ∉ map text before) /\ (py "one" ∉ map text after).
Proof.
  apply (proj2 (parse_keeps_first_occurrence
                  (py "one" ++ [newline] ++ py "00:00:09.000 --> 00:00:10.000"
                   ++ [newline] ++ py "<c>one</c>"))
           [] [py "00:00:09.000 --> 00:00:10.000"; py "<c>one</c>"]
           (py "one") (py "one")).
  - vm_compute. reflexivity.
  - vm_compute. reflexivity.
  - intros r Hr. by apply elem_of_nil in Hr.
Defined.

Example parse_ex3 :
  parse_vtt_transcript
    (Some (py "one" ++ [newline] ++ py "00:00:09.000 --> 00:00:10.000"
           ++ [newline] ++ py "<c>one</c>"))
  = [mkEntry (py "[00:00]") (py "one")].
Proof. vm_compute. reflexivity. Qed.

(** C6 does not hold of the code: a line that is only white space between
    tags is not discarded.  Its cleaned text, one blank, becomes a cue and
    enters the set of seen texts, so that a second such line is dropped as
    a repetition; a line with nothing between the tags gives no cue. *)
Theorem parse_emits_blank_cue :
  parse_vtt_transcript (Some (py "<c> </c>")) = [mkEntry (py "[00:00]") (py " ")]
  /\ seen_text (fold_left parse_line [py "<c> </c>"] parse_start) = {[py " "]}
  /\ parse_vtt_transcript (Some (py "<c> </c>" ++ [newline] ++ py "<b> </b>"))
     = [mkEntry (py "[00:00]") (py " ")]
  /\ parse_vtt_transcript (Some (py "<c></c>")) = [].
Proof.
  split_and!.
  - vm_compute. reflexivity.
  - apply set_eq. intros x. vm_compute fold_left. set_solver.
  - vm_compute. reflexivity.
  - vm_compute. reflexivity.
Qed.

(** ** [generate_unique_filename] *)

Section Unique.
Context {W : Type}.
Variable expand_path : str -> Path.
Variable mkdir_p : Path -> M W unit.
Variable path_exists : Path -> W -> bool.
(** Creating the directory succeeds, and it does not create or remove a
    file in it. *)
Hypothesis mkdir_ok : forall d w, fst (mkdir_p d w) = inr tt.
Hypothesis mkdir_keeps :
  forall d name w,
    path_exists (path_join d name) (snd (mkdir_p d w))
    = path_exists (path_join d name) w.
Variables base_dir author topic year extension : str.

Lemma build_output_path_runs (filename : str) (w : W) :
  build_output_path expand_path mkdir_p base_dir author filename extension w
  = (inr (path_join
            (path_join (expand_path base_dir)
               (sanitize_for_filename author 50 underscore))
            (filename ++ py "." ++ lstrip (eqc "."%char) extension)),
     snd (mkdir_p
            (path_join (expand_path base_dir)
               (sanitize_for_filename author 50 underscore)) w)).
Proof.
  unfold build_output_path, bind.
  pose proof (mkdir_ok (path_join (expand_path base_dir)
                (sanitize_for_filename author 50 underscore)) w) as H.
  destruct (mkdir_p _ w) as [r w']. simpl in H. subst r. done.
Qed.

Lemma candidate_after_mkdir (suffix : str) (w : W) :
  path_exists (candidate expand_path base_dir author topic year extension suffix)
    (snd (mkdir_p
            (path_join (expand_path base_dir)
               (sanitize_for_filename author 50 underscore)) w))
  = path_exists (candidate expand_path base_dir author topic year extension suffix) w.
Proof. apply mkdir_keeps. Qed.

Lemma build_numbered_path (k : Z) (w : W) :
  build_output_path expand_path mkdir_p base_dir author
    (build_filename author topic year 50 ++ py "_" ++ str_of_nonneg k)
    extension w
  = (inr (candidate expand_path base_dir author topic year extension (numbered k)),
     snd (mkdir_p
            (path_join (expand_path base_dir)
               (sanitize_for_filename author 50 underscore)) w)).
Proof.
  rewrite build_output_path_runs. unfold candidate, numbered.
  by rewrite <- !app_assoc.
Qed.

(** One turn of the loop. *)
Lemma unique_loop_step (fuel : nat) (c : Z) (w : W) :
  unique_loop expand_path mkdir_p path_exists (S fuel) base_dir author
    (build_filename author topic year 50) extension c w
  = let path := candidate expand_path base_dir author topic year extension
                  (numbered c) in
    let w' := snd (mkdir_p
                     (path_join (expand_path base_dir)
                        (sanitize_for_filename author 50 underscore)) w) in
    if negb (path_exists path w') then (inr (Some path), w')
    else if c + 1 >? 100 then
      (inl (ValueError (py "Too many files with same name: "
                        ++ build_filename author topic year 50)), w')
    else unique_loop expand_path mkdir_p path_exists fuel base_dir author
           (build_filename author topic year 50) extension (c + 1) w'.
Proof.
  cbn [unique_loop]. unfold bind. by rewrite build_numbered_path.
Qed.

(** The loop, entered with counter [c] in a world [w'] that has the files
    of [w]: it returns the first free numbered path from [c] on, and raises
    when all of them up to [_100] are taken. *)
Lemma unique_loop_runs (w : W) (fuel : nat) :
  forall (c : Z) (w' : W),
    2 <= c <= 100 -> (Z.to_nat (101 - c) <= fuel)%nat ->
    (forall s, path_exists (candidate expand_path base_dir author topic year extension s) w'
             = path_exists (candidate expand_path base_dir author topic year extension s) w) ->
    (forall k, c <= k <= 100 ->
       (forall j, c <= j < k ->
          path_exists (candidate expand_path base_dir author topic year extension (numbered j)) w = true) ->
       path_exists (candidate expand_path base_dir author topic year extension (numbered k)) w = false ->
       fst (unique_loop expand_path mkdir_p path_exists fuel base_dir author
              (build_filename author topic year 50) extension c w')
       = inr (Some (candidate expand_path base_dir author topic year extension (numbered k))))
    /\ ((forall j, c <= j <= 100 ->
          path_exists (candidate expand_path base_dir author topic year extension (numbered j)) w = true) ->
        fst (unique_loop expand_path mkdir_p path_exists fuel base_dir author
               (build_filename author topic year 50) extension c w')
        = inl (ValueError (py "Too many files with same name: "
                           ++ build_filename author topic year 50))).
Proof.
  induction fuel as [|fuel IH]; intros c w' Hc Hfuel Hsame; [lia|].
  rewrite unique_loop_step. cbv zeta.
  rewrite candidate_after_mkdir, Hsame.
  set (w'' := snd (mkdir_p _ w')).
  assert (forall s,
      path_exists (candidate expand_path base_dir author topic year extension s) w''
      = path_exists (candidate expand_path base_dir author topic year extension s) w)
    as Hsame'.
  { intros s. subst w''. by rewrite candidate_after_mkdir. }
  split.
  - intros k Hk Htaken Hfree.
    destruct (Z.eq_dec k c) as [->|Hne].
    + by rewrite Hfree.
    + rewrite Htaken by lia. cbn [negb].
      replace (c + 1 >? 100) with false by lia.
      apply (IH (c + 1) w''); [lia|lia|done|lia| |done].
      intros j Hj. apply Htaken. lia.
  - intros Htaken. rewrite Htaken by lia. cbn [negb].
    destruct (c + 1 >? 100) eqn:E; [done|].
    apply (IH (c + 1) w''); [lia|lia|done|].
    intros j Hj. apply Htaken. lia.
Qed.

(** The loop does not run out of turns. *)
Lemma unique_loop_total (fuel : nat) :
  forall (c : Z) (w : W),
    2 <= c <= 100 -> (Z.to_nat (101 - c) <= fuel)%nat ->
    fst (unique_loop expand_path mkdir_p path_exists fuel base_dir author
           (build_filename author topic year 50) extension c w)
    <> inr None.
Proof.
  induction fuel as [|fuel IH]; intros c w Hc Hfuel; [lia|].
  rewrite unique_loop_step. cbv zeta.
  destruct (negb (path_exists _ _)); [done|].
  destruct (c + 1 >? 100) eqn:E; [done|].
  apply IH; lia.
Qed.

(** C2: if the composed path does not exist it is returned as it is;
    otherwise the result is the first path that does not exist among those
    obtained by appending [_2], [_3], ... up to [_100] to the whole base
    filename; and when all of them exist, the hundred attempts end in the
    [ValueError] that tells so.  The loop always ends in one of these
    ways. *)
Theorem generate_unique_filename_first_free (w : W) :
  let taken suffix :=
    path_exists (candidate expand_path base_dir author topic year extension suffix) w in
  let outcome :=
    fst (generate_unique_filename expand_path mkdir_p path_exists
           base_dir author topic year extension w) in
  (taken [] = false ->
   outcome = inr (Some (candidate expand_path base_dir author topic year extension [])))
  /\ (forall k, 2 <= k <= 100 ->
        taken [] = true ->
        (forall j, 2 <= j < k -> taken (numbered j) = true) ->
        taken (numbered k) = false ->
        outcome = inr (Some (candidate expand_path base_dir author topic year
                               extension (numbered k))))
  /\ (taken [] = true ->
      (forall j, 2 <= j <= 100 -> taken (numbered j) = true) ->
      outcome = inl (ValueError (py "Too many files with same name: "
                                 ++ build_filename author topic year 50)))
  /\ outcome <> inr None.
Proof.
  intros taken outcome. subst taken outcome.
  unfold generate_unique_filename, bind.
  rewrite build_output_path_runs.
  change (path_join _ (build_filename author topic year 50 ++ py "."
                       ++ lstrip (eqc "."%char) extension))
    with (candidate expand_path base_dir author topic year extension []).
  rewrite candidate_after_mkdir.
  set (w' := snd (mkdir_p _ w)).
  assert (forall s,
      path_exists (candidate expand_path base_dir author topic year extension s) w'
      = path_exists (candidate expand_path base_dir author topic year extension s) w)
    as Hsame.
  { intros s. subst w'. by rewrite candidate_after_mkdir. }
  destruct (unique_loop_runs w 100 2 w' ltac:(lia) ltac:(lia) Hsame) as [HA HB].
  split_and!.
  - by intros ->.
  - intros k Hk -> Htaken Hfree. cbn [negb]. by apply HA.
  - intros -> Htaken. cbn [negb]. by apply HB.
  - destruct (negb (path_exists _ w)); [done|].
    apply unique_loop_total; lia.
Qed.
End Unique.

Lemma generate_unique_filename_first_free_witness :
  fst (generate_unique_filename absolute demo_mkdir_p demo_exists
         (py "/out") (py "X") (py "Y") (py "2024") (py "md")
         [py "/out/X/X_Y_2024.md"])
  = inr (Some (py "/out/X/X_Y_2024_2.md"))
  /\ fst (generate_unique_filename absolute demo_mkdir_p demo_exists
            (py "/out") (py "X") (py "Y") (py "2024") (py "md")
            [py "/out/X/X_Y_2024.md"; py "/out/X/X_Y_2024_2.md"])
     = inr (Some (py "/out/X/X_Y_2024_3.md")).
Proof.
  split.
  - refine (eq_trans
      (proj1 (proj2 (generate_unique_filename_first_free
                       absolute demo_mkdir_p demo_exists
                       (fun d w => eq_refl) (fun d name w => eq_refl)
                       (py "/out") (py "X") (py "Y") (py "2024") (py "md")
                       [py "/out/X/X_Y_2024.md"])) 2 _ _ _ _) _).
    + lia.
    + vm_compute. reflexivity.
    + intros j Hj. lia.
    + vm_compute. reflexivity.
    + vm_compute. reflexivity.
  - refine (eq_trans
      (proj1 (proj2 (generate_unique_filename_first_free
                       absolute demo_mkdir_p demo_exists
                       (fun d w => eq_refl) (fun d name w => eq_refl)
                       (py "/out") (py "X") (py "Y") (py "2024") (py "md")
                       [py "/out/X/X_Y_2024.md"; py "/out/X/X_Y_2024_2.md"]))
         3 _ _ _ _) _).
    + lia.
    + vm_compute. reflexivity.
    + intros j Hj. assert (j = 2) as -> by lia. vm_compute. reflexivity.
    + vm_compute. reflexivity.
    + vm_compute. reflexivity.
Defined.

Example unique_ex1 :
  fst (generate_unique_filename absolute demo_mkdir_p demo_exists
         (py "/out") (py "X") (py "Y") (py "2024") (py "md") [])
  = inr (Some (py "/out/X/X_Y_2024.md")).
Proof. vm_compute. reflexivity. Qed.

Example unique_ex2 :
  fst (generate_unique_filename absolute demo_mkdir_p demo_exists
         (py "/out") (py "X") (py "Y") (py "2024") (py "md")
         (py "/out/X/X_Y_2024.md"
          :: map (fun k => py "/out/X/X_Y_2024_" ++ str_of_nonneg (Z.of_nat k) ++ py ".md")
               (seq 2 99)))
  = inl (ValueError (py "Too many files with same name: X_Y_2024")).
Proof. vm_compute. reflexivity. Qed.

Example unique_ex3 :
  fst (generate_unique_filename absolute demo_mkdir_p demo_exists
         (py "/out") (py "X") (py "Y") (py "2024") (py "md")
         (py "/out/X/X_Y_2024.md"
          :: map (fun k => py "/out/X/X_Y_2024_" ++ str_of_nonneg (Z.of_nat k) ++ py ".md")
               (seq 2 98)))
  = inr (Some (py "/out/X/X_Y_2024_100.md")).
Proof. vm_compute. reflexivity. Qed.

(** ** The processing screen *)

Section Batch.
Context {W : Type}.
Variable OUTPUT_BASE : str.
Variable FILENAME_MAX_LENGTH : Z.
Variable include_links_default : bool.
Variable expand_path : str -> Path.
Variable mkdir_p : Path -> M W unit.
Variable run_yt_dlp : str -> str -> M W unit.
Variable read_text_if_exists : Path -> M W (option str).
Variable unlink_if_exists : Path -> M W unit.
Variable write_markdown write_docx write_json : VideoMeta -> Path -> M W unit.

Local Abbreviation body :=
  (process_body FILENAME_MAX_LENGTH expand_path mkdir_p run_yt_dlp
     read_text_if_exists unlink_if_exists write_markdown write_docx write_json).
Local Abbreviation process :=
  (process_and_save_video FILENAME_MAX_LENGTH expand_path mkdir_p run_yt_dlp
     read_text_if_exists unlink_if_exists write_markdown write_docx write_json).
Local Abbreviation process_all :=
  (process_videos OUTPUT_BASE FILENAME_MAX_LENGTH include_links_default
     expand_path mkdir_p run_yt_dlp read_text_if_exists unlink_if_exists
     write_markdown write_docx write_json).
Local Abbreviation render :=
  (render_processing_phase OUTPUT_BASE FILENAME_MAX_LENGTH
     include_links_default expand_path mkdir_p run_yt_dlp read_text_if_exists
     unlink_if_exists write_markdown write_docx write_json).

(** The record that stands for a failed item. *)
Local Abbreviation failed video e :=
  (mkResult (video_id video) (video_url video) (py "error") (exn_str e) [] []).

Ltac run_step :=
  match goal with
  | H : context [match ?c ?w with _ => _ end] |- _ =>
      let r := fresh "r" in let w' := fresh "w" in
      destruct (c w) as [[r|r] w']; [discriminate H|]
  end.

(** When the statements under [try] come to their end, the result is a
    success for this video with its three files. *)
Lemma process_body_success (result : ProcessResult) (video : VideoMeta)
    (output_base : str) (il : bool) (w w' : W) (r : ProcessResult) :
  body result video output_base il w = (inr r, w') ->
  result_video_id r = result_video_id result
  /\ result_url r = result_url result
  /\ status r = py "success"
  /\ length (files r) = 3%nat.
Proof.
  unfold process_body, bind. intros H.
  repeat run_step. injection H as <- _. done.
Qed.

(** [process_and_save_video] always returns a result: the one of the
    statements under [try], or the record of the failure. *)
Lemma process_and_save_video_cases (video : VideoMeta) (output_base : str)
    (il : bool) (w : W) :
  let result := mkResult (video_id video) (video_url video) (py "error") [] [] [] in
  match body result video output_base il w with
  | (inl e, w') => process video output_base il w = (inr (failed video e), w')
  | (inr r, w') => process video output_base il w = (inr r, w')
  end.
Proof.
  intros result. unfold process_and_save_video, try_except. fold result.
  by destruct (body result video output_base il w) as [[e|r] w'].
Qed.

Lemma process_and_save_video_total (video : VideoMeta) (output_base : str)
    (il : bool) (w : W) :
  exists r w',
    process video output_base il w = (inr r, w')
    /\ result_video_id r = video_id video
    /\ result_url r = video_url video
    /\ (status r = py "success" \/ status r = py "error").
Proof.
  pose proof (process_and_save_video_cases video output_base il w) as H.
  cbv zeta in H.
  destruct (body _ video output_base il w) as [[e|r] w'] eqn:E.
  - exists (failed video e), w'. split_and!; [done|done|done|by right].
  - apply process_body_success in E as (H1 & H2 & H3 & _).
    exists r, w'. split_and!; [done|done|done|by left].
Qed.

(** The loop appends to [results]; what it appends does not depend on
    what was there. *)
Lemma process_videos_acc (videos : list VideoMeta) (results : list ProcessResult)
    (w : W) :
  exists rs w',
    process_all videos [] w = (inr rs, w')
    /\ process_all videos results w = (inr (results ++ rs), w')
    /\ Forall2 (fun v r =>
         result_video_id r = video_id v /\ result_url r = video_url v
         /\ (status r = py "success" \/ status r = py "error")) videos rs.
Proof.
  revert results w. induction videos as [|v videos IH]; intros results w.
  { exists [], w. simpl. unfold ret. rewrite app_nil_r. split_and!; [done|done|constructor]. }
  destruct (process_and_save_video_total v OUTPUT_BASE include_links_default w)
    as (r & w1 & Hr & Hv).
  cbn [process_videos]. unfold bind. rewrite Hr.
  destruct (IH [r] w1) as (rs & w' & H0 & H1 & HF).
  destruct (IH (results ++ [r]) w1) as (rs' & w'' & H0' & H1' & _).
  assert (rs' = rs /\ w'' = w') as [-> ->] by (split; congruence).
  exists (r :: rs), w'. split_and!.
  - cbn [app]. rewrite H1. done.
  - rewrite H1'. by rewrite <- app_assoc.
  - by constructor.
Qed.

(** The loop over a batch is the loop over its front, then the item, then
    the loop over its rest, each from the world the one before left. *)
Lemma process_videos_split (l1 l2 : list VideoMeta) (v : VideoMeta) (w : W) :
  exists rs1 w1 r w2 rs2 w',
    process_all l1 [] w = (inr rs1, w1)
    /\ process v OUTPUT_BASE include_links_default w1 = (inr r, w2)
    /\ process_all l2 [] w2 = (inr rs2, w')
    /\ process_all (l1 ++ v :: l2) [] w = (inr (rs1 ++ r :: rs2), w').
Proof.
  revert w. induction l1 as [|v1 l1 IH]; intros w.
  - destruct (process_and_save_video_total v OUTPUT_BASE include_links_default w)
      as (r & w2 & Hr & _).
    destruct (process_videos_acc l2 [r] w2) as (rs2 & w' & H0 & H1 & _).
    exists [], w, r, w2, rs2, w'. split_and!; [done|done|done|].
    cbn [app process_videos]. unfold bind. by rewrite Hr.
  - destruct (process_and_save_video_total v1 OUTPUT_BASE include_links_default w)
      as (r1 & wa & Hr1 & _).
    destruct (IH wa) as (rs1 & w1 & r & w2 & rs2 & w' & H1 & H2 & H3 & H4).
    destruct (process_videos_acc l1 [r1] wa) as (rs1' & w1' & A0 & A1 & _).
    destruct (process_videos_acc (l1 ++ v :: l2) [r1] wa) as (rsx & wx & B0 & B1 & _).
    assert (rs1' = rs1 /\ w1' = w1) as [-> ->] by (split; congruence).
    assert (rsx = rs1 ++ r :: rs2 /\ wx = w') as [-> ->] by (split; congruence).
    exists (r1 :: rs1), w1, r, w2, rs2, w'. split_and!; [|done|done|].
    + cbn [process_videos]. unfold bind. by rewrite Hr1.
    + cbn [app process_videos]. unfold bind. by rewrite Hr1.
Qed.

(** C1: processing the frozen batch always ends, in phase [complete], with
    exactly one result per selected item, in the order of the items, each
    carrying the id and URL of its item.  Around any item the batch splits:
    the results before it are those of the items before it, processed
    without it; the item gives one result, which records the exception as
    status [error] with its message if the statements under [try] raised;
    and the items after it are processed as a batch of their own from the
    world it left. *)
Theorem batch_one_result_per_item (st : Session) (w : W) :
  let videos := filter (fun v => selected v = true) (ss_pending_videos st) in
  exists rs w',
    render st w = (inr (mkSession (py "complete") (ss_pending_videos st) rs), w')
    /\ length rs = length videos
    /\ Forall2 (fun v r =>
         result_video_id r = video_id v /\ result_url r = video_url v
         /\ (status r = py "success" \/ status r = py "error")) videos rs
    /\ forall l1 v l2,
         videos = l1 ++ v :: l2 ->
         exists rs1 w1 r w2 rs2,
           process_all l1 [] w = (inr rs1, w1)
           /\ process v OUTPUT_BASE include_links_default w1 = (inr r, w2)
           /\ process_all l2 [] w2 = (inr rs2, w')
           /\ rs = rs1 ++ r :: rs2
           /\ forall e wb,
                body (mkResult (video_id v) (video_url v) (py "error") [] [] [])
                  v OUTPUT_BASE include_links_default w1 = (inl e, wb) ->
                r = failed v e /\ w2 = wb.
Proof.
  intros videos.
  destruct (process_videos_acc videos [] w) as (rs & w' & Hrun & _ & HF).
  exists rs, w'. split_and!.
  - unfold render_processing_phase, bind. fold videos. by rewrite Hrun.
  - symmetry. by eapply Forall2_length.
  - exact HF.
  - intros l1 v l2 E.
    destruct (process_videos_split l1 l2 v w)
      as (rs1 & w1 & r & w2 & rs2 & wz & H1 & H2 & H3 & H4).
    rewrite <- E, Hrun in H4. injection H4 as -> ->.
    exists rs1, w1, r, w2, rs2. split_and!; [done|done|done|done|].
    intros e wb Hb.
    pose proof (process_and_save_video_cases v OUTPUT_BASE include_links_default w1)
      as Hc. cbv zeta in Hc. rewrite Hb, H2 in Hc. by injection Hc as -> ->.
Qed.
End Batch.

(** Three items of which the second fails at the fetch: three results, the
    second an error with the message of the exception; the first and the
    third are what they are in a batch without the second. *)
Example batch_ex1 :
  let run vs :=
    match fst (render_processing_phase (py "/out") 50 true absolute
                 demo_mkdir_p demo_run_yt_dlp demo_read_text demo_unlink
                 demo_write demo_write demo_write
                 (mkSession (py "processing") vs []) []) with
    | inr s => Some (ss_phase s, ss_results s)
    | inl _ => None
    end in
  let with_bad := [demo_video (py "aaa") true; demo_video (py "bad") true;
                   demo_video (py "skip") false; demo_video (py "ccc") true] in
  let without := [demo_video (py "aaa") true; demo_video (py "ccc") true] in
  exists r1 r2 r3,
    run with_bad = Some (py "complete", [r1; r2; r3])
    /\ run without = Some (py "complete", [r1; r3])
    /\ map status [r1; r2; r3] = [py "success"; py "error"; py "success"]
    /\ message r2 = py "yt-dlp failed"
    /\ files r1 = [py "/out/Chan/Chan_Topic_aaa_2024.md";
                   py "/out/Chan/Chan_Topic_aaa_2024.docx";
                   py "/out/Chan/Chan_Topic_aaa_2024.json"].
Proof.
  do 3 eexists. vm_compute. split_and!; reflexivity.
Qed.

(** ** The review screen and [BatchState.to_processing] *)

Lemma insert_same_image {A B} (f : A -> B) (l : list A) (i : nat) (x y : A) :
  l !! i = Some x -> f y = f x -> map f (<[i := y]> l) = map f l.
Proof.
  intros Hx Hf. change (map f) with (fmap (M := list) f).
  rewrite list_fmap_insert, Hf. apply list_insert_id.
  by rewrite list_lookup_fmap, Hx.
Qed.

(** The edits change no id and no URL, and neither add nor remove an
    item. *)
Lemma apply_rows_keeps (rows : list Row) (videos videos' : list VideoMeta) :
  apply_rows rows videos = inr videos' ->
  length videos' = length videos
  /\ map video_id videos' = map video_id videos
  /\ map video_url videos' = map video_url videos.
Proof.
  revert videos. induction rows as [|r rows IH]; intros videos; simpl.
  { by intros [= ->]. }
  destruct (videos !! row_idx r) as [v|] eqn:E; [|done].
  intros H. apply IH in H as (H1 & H2 & H3).
  rewrite length_insert in H1.
  rewrite (insert_same_image video_id _ _ v) in H2 by done.
  rewrite (insert_same_image video_url _ _ v) in H3 by done.
  done.
Qed.

Lemma index_lookup (v : VideoMeta) (videos : list VideoMeta) :
  v ∈ videos -> videos !! index v videos = Some v.
Proof.
  induction videos as [|v' videos IH]; [by intros H%elem_of_nil|].
  intros H. simpl. destruct (decide (v' = v)) as [->|Hne]; [done|].
  apply elem_of_cons in H as [->|H]; [done|]. by apply IH.
Qed.

(** A table that comes back as it was shown changes nothing. *)
Lemma apply_rows_unedited (shown videos : list VideoMeta) :
  Forall (fun v => v ∈ videos) shown ->
  apply_rows
    (map (fun v => mkRow (selected v) (proposed_author v) (proposed_topic v)
                     (proposed_year v) (index v videos)) shown) videos
  = inr videos.
Proof.
  induction 1 as [|v shown Hv Hs IH]; [done|].
  cbn [map apply_rows row_idx]. rewrite (index_lookup v videos Hv).
  assert (edit_video (mkRow (selected v) (proposed_author v) (proposed_topic v)
                        (proposed_year v) (index v videos)) v = v) as ->
    by (by destruct v).
  rewrite list_insert_id by (by apply index_lookup). exact IH.
Qed.

Lemma apply_review_table (videos : list VideoMeta) :
  apply_rows (review_table videos) videos = inr videos.
Proof. apply apply_rows_unedited. by apply Forall_forall. Qed.

(** C4, as the code has it: the rejection is made by the review screen.
    When no item is selected once the edits are applied, the save button
    is disabled and reports no click: the phase stays as it was, [review],
    the results are untouched, and the items are the same items (same
    number, ids and URLs), changed only as the user edited them, not
    at all if the table came back unedited.  [BatchState.to_processing]
    itself checks nothing: it always sets the phase to [processing] and
    empties the results. *)
Theorem review_save_needs_selection (st : Session) (edited : list Row)
    (videos : list VideoMeta) :
  ss_phase st = py "review" ->
  apply_rows edited (ss_pending_videos st) = inr videos ->
  filter (fun v => selected v = true) videos = [] ->
  render_review_phase st edited ClickSave
  = inr (mkSession (py "review") videos (ss_results st))
  /\ length videos = length (ss_pending_videos st)
  /\ map video_id videos = map video_id (ss_pending_videos st)
  /\ map video_url videos = map video_url (ss_pending_videos st)
  /\ (edited = review_table (ss_pending_videos st) ->
      videos = ss_pending_videos st)
  /\ forall b : BatchState,
       to_processing b = mkBatch (py "processing") (pending_videos b) [].
Proof.
  intros Hphase Hrows Hnone.
  pose proof (apply_rows_keeps _ _ _ Hrows) as (H1 & H2 & H3).
  split_and!; try done.
  - unfold render_review_phase. rewrite Hrows, Hnone, Hphase. done.
  - intros ->. rewrite apply_review_table in Hrows. by injection Hrows.
Qed.

Lemma review_save_needs_selection_witness :
  render_review_phase
    (mkSession (py "review") [demo_video (py "aaa") true] [])
    [mkRow false (py "Chan") (py "Topic aaa") (py "2024") 0] ClickSave
  = inr (mkSession (py "review") [demo_video (py "aaa") false] []).
Proof.
  apply (proj1 (review_save_needs_selection
                  (mkSession (py "review") [demo_video (py "aaa") true] [])
                  [mkRow false (py "Chan") (py "Topic aaa") (py "2024") 0]
                  [demo_video (py "aaa") false]
                  eq_refl eq_refl eq_refl)).
Defined.

(** C4, as stated, fails on [BatchState.to_processing]: a batch in review
    with no selected item passes to [processing]. *)
Lemma to_processing_not_rejected :
  filter (fun v => selected v = true)
    (pending_videos (mkBatch (py "review") [demo_video (py "aaa") false] []))
  = []
  /\ phase (to_processing (mkBatch (py "review") [demo_video (py "aaa") false] []))
     = py "processing"
  /\ phase (to_processing (mkBatch (py "review") [demo_video (py "aaa") false] []))
     <> py "review".
Proof. vm_compute. split_and!; [reflexivity|reflexivity|discriminate]. Qed.

Example review_ex1 :
  render_review_phase
    (mkSession (py "review") [demo_video (py "aaa") true] [])
    (review_table [demo_video (py "aaa") true]) ClickSave
  = inr (mkSession (py "processing") [demo_video (py "aaa") true] []).
Proof. vm_compute. reflexivity. Qed.

Example review_ex2 :
  render_review_phase
    (mkSession (py "review") [demo_video (py "aaa") true] [])
    (review_table [demo_video (py "aaa") true]) ClickBack
  = inr (mkSession (py "input") [] []).
Proof. vm_compute. reflexivity. Qed.

(** * Further properties of the code *)

(** ** Names and paths *)

Section SanitizeAny.
Variable c : ascii.
Hypothesis c_clean : clean_char c = true.

Lemma slice_to_take (m : Z) (s : str) : exists k, slice_to m s = take k s.
Proof. unfold slice_to. destruct (0 <=? m); eauto. Qed.

(** The truncation keeps the shape for any bound, negative ones too. *)
Lemma truncate_keeps_shape (m : Z) (g : str) :
  sanitized c g ->
  sanitized c (if Z.of_nat (length g) >? m
               then rstrip (eqc c) (slice_to m g) else g).
Proof.
  intros (Hf & Hnd & Hhd & Hlast).
  destruct (Z.of_nat (length g) >? m); [|done].
  destruct (slice_to_take m g) as [j ->].
  destruct (rstrip_take (eqc c) (take j g)) as [k Ek].
  repeat split.
  - rewrite Ek. by apply Forall_take, Forall_take.
  - rewrite Ek. by apply no_double_take, no_double_take.
  - rewrite Ek. by apply hd_not_take, hd_not_take.
  - apply rstrip_rev_hd_not.
Qed.

Lemma sanitize_shape_any (text : str) (m : Z) :
  sanitized c placeholder ->
  sanitized c (sanitize_for_filename text m c)
  /\ sanitize_for_filename text m c <> [].
Proof.
  intros Hp. unfold sanitize_for_filename.
  destruct text as [|x text]; [done|].
  destruct (sanitize_collapsed c c_clean (x :: text)) as [Hf Hnd].
  pose proof (truncate_keeps_shape m _ (strip_sanitized c _ Hf Hnd)) as Hs.
  cbv zeta in *.
  match goal with
  | |- context [match ?h with [] => placeholder | _ :: _ => _ end] =>
      destruct h eqn:E
  end; done.
Qed.
End SanitizeAny.

Lemma clean_char_safe (x : ascii) :
  clean_char x = true -> name_char x.
Proof.
  intros (Hi & Hk & Hs)%clean_char_parts. unfold name_char.
  unfold is_illegal in Hi. apply orb_false_iff in Hi as [Hi Hctl].
  apply orb_false_iff in Hi as [Hset Hq].
  split_and!.
  - unfold is_kept in Hk. rewrite Hs, orb_false_r in Hk.
    apply orb_true_iff in Hk as [Hk|Hk]; [by left|right].
    apply eqc_eq in Hk. done.
  - done.
  - intros Hin. apply list_elem_of_In in Hin.
    assert (existsb (eqc x) (py "<>:/\|?*") = true) as Hex; [|congruence].
    apply existsb_exists. exists x. split; [done|]. by apply eqc_eq.
  - intros E. rewrite E in Hq. discriminate.
  - unfold in_range in Hctl.
    apply andb_false_iff in Hctl as [Hctl|Hctl]; apply N.leb_gt in Hctl; lia.
Qed.

Lemma sanitize_name_chars (text : str) (max_length : Z) :
  sanitize_for_filename text max_length underscore <> []
  /\ Forall name_char (sanitize_for_filename text max_length underscore).
Proof.
  destruct (sanitize_shape_any underscore underscore_clean text max_length
              placeholder_sanitized) as [(Hf & _) Hne].
  split; [done|].
  eapply Forall_impl; [exact Hf|]. intros x Hx. by apply clean_char_safe.
Qed.

(** Whatever the text and the length bound, also a negative one, the
    sanitized name with the default separator is not empty and is made of
    word characters and hyphens only: no slash or other character that
    is illegal in a file name, no control character, no white space; and
    no underscore stands at either end or next to another one. *)
Theorem sanitize_output_safe (text : str) (max_length : Z) :
  let name := sanitize_for_filename text max_length underscore in
  name <> []
  /\ Forall name_char name
  /\ no_double underscore name
  /\ hd_not (eqc underscore) name
  /\ hd_not (eqc underscore) (rev name).
Proof.
  intros name. subst name.
  destruct (sanitize_shape_any underscore underscore_clean text max_length
              placeholder_sanitized) as [(Hf & Hnd & Hh & Hl) Hne].
  split_and!; try done.
  eapply Forall_impl; [exact Hf|]. intros x Hx. by apply clean_char_safe.
Qed.

(** The composed filename is the three sanitized components joined by two
    underscores; it is made of file-name characters only, and for a topic
    bound [max_length >= 0] it has at most [40 + max max_length 8]
    characters (90 with the default bound of 50). *)
Theorem build_filename_safe (author topic year : str) (max_length : Z) :
  let a := sanitize_for_filename author 30 underscore in
  let t := sanitize_for_filename topic max_length underscore in
  let y := sanitize_for_filename year 4 underscore in
  build_filename author topic year max_length = a ++ py "_" ++ t ++ py "_" ++ y
  /\ a <> [] /\ t <> [] /\ y <> []
  /\ Forall name_char (build_filename author topic year max_length)
  /\ (0 <= max_length ->
      Z.of_nat (length (build_filename author topic year max_length))
      <= 40 + Z.max max_length 8).
Proof.
  intros a t y.
  pose proof (sanitize_name_chars author 30) as (Ha & Hfa).
  pose proof (sanitize_name_chars topic max_length) as (Ht & Hft).
  pose proof (sanitize_name_chars year 4) as (Hy & Hfy).
  assert (name_char underscore) as Hu by (by apply clean_char_safe).
  split_and!; try done.
  - unfold build_filename. fold a t y.
    assert (Forall name_char (py "_")) as Hsep by (constructor; [exact Hu|constructor]).
    rewrite !Forall_app. done.
  - intros Hm. unfold build_filename. fold a t y.
    rewrite !length_app. cbn [py String.list_ascii_of_string length].
    assert (forall s m, 0 <= m ->
      Z.of_nat (length (sanitize_for_filename s m underscore)) <= Z.max m 8)
      as Hlen.
    { intros s m H.
      destruct (sanitize_result underscore underscore_clean s m H)
        as [->|(_ & _ & Hl)]; [|lia].
      change (Z.of_nat (length placeholder)) with 8. lia. }
    pose proof (Hlen author 30 ltac:(lia)).
    pose proof (Hlen topic max_length Hm).
    pose proof (Hlen year 4 ltac:(lia)).
    fold a t y in H, H0, H1. lia.
Qed.

Lemma build_filename_safe_witness :
  Z.of_nat (length (build_filename (py "A/B") (py "Talk: Intro?") (py "2024") 50))
  <= 40 + Z.max 50 8.
Proof.
  apply (proj2 (proj2 (proj2 (proj2 (proj2
          (build_filename_safe (py "A/B") (py "Talk: Intro?") (py "2024") 50)))))).
  lia.
Defined.

Section Paths.
Context {W : Type}.
Variable expand_path : str -> Path.
Variable mkdir_p : Path -> M W unit.
Variable path_exists : Path -> W -> bool.

(** Leading dots of the extension do not count: [.md] and [md] give the
    same path and the same effect on the world, for any number of dots. *)
Theorem build_output_path_ignores_dots
    (base_dir author filename dots extension : str) (w : W) :
  Forall (fun x => x = "."%char) dots ->
  build_output_path expand_path mkdir_p base_dir author filename
    (dots ++ extension) w
  = build_output_path expand_path mkdir_p base_dir author filename extension w.
Proof.
  intros Hdots. unfold build_output_path, bind, lstrip.
  rewrite drop_while_app.
  assert (forallb (eqc ".") dots = true) as ->; [|done].
  apply forallb_forall. intros x Hx%list_elem_of_In.
  rewrite Forall_forall in Hdots. rewrite (Hdots x Hx). by apply eqc_eq.
Qed.

Hypothesis mkdir_ok : forall d w, fst (mkdir_p d w) = inr tt.
Hypothesis mkdir_keeps :
  forall d name w,
    path_exists (path_join d name) (snd (mkdir_p d w))
    = path_exists (path_join d name) w.
Variables base_dir author topic year extension : str.

Local Abbreviation cand :=
  (candidate expand_path base_dir author topic year extension).

(** A path that the loop returns is a numbered candidate that does not
    exist, in the world the loop started from and in the one it leaves. *)
Lemma unique_loop_returns_free (w : W) (fuel : nat) :
  forall (c : Z) (w1 w2 : W) (p : Path),
    2 <= c <= 100 ->
    (forall s, path_exists (cand s) w1 = path_exists (cand s) w) ->
    unique_loop expand_path mkdir_p path_exists fuel base_dir author
      (build_filename author topic year 50) extension c w1
    = (inr (Some p), w2) ->
    (exists k, c <= k <= 100 /\ p = cand (numbered k))
    /\ path_exists p w = false
    /\ forall s, path_exists (cand s) w2 = path_exists (cand s) w.
Proof.
  induction fuel as [|fuel IH]; intros c w1 w2 p Hc Hsame; [done|].
  rewrite (unique_loop_step expand_path mkdir_p path_exists mkdir_ok). cbv zeta.
  rewrite (candidate_after_mkdir expand_path mkdir_p path_exists mkdir_keeps), Hsame.
  set (w' := snd (mkdir_p _ w1)).
  assert (forall s, path_exists (cand s) w' = path_exists (cand s) w) as Hsame'.
  { intros s. subst w'.
    by rewrite (candidate_after_mkdir expand_path mkdir_p path_exists mkdir_keeps). }
  destruct (path_exists (cand (numbered c)) w) eqn:E; cbn [negb].
  - destruct (c + 1 >? 100) eqn:E'; [done|].
    intros H. apply IH in H as ((k & Hk & ->) & Hfree & Hw2); [|lia|done].
    split_and!; [|done|done]. exists k. split; [lia|done].
  - intros [= <- <-]. split_and!; [|done|done]. exists c. split; [lia|done].
Qed.

(** As its docstring promises, [generate_unique_filename] returns only a
    path that does not exist: the composed path or one of its numbered
    variants [_2] ... [_100], which exists neither when the function is
    called nor when it returns. *)
Theorem generate_unique_filename_fresh (w w' : W) (p : Path) :
  generate_unique_filename expand_path mkdir_p path_exists
    base_dir author topic year extension w = (inr (Some p), w') ->
  (p = cand [] \/ exists k, 2 <= k <= 100 /\ p = cand (numbered k))
  /\ path_exists p w = false
  /\ path_exists p w' = false.
Proof.
  unfold generate_unique_filename, bind.
  rewrite (build_output_path_runs expand_path mkdir_p mkdir_ok).
  change (path_join _ (build_filename author topic year 50 ++ py "."
                       ++ lstrip (eqc "."%char) extension))
    with (cand []).
  rewrite (candidate_after_mkdir expand_path mkdir_p path_exists mkdir_keeps).
  set (w1 := snd (mkdir_p _ w)).
  assert (forall s, path_exists (cand s) w1 = path_exists (cand s) w) as Hsame.
  { intros s. subst w1.
    by rewrite (candidate_after_mkdir expand_path mkdir_p path_exists mkdir_keeps). }
  destruct (path_exists (cand []) w) eqn:E; cbn [negb].
  - intros H.
    apply (unique_loop_returns_free w) in H as ((k & Hk & ->) & Hfree & Hw2);
      [|lia|done].
    split_and!; [right; by exists k|done|by rewrite Hw2].
  - intros [= <- <-]. split_and!; [by left|done|by rewrite Hsame].
Qed.
End Paths.

Lemma build_output_path_ignores_dots_witness :
  build_output_path absolute demo_mkdir_p (py "/out") (py "X") (py "X_Y_2024")
    (py ".." ++ py "md") []
  = build_output_path absolute demo_mkdir_p (py "/out") (py "X")
      (py "X_Y_2024") (py "md") [].
Proof.
  apply (build_output_path_ignores_dots absolute demo_mkdir_p
           (py "/out") (py "X") (py "X_Y_2024") (py "..") (py "md") []).
  repeat constructor.
Defined.

Lemma generate_unique_filename_fresh_witness :
  demo_exists (py "/out/X/X_Y_2024_2.md") [py "/out/X/X_Y_2024.md"] = false.
Proof.
  apply (generate_unique_filename_fresh absolute demo_mkdir_p demo_exists
           (fun d w => eq_refl) (fun d name w => eq_refl)
           (py "/out") (py "X") (py "Y") (py "2024") (py "md")
           [py "/out/X/X_Y_2024.md"] [py "/out/X/X_Y_2024.md"]
           (py "/out/X/X_Y_2024_2.md")).
  vm_compute. reflexivity.
Defined.

(** ** Video ids *)

Lemma match_id_exact (g rest : str) :
  length g = 11%nat -> forallb is_id_char g = true ->
  match_id (g ++ rest) = Some g.
Proof.
  intros Hl Hc. unfold match_id.
  rewrite take_app_length' by done. by rewrite Hl, Hc.
Qed.

Lemma match_id_length (s g : str) :
  match_id s = Some g -> (11 <= length s)%nat.
Proof.
  intros H. apply match_id_shape in H as H'. destruct H' as [Hl _].
  unfold match_id in H.
  destruct (_ && _) in H; [|done]. injection H as <-.
  rewrite length_take in Hl. lia.
Qed.

Lemma match_prefixed_length (alts : list str) (s g : str) :
  Forall (fun a => (2 <= length a)%nat) alts ->
  match_prefixed alts s = Some g -> (13 <= length s)%nat.
Proof.
  induction 1 as [|a alts Ha _ IH]; simpl; [done|].
  destruct (startswith a s) eqn:E; [|exact IH].
  destruct (match_id (drop (length a) s)) as [g'|] eqn:Hm; [|exact IH].
  intros _. apply match_id_length in Hm. rewrite length_drop in Hm. lia.
Qed.

Lemma search_prefixed_length (s g : str) :
  search_prefixed s = Some g -> (13 <= length s)%nat.
Proof.
  assert (Forall (fun a : str => (2 <= length a)%nat) id_prefixes) as Hp
    by (repeat constructor; simpl; lia).
  induction s as [|x s IH]; cbn [search_prefixed].
  - destruct (match_prefixed id_prefixes []) eqn:E; [|done].
    intros _. by apply (match_prefixed_length _ _ _ Hp) in E.
  - destruct (match_prefixed id_prefixes (x :: s)) eqn:E.
    + intros _. by apply (match_prefixed_length _ _ _ Hp) in E.
    + intros H%IH. simpl. lia.
Qed.

Lemma id_char_not_space (x : ascii) : is_id_char x = true -> is_space x = false.
Proof.
  intros H. apply is_id_char_spec in H.
  unfold is_space, in_range.
  destruct H as [H|[H|[H|[->| ->]]]]; try done;
    repeat (apply orb_false_iff; split);
    try (apply andb_false_iff; first [left; apply N.leb_gt; lia | right; apply N.leb_gt; lia]);
    apply N.eqb_neq; lia.
Qed.

Lemma strip_id (g : str) :
  forallb is_id_char g = true -> strip is_space g = g.
Proof.
  intros Hc. rewrite forallb_forall in Hc. apply strip_fixed.
  - destruct g as [|x g]; [done|]. simpl. apply id_char_not_space, Hc. by left.
  - destruct (rev g) as [|x r] eqn:E; [done|]. simpl.
    apply id_char_not_space, Hc. apply in_rev. rewrite E. by left.
Qed.

Lemma extract_video_id_id_chars (url g : str) :
  extract_video_id url = Some g ->
  length g = 11%nat /\ forallb is_id_char g = true.
Proof.
  unfold extract_video_id.
  destruct (search_prefixed (strip is_space url)) as [g'|] eqn:Hs.
  - intros [= <-]. by apply search_prefixed_shape in Hs.
  - apply search_bare_shape.
Qed.

Lemma search_prefixed_skip (x : ascii) (s : str) :
  match_prefixed id_prefixes (x :: s) = None ->
  search_prefixed (x :: s) = search_prefixed s.
Proof. intros H. cbn [search_prefixed]. by rewrite H. Qed.

Lemma search_prefixed_hit (s g : str) :
  match_prefixed id_prefixes s = Some g -> search_prefixed s = Some g.
Proof. intros H. destruct s; cbn [search_prefixed]; by rewrite H. Qed.

Lemma match_prefixed_first (a : str) (alts : list str) (s g : str) :
  startswith a s = true -> match_id (drop (length a) s) = Some g ->
  match_prefixed (a :: alts) s = Some g.
Proof. intros H1 H2. cbn [match_prefixed]. by rewrite H1, H2. Qed.

(** An id that [extract_video_id] returns is read back from the watch URL
    that the program builds from it for [yt-dlp] and for the written
    files, and from the bare id itself. *)
Theorem extract_video_id_round_trip (url g : str) :
  extract_video_id url = Some g ->
  extract_video_id (py "https://youtube.com/watch?v=" ++ g) = Some g
  /\ extract_video_id g = Some g.
Proof.
  intros [Hl Hc]%extract_video_id_id_chars. split.
  - unfold extract_video_id.
    assert (strip is_space (py "https://youtube.com/watch?v=" ++ g)
            = py "https://youtube.com/watch?v=" ++ g) as ->.
    { apply strip_fixed; [done|].
      rewrite rev_app_distr.
      destruct (rev g) as [|x r] eqn:E.
      - apply (f_equal (@length ascii)) in E. rewrite length_rev, Hl in E. done.
      - simpl. rewrite forallb_forall in Hc. apply id_char_not_space, Hc.
        apply in_rev. rewrite E. by left. }
    pose proof (match_id_exact g [] Hl Hc) as Hm. rewrite app_nil_r in Hm.
    unfold py. cbn [String.list_ascii_of_string app].
    rewrite !search_prefixed_skip by reflexivity.
    rewrite (search_prefixed_hit _ g); [done|].
    by apply match_prefixed_first.
  - unfold extract_video_id. rewrite (strip_id g Hc).
    destruct (search_prefixed g) as [g'|] eqn:Hs.
    { apply search_prefixed_length in Hs. lia. }
    unfold search_bare.
    pose proof (match_id_exact g [] Hl Hc) as Hm. rewrite app_nil_r in Hm.
    rewrite Hm. rewrite drop_ge by lia. done.
Qed.

Lemma extract_video_id_round_trip_witness :
  extract_video_id (py "https://youtube.com/watch?v=" ++ py "dQw4w9WgXcQ")
  = Some (py "dQw4w9WgXcQ")
  /\ extract_video_id (py "dQw4w9WgXcQ") = Some (py "dQw4w9WgXcQ").
Proof.
  apply (extract_video_id_round_trip (py "youtu.be/dQw4w9WgXcQ?t=1")).
  vm_compute. reflexivity.
Defined.

(** ** The URLs that are found *)

Lemma startswith_split (p s : str) :
  startswith p s = true -> s = p ++ drop (length p) s.
Proof.
  revert s. induction p as [|a p IH]; intros [|b s]; simpl; try done.
  intros [Hab H]%andb_true_iff. apply eqc_eq in Hab as ->. f_equal. by apply IH.
Qed.

Lemma take_while_Forall {A} (p : A -> bool) (l : list A) :
  Forall (fun x => p x = true) (take_while p l).
Proof.
  induction l as [|x l IH]; simpl; [constructor|].
  destruct (p x) eqn:E; by constructor.
Qed.

Lemma take_while_take {A} (p : A -> bool) (l : list A) :
  take (length (take_while p l)) l = take_while p l.
Proof.
  induction l as [|x l IH]; simpl; [done|].
  destruct (p x); simpl; [by rewrite IH|done].
Qed.

Lemma match_url_tail_take (k : nat) (r : str) (n : nat) :
  match_url_tail k r = Some n ->
  exists body,
    body <> [] /\ Forall (fun x => is_url_char x = true) body
    /\ (n = k + 3 + length body)%nat
    /\ take (3 + length body) r = py "://" ++ body.
Proof.
  unfold match_url_tail. destruct (startswith (py "://") r) eqn:E; [|done].
  apply startswith_split in E. change (length (py "://")) with 3%nat in E.
  remember (drop 3 r) as rest eqn:Er. clear Er. subst r.
  destruct (take_while is_url_char rest) as [|x body] eqn:Eb; [done|].
  intros [= <-]. exists (x :: body). rewrite <- Eb. split_and!.
  - by rewrite Eb.
  - apply take_while_Forall.
  - by rewrite Eb.
  - rewrite (take_app_add' (py "://") rest 3); [|done].
    by rewrite take_while_take.
Qed.

(** What the URL pattern matches: [http://] or [https://] and then one or
    more characters of the URL class. *)
Lemma match_url_take (s : str) (n : nat) :
  match_url s = Some n ->
  exists scheme body,
    (scheme = py "http://" \/ scheme = py "https://")
    /\ body <> [] /\ Forall (fun x => is_url_char x = true) body
    /\ take n s = scheme ++ body.
Proof.
  unfold match_url. destruct (startswith (py "http") s) eqn:E; [|done].
  apply startswith_split in E. change (length (py "http")) with 4%nat in E.
  assert (forall k r n', match_url_tail k r = Some n' ->
            forall front, length front = k -> 
            exists body, body <> []
              /\ Forall (fun x => is_url_char x = true) body
              /\ take n' (front ++ r) = front ++ py "://" ++ body) as Htail.
  { intros k r n' H front <-.
    apply match_url_tail_take in H as (body & H1 & H2 & -> & H4).
    exists body. split_and!; [done|done|].
    rewrite <- Nat.add_assoc.
    rewrite (take_app_add' front r (length front)); [|done]. by rewrite H4. }
  destruct (startswith (py "s") (drop 4 s)) eqn:E'.
  - apply startswith_split in E'. change (length (py "s")) with 1%nat in E'.
    destruct (match_url_tail 5 (drop 1 (drop 4 s))) as [n'|] eqn:T.
    + intros [= <-].
      destruct (Htail _ _ _ T (py "https") eq_refl) as (body & H1 & H2 & H3).
      exists (py "https://"), body. split_and!; [by right|done|done|].
      rewrite E, E' at 1. exact H3.
    + intros T'.
      destruct (Htail _ _ _ T' (py "http") eq_refl) as (body & H1 & H2 & H3).
      exists (py "http://"), body. split_and!; [by left|done|done|].
      rewrite E at 1. exact H3.
  - intros T'.
    destruct (Htail _ _ _ T' (py "http") eq_refl) as (body & H1 & H2 & H3).
    exists (py "http://"), body. split_and!; [by left|done|done|].
    rewrite E at 1. exact H3.
Qed.

(** What [findall] returns are the matched pieces of the text. *)
Lemma findall_from_pieces (m : str -> option nat) (skip : nat) (s : str) (u : str) :
  u ∈ findall_from m skip s ->
  exists front rest n, s = front ++ rest /\ m rest = Some n /\ u = take n rest.
Proof.
  revert skip. induction s as [|x s IH]; intros skip; cbn [findall_from].
  { by intros H%elem_of_nil. }
  assert (forall k, u ∈ findall_from m k s ->
            exists front rest n,
              x :: s = front ++ rest /\ m rest = Some n /\ u = take n rest) as Hrec.
  { intros k (front & rest & n & -> & Hm & ->)%IH.
    by exists (x :: front), rest, n. }
  destruct skip as [|k]; [|apply Hrec].
  destruct (m (x :: s)) as [[|n]|] eqn:E; [apply Hrec| |apply Hrec].
  intros [->|H]%elem_of_cons; [|by eapply Hrec].
  by exists [], (x :: s), (S n).
Qed.

(** Every URL that is extracted stands in the text as it is returned; it
    starts with [http://] or [https://], goes on with at least one more
    character, and holds no white space, angle bracket or double quote. *)
Theorem extracted_urls_well_formed (description : str) :
  Forall (fun link =>
    (exists front back, description = front ++ url link ++ back)
    /\ (exists body, body <> []
          /\ (url link = py "http://" ++ body \/ url link = py "https://" ++ body))
    /\ Forall (fun x => is_space x = false /\ x <> "<"%char /\ x <> ">"%char
                        /\ code x <> 34%N) (url link))
    (extract_links_from_description description).
Proof.
  apply Forall_forall. intros link Hin.
  assert (url link ∈ findall_urls description) as Hu.
  { pose proof (extract_links_urls description) as H.
    apply (list_elem_of_fmap_2 url) in Hin.
    change (url <$> extract_links_from_description description)
      with (map url (extract_links_from_description description)) in Hin.
    rewrite H in Hin. by apply (subseteq_take 20). }
  apply findall_from_pieces in Hu as (front & rest & n & -> & Hm & Eu).
  apply match_url_take in Hm as (scheme & body & Hs & Hne & Hbody & Ht).
  rewrite Ht in Eu. split_and!.
  - exists front, (drop n rest). rewrite Eu, <- Ht. by rewrite take_drop.
  - exists body. split; [done|]. rewrite Eu. destruct Hs as [-> | ->]; auto.
  - rewrite Eu. apply Forall_app. split.
    + destruct Hs as [-> | ->]; repeat constructor; done.
    + eapply Forall_impl; [exact Hbody|]. intros x Hx.
      unfold is_url_char in Hx. apply negb_true_iff in Hx.
      apply orb_false_iff in Hx as [Hx Hq].
      apply orb_false_iff in Hx as [Hx Hgt].
      apply orb_false_iff in Hx as [Hsp Hlt].
      split_and!; [done| | |].
      * intros ->. done.
      * intros ->. done.
      * intros E. rewrite E in Hq. done.
Qed.

(** ** The parsed entries *)

Lemma digit_val_decimal (x : ascii) : is_decimal x = true -> 0 <= digit_val x.
Proof.
  unfold is_decimal, in_range, digit_val.
  intros [H1 H2]%andb_true_iff. apply N.leb_le in H1. lia.
Qed.

Lemma int_of_digits_nonneg (ds : str) :
  Forall (fun x => is_decimal x = true) ds -> 0 <= int_of_digits ds.
Proof.
  unfold int_of_digits. intros H.
  assert (forall acc, 0 <= acc ->
            0 <= fold_left (fun a x => 10 * a + digit_val x) ds acc) as Hacc;
    [|by apply Hacc].
  induction H as [|x ds Hx _ IH]; intros acc Hacc; simpl; [done|].
  apply IH. pose proof (digit_val_decimal x Hx). lia.
Qed.

Lemma digits_then_decimal (sep : ascii) (s ds r : str) :
  digits_then sep s = Some (ds, r) -> Forall (fun x => is_decimal x = true) ds.
Proof.
  unfold digits_then.
  pose proof (take_while_Forall is_decimal s) as H.
  destruct (take_while is_decimal s) as [|d ds'] eqn:E; [done|].
  destruct (drop _ s) as [|x r']; [done|].
  destruct (eqc x sep); [|done]. by intros [= <- _].
Qed.

Lemma match_cue_time_nonneg (line : str) (h m s : Z) :
  match_cue_time line = Some (h, m, s) -> 0 <= h /\ 0 <= m /\ 0 <= s.
Proof.
  unfold match_cue_time.
  destruct (digits_then ":" line) as [[dh r1]|] eqn:E1; [|done].
  destruct (digits_then ":" r1) as [[dm r2]|] eqn:E2; [|done].
  destruct (digits_then "." r2) as [[dsec r3]|] eqn:E3; [|done].
  destruct (take_while is_decimal r3); [done|].
  intros [= <- <- <-].
  apply digits_then_decimal in E1, E2, E3.
  split_and!; by apply int_of_digits_nonneg.
Qed.

(** The time cursor is never negative, and every entry has a text and the
    stamp of a time that is not negative. *)
Lemma parse_line_well_formed (st : ParseState) (raw : str) :
  let ok st :=
    (forall t, current_time st = Some t -> 0 <= t)
    /\ Forall (fun e => text e <> []
                  /\ exists t, 0 <= t /\ timestamp e = format_timestamp t)
         (entries st) in
  ok st -> ok (parse_line st raw)
           /\ (length (entries (parse_line st raw)) <= S (length (entries st)))%nat.
Proof.
  intros ok [Ht He]. unfold parse_line.
  set (line := strip is_space raw).
  destruct (bool_decide (line = []) || is_header line || isdigit line);
    [split; [done|lia]|].
  destruct (contains (py "-->") line).
  { destruct (match_cue_time line) as [[[h m] s]|] eqn:E; [|split; [done|lia]].
    apply match_cue_time_nonneg in E as (Hh & Hm & Hs).
    split; [|simpl; lia]. split; [|done]. simpl. intros t [= <-]. lia. }
  set (clean := remove_tags line).
  destruct (bool_decide (clean = [])) eqn:E; cbn [negb andb]; [split; [done|lia]|].
  apply bool_decide_eq_false in E.
  destruct (bool_decide (clean ∉ seen_text st)); [|split; [done|lia]].
  split; [|simpl; rewrite length_app; simpl; lia].
  split; [done|]. cbn [entries]. apply Forall_app. split; [done|].
  constructor; [|constructor]. cbn [text timestamp]. split; [done|].
  destruct (current_time st) as [t|] eqn:Et.
  - exists t. split; [by apply Ht|done].
  - exists 0. split; [lia|reflexivity].
Qed.

(** Every parsed entry has a text that is not empty and carries the stamp
    of a whole number of seconds that is not negative (zero for a cue
    before the first timing line); there are no more entries than lines,
    and none for a file that does not exist. *)
Theorem parsed_entries_well_formed (vtt : option str) :
  Forall (fun e => text e <> []
            /\ exists t, 0 <= t /\ timestamp e = format_timestamp t)
    (parse_vtt_transcript vtt)
  /\ match vtt with
     | None => parse_vtt_transcript vtt = []
     | Some content =>
         (length (parse_vtt_transcript vtt)
          <= length (split_on newline content))%nat
     end.
Proof.
  destruct vtt as [content|]; [|split; [constructor|done]].
  unfold parse_vtt_transcript.
  assert (forall lines st,
    ((forall t, current_time st = Some t -> 0 <= t)
     /\ Forall (fun e => text e <> []
                  /\ exists t, 0 <= t /\ timestamp e = format_timestamp t)
          (entries st)) ->
    ((forall t, current_time (fold_left parse_line lines st) = Some t -> 0 <= t)
     /\ Forall (fun e => text e <> []
                  /\ exists t, 0 <= t /\ timestamp e = format_timestamp t)
          (entries (fold_left parse_line lines st)))
    /\ (length (entries (fold_left parse_line lines st))
        <= length (entries st) + length lines)%nat) as Hrun.
  { induction lines as [|raw lines IH]; intros st Hst; [split; [done|simpl; lia]|].
    cbn [fold_left].
    destruct (parse_line_well_formed st raw Hst) as [Hok Hlen].
    destruct (IH _ Hok) as [Hok' Hlen']. split; [done|]. simpl. lia. }
  destruct (Hrun (split_on newline content) (mkParse [] None ∅)) as [[_ H] Hl].
  { split; [done|constructor]. }
  split; [exact H|exact Hl].
Qed.

(** ** Metadata *)

Example duration_ex1 : format_duration (Some 3661) = py "1:01:01".
Proof. vm_compute. reflexivity. Qed.

Example duration_ex2 : format_duration (Some 65) = py "1:05".
Proof. vm_compute. reflexivity. Qed.

Example duration_ex3 : format_duration (Some 0) = py "Unknown".
Proof. vm_compute. reflexivity. Qed.

Example topic_ex1 :
  clean_title_for_topic
    (mkVideo [] [] (py "Ep. 12 - : The Chan talk with CHAN  ") (py "Chan") []
       [] [] 0 [] 0 0 0 [] [] [] [] [] [] true [])
  = py "The  talk with".
Proof. vm_compute. reflexivity. Qed.

Example topic_ex2 :
  clean_title_for_topic
    (mkVideo [] [] (py "#45: ") (py "Chan") [] [] [] 0 [] 0 0 0 [] [] [] [] [] []
       true [])
  = py "Untitled".
Proof. vm_compute. reflexivity. Qed.



Lemma slice_to_length (n : Z) (s : str) :
  0 <= n -> (length (slice_to n s) <= Z.to_nat n)%nat.
Proof.
  intros Hn. unfold slice_to. replace (0 <=? n) with true by lia.
  rewrite length_take. lia.
Qed.

Lemma strip_hd_not (p : ascii -> bool) (s : str) : hd_not p (strip p s).
Proof.
  unfold strip. destruct (rstrip_take p (lstrip p s)) as [k ->].
  apply hd_not_take, drop_while_hd_not.
Qed.

Lemma clean_title_for_topic_shape (v : VideoMeta) :
  clean_title_for_topic v <> []
  /\ (length (clean_title_for_topic v) <= 100)%nat
  /\ hd_not is_space (clean_title_for_topic v).
Proof.
  unfold clean_title_for_topic. cbv zeta.
  set (t := strip is_space _).
  assert (hd_not is_space t) as Ht by apply strip_hd_not.
  pose proof (slice_to_length 100 t ltac:(lia)) as Hl.
  destruct (slice_to_take 100 t) as [k Hk].
  assert (hd_not is_space (slice_to 100 t)) as Hh
    by (rewrite Hk; apply hd_not_take, Ht).
  destruct (slice_to 100 t) as [|x r] eqn:E.
  - split_and!; [done|simpl; lia|]. vm_compute. done.
  - split_and!; [done|lia|exact Hh].
Qed.

Lemma post_init_fields (v : VideoMeta) :
  proposed_author (post_init v)
  = match proposed_author v with
    | [] => match channel v with [] => py "Unknown" | ch => ch end
    | a => a
    end
  /\ proposed_topic (post_init v)
    = match proposed_topic v with
      | [] => clean_title_for_topic v
      | t => t
      end
  /\ proposed_year (post_init v)
    = match proposed_year v with
      | [] => if (4 <=? length (upload_date v))%nat
              then slice_to 4 (upload_date v)
              else py "Unknown"
      | y => y
      end.
Proof. done. Qed.

Lemma post_init_nonempty (v : VideoMeta) :
  proposed_author (post_init v) <> []
  /\ proposed_topic (post_init v) <> []
  /\ proposed_year (post_init v) <> [].
Proof.
  destruct (clean_title_for_topic_shape v) as (Hne & _ & _).
  destruct (post_init_fields v) as (-> & -> & ->).
  split_and!.
  - destruct (proposed_author v); [|done]. destruct (channel v); done.
  - destruct (proposed_topic v); done.
  - destruct (proposed_year v) eqn:E; [|done].
    destruct (4 <=? length (upload_date v))%nat eqn:E4; [|done].
    apply Nat.leb_le in E4.
    destruct (upload_date v) as [|? [|? [|? [|? ?]]]]; simpl in E4; try lia.
    done.
Qed.

Lemma post_init_only_naming (v : VideoMeta) :
  set_naming (post_init v) (proposed_author v) (proposed_topic v)
    (proposed_year v) = v.
Proof. destruct v; done. Qed.

(** The initialisation leaves a video alone whose naming fields are set. *)
Lemma post_init_set (u : VideoMeta) :
  proposed_author u <> [] -> proposed_topic u <> [] -> proposed_year u <> [] ->
  post_init u = u.
Proof.
  intros Ha Ht Hy.
  destruct (post_init_fields u) as (Ea & Et & Ey).
  rewrite <- (post_init_only_naming u) at 2.
  destruct (proposed_author u) eqn:E1; [done|].
  destruct (proposed_topic u) eqn:E2; [done|].
  destruct (proposed_year u) eqn:E3; [done|].
  rewrite <- Ea, <- Et, <- Ey. destruct (post_init u); done.
Qed.

Lemma post_init_fixed (v : VideoMeta) : post_init (post_init v) = post_init v.
Proof.
  destruct (post_init_nonempty v) as (Ha & Ht & Hy). by apply post_init_set.
Qed.

(** After [__post_init__] the three naming fields are never empty, values
    given by the caller are kept, and nothing but these three fields is
    changed.  A topic derived from the title has at most 100 characters
    and does not start with white space; a derived year is the first four
    characters of the upload date, or [Unknown] for a shorter date.
    Running the initialisation again changes nothing. *)
Theorem post_init_naming (v : VideoMeta) :
  proposed_author (post_init v) <> []
  /\ proposed_topic (post_init v) <> []
  /\ proposed_year (post_init v) <> []
  /\ (proposed_author v <> [] ->
      proposed_author (post_init v) = proposed_author v)
  /\ (proposed_topic v <> [] ->
      proposed_topic (post_init v) = proposed_topic v)
  /\ (proposed_year v <> [] ->
      proposed_year (post_init v) = proposed_year v)
  /\ (proposed_author v = [] ->
      proposed_author (post_init v)
      = if bool_decide (channel v = []) then py "Unknown" else channel v)
  /\ (proposed_topic v = [] ->
      (length (proposed_topic (post_init v)) <= 100)%nat
      /\ hd_not is_space (proposed_topic (post_init v)))
  /\ (proposed_year v = [] ->
      proposed_year (post_init v)
      = if (length (upload_date v) <? 4)%nat then py "Unknown"
        else take 4 (upload_date v))
  /\ set_naming (post_init v) (proposed_author v) (proposed_topic v)
       (proposed_year v) = v
  /\ post_init (post_init v) = post_init v.
Proof.
  destruct (clean_title_for_topic_shape v) as (Hne & Hlen & Hhd).
  destruct (post_init_fields v) as (Ea & Et & Ey).
  destruct (post_init_nonempty v) as (Ha & Ht & Hy).
  split_and!; try done.
  - rewrite Ea. destruct (proposed_author v); done.
  - rewrite Et. destruct (proposed_topic v); done.
  - rewrite Ey. destruct (proposed_year v); done.
  - intros E. rewrite Ea, E. destruct (channel v); done.
  - intros E. rewrite Et, E. done.
  - intros E. rewrite Ey, E.
    destruct (4 <=? length (upload_date v))%nat eqn:E4.
    + apply Nat.leb_le in E4.
      replace (length (upload_date v) <? 4)%nat with false
        by (apply eq_sym, Nat.ltb_ge; lia).
      done.
    + apply Nat.leb_gt in E4.
      replace (length (upload_date v) <? 4)%nat with true
        by (apply eq_sym, Nat.ltb_lt; lia).
      done.
  - apply post_init_only_naming.
  - apply post_init_fixed.
Qed.

(** ** Fetching the transcript and saving the files *)

Section Saving.
Context {W : Type}.
Variable FILENAME_MAX_LENGTH : Z.
Variable expand_path : str -> Path.
Variable mkdir_p : Path -> M W unit.
Variable run_yt_dlp : str -> str -> M W unit.
Variable read_text_if_exists : Path -> M W (option str).
Variable unlink_if_exists : Path -> M W unit.
Variable write_markdown write_docx write_json : VideoMeta -> Path -> M W unit.

Local Abbreviation fetch :=
  (fetch_transcript run_yt_dlp read_text_if_exists unlink_if_exists).
Local Abbreviation save :=
  (process_and_save_video FILENAME_MAX_LENGTH expand_path mkdir_p run_yt_dlp
     read_text_if_exists unlink_if_exists write_markdown write_docx write_json).

(** What [fetch_transcript] returns, by the steps it takes. *)
Lemma fetch_transcript_runs (video video' : VideoMeta) (il : bool) (w w' : W) :
  fetch video il w = (inr video', w') ->
  exists (content : option str) (w1 w2 : W),
    run_yt_dlp (py "/tmp/yt_trans_" ++ video_id video) (video_id video) w
    = (inr tt, w1)
    /\ read_text_if_exists
         (py "/tmp/yt_trans_" ++ video_id video ++ py ".en.vtt") w1
       = (inr content, w2)
    /\ video'
       = (if il
          then set_links (set_transcript video (parse_vtt_transcript content))
                 (extract_links_from_description (description video))
          else set_transcript video (parse_vtt_transcript content)).
Proof.
  unfold fetch_transcript, bind. intros H.
  destruct (run_yt_dlp _ _ w) as [[e|[]] w1] eqn:E1; [done|].
  rewrite <- app_assoc in H.
  destruct (read_text_if_exists _ w1) as [[e|content] w2] eqn:E2; [done|].
  destruct (unlink_if_exists _ w2) as [[e|[]] w3]; [done|].
  unfold ret in H. injection H as <- <-. exists content, w1, w2. done.
Qed.

(** A video that [fetch_transcript] returns differs from the one it was
    given in the transcript and the links only: the id, the metadata, the
    naming fields and the selection are as they were.  The transcript is
    the parse of the subtitle file that was read (empty if there was no
    file) and no text stands in it twice; the links are those of the
    description, twenty at most, or are left as they were when links are
    not asked for. *)
Theorem fetch_transcript_changes
    (video video' : VideoMeta) (include_links : bool) (w w' : W) :
  fetch video include_links w = (inr video', w') ->
  set_links (set_transcript video' (transcript video)) (links video) = video
  /\ (exists (content : option str) (w1 w2 : W),
        read_text_if_exists
          (py "/tmp/yt_trans_" ++ video_id video ++ py ".en.vtt") w1
        = (inr content, w2)
        /\ transcript video' = parse_vtt_transcript content)
  /\ NoDup (map text (transcript video'))
  /\ links video'
     = (if include_links
        then extract_links_from_description (description video)
        else links video)
  /\ (include_links = true -> (length (links video') <= 20)%nat).
Proof.
  intros H. apply fetch_transcript_runs in H as (content & w1 & w2 & _ & Hr & ->).
  assert (NoDup (map text (parse_vtt_transcript content))) as Hnd.
  { destruct content as [content|]; [|constructor].
    unfold parse_vtt_transcript.
    destruct (parse_lines_append (split_on newline content) (mkParse [] None ∅))
      as (more & -> & _ & Hnd). done. }
  split_and!.
  - destruct include_links, video; done.
  - exists content, w1, w2. split; [done|]. by destruct include_links.
  - by destruct include_links.
  - by destruct include_links.
  - intros ->. cbn [links set_links].
    unfold extract_links_from_description.
    destruct (description video); [simpl; lia|]. rewrite length_take. lia.
Qed.

End Saving.

Lemma fetch_transcript_changes_witness :
  NoDup (map text [mkEntry (py "[00:01]") (py "hello")]).
Proof.
  apply (fetch_transcript_changes demo_run_yt_dlp demo_read_text demo_unlink
           (demo_video (py "aaa") true)
           (set_links
              (set_transcript (demo_video (py "aaa") true)
                 [mkEntry (py "[00:01]") (py "hello")]) [])
           true [] []).
  vm_compute. reflexivity.
Defined.

(** ** Fetching the metadata *)

Example format_date_ex1 : format_date (py "20240131") = py "2024-01-31".
Proof. vm_compute. reflexivity. Qed.

Example format_date_ex2 : format_date (py "2024") = py "2024".
Proof. vm_compute. reflexivity. Qed.

Example format_date_ex3 : format_date [] = py "Unknown".
Proof. vm_compute. reflexivity. Qed.

Example fetch_metadata_ex1 :
  exists v,
    fetch_metadata demo_run_info demo_exists demo_load_json demo_unlink_file
      (py "https://youtu.be/dQw4w9WgXcQ?t=3") [py "/tmp/other"]
    = (inr (Some v), [py "/tmp/other"])
    /\ video_id v = py "dQw4w9WgXcQ"
    /\ title v = py "EP 7: A talk"
    /\ channel v = py "Chan"
    /\ upload_date_formatted v = py "2024-01-31"
    /\ duration_formatted v = py "1:01:01"
    /\ proposed_author v = py "Chan"
    /\ proposed_topic v = py "A talk"
    /\ proposed_year v = py "2024".
Proof. eexists. vm_compute. split_and!; reflexivity. Qed.

Section FetchProps.
Context {W : Type}.
Variable run_yt_dlp_info : str -> str -> M W unit.
Variable path_exists : Path -> W -> bool.
Variable load_json : Path -> M W Info.
Variable unlink_if_exists : Path -> M W unit.

Local Abbreviation fetch_meta :=
  (fetch_metadata run_yt_dlp_info path_exists load_json unlink_if_exists).

(** A URL without a video id gives [None] and nothing is run for it.  A
    video that [fetch_metadata] returns carries the id found in the URL,
    eleven characters, and the URL as it was given; its three naming
    fields are filled in and not empty; it is selected, and has no
    transcript and no links yet; the formatted date and duration are
    those of its raw date and of the duration read.  When the metadata
    file is read, with or without an exception, the world is left as the
    clean-up leaves it. *)
Theorem fetch_metadata_result (url : str) (w : W) :
  (extract_video_id url = None -> fetch_meta url w = (inr None, w))
  /\ (forall (v : VideoMeta) (w' : W),
        fetch_meta url w = (inr (Some v), w') ->
        extract_video_id url = Some (video_id v)
        /\ length (video_id v) = 11%nat
        /\ video_url v = url
        /\ proposed_author v <> [] /\ proposed_topic v <> []
        /\ proposed_year v <> []
        /\ post_init v = v
        /\ selected v = true /\ transcript v = [] /\ links v = []
        /\ upload_date_formatted v = format_date (upload_date v)
        /\ (exists meta : Info,
              v = video_of_info (video_id v) url meta
              /\ duration v = default 0 (info_duration meta)
              /\ duration_formatted v = format_duration (info_duration meta)))
  /\ (forall (vid : str) (w1 : W),
        extract_video_id url = Some vid ->
        run_yt_dlp_info (py "/tmp/yt_meta_" ++ vid) vid w = (inr tt, w1) ->
        path_exists (py "/tmp/yt_meta_" ++ vid ++ py ".info.json") w1 = true ->
        snd (fetch_meta url w)
        = snd (unlink_if_exists
                 (py "/tmp/yt_meta_" ++ vid ++ py ".info.json")
                 (snd (load_json
                         (py "/tmp/yt_meta_" ++ vid ++ py ".info.json") w1)))).
Proof.
  split_and!.
  - intros E. unfold fetch_metadata. by rewrite E.
  - intros v w'. unfold fetch_metadata.
    destruct (extract_video_id url) as [vid|] eqn:E; [|done].
    destruct (extract_video_id_id_chars _ _ E) as [Hl _].
    unfold bind at 1.
    destruct (run_yt_dlp_info _ vid w) as [[e|[]] w1]; [done|].
    destruct (path_exists _ w1); cbn [negb]; [|done].
    unfold bind, try_finally.
    destruct (load_json _ w1) as [r w2].
    destruct (unlink_if_exists _ w2) as [[e|[]] w3]; [done|].
    destruct r as [e|meta]; [done|].
    unfold ret. intros [= <- <-].
    destruct (post_init_nonempty
                (set_naming (video_of_info vid url meta) [] [] []))
      as (Ha & Ht & Hy).
    unfold video_of_info in *.
    split_and!; try done.
    + apply post_init_fixed.
    + exists meta. done.
  - intros vid w1 E Hrun Hex.
    unfold fetch_metadata. rewrite E. unfold bind at 1. rewrite Hrun.
    rewrite <- app_assoc, Hex. cbn [negb].
    unfold bind, try_finally.
    destruct (load_json _ w1) as [r w2]. cbn [snd].
    destruct (unlink_if_exists _ w2) as [[e|[]] w3]; [done|].
    destruct r as [e|meta]; done.
Qed.
End FetchProps.

(** ** The input screen *)

Lemma strip_strip (p : ascii -> bool) (s : str) : strip p (strip p s) = strip p s.
Proof.
  apply strip_fixed; [apply strip_hd_not|]. unfold strip. apply rstrip_rev_hd_not.
Qed.

Lemma slice_list_take {A} (n : Z) (l : list A) : exists k, slice_list n l = take k l.
Proof. unfold slice_list. destruct (0 <=? n); eauto. Qed.

Lemma url_lines_stripped (urls_text : str) :
  Forall (fun u => u <> [] /\ strip is_space u = u) (url_lines urls_text).
Proof.
  unfold url_lines. apply Forall_forall. intros u Hu.
  apply list_elem_of_filter in Hu as [Hne Hu].
  apply list_elem_of_fmap in Hu as (l & -> & _).
  split; [done|apply strip_strip].
Qed.

Lemma valid_urls_prefix (B : Z) (urls_text : str) :
  exists k,
    valid_urls B urls_text
    = take k (filter (fun u => is_Some (extract_video_id u)) (url_lines urls_text)).
Proof.
  unfold valid_urls. destruct urls_text as [|x t]; [by exists O|].
  cbv zeta.
  set (c := filter _ (url_lines (x :: t))).
  destruct c as [|u c'] eqn:E; [by exists O|]. rewrite <- E.
  destruct (Z.of_nat (length c) >? B).
  - apply slice_list_take.
  - exists (length c). by rewrite firstn_all.
Qed.

Lemma valid_urls_length (B : Z) (urls_text : str) :
  0 <= B -> Z.of_nat (length (valid_urls B urls_text)) <= B.
Proof.
  intros HB. unfold valid_urls. destruct urls_text as [|x t]; [simpl; lia|].
  cbv zeta.
  set (c := filter _ (url_lines (x :: t))).
  destruct c as [|u c'] eqn:E; [simpl; lia|]. rewrite <- E.
  destruct (Z.of_nat (length c) >? B) eqn:E'; [|lia].
  unfold slice_list. replace (0 <=? B) with true by lia.
  rewrite length_take. lia.
Qed.

(** The URLs that the input screen passes on are lines of the text area,
    stripped of white space and not empty, each with a video id, in the
    order of the text: the first of the lines of that kind, all of them
    when there are no more than [BATCH_MAX_SIZE].  For a bound that is
    not negative there are never more than [BATCH_MAX_SIZE], and for a
    positive bound there is one as soon as a line has a video id. *)
Theorem valid_urls_checked (BATCH_MAX_SIZE : Z) (urls_text : str) :
  let candidates :=
    filter (fun u => is_Some (extract_video_id u)) (url_lines urls_text) in
  Forall (fun u => u <> [] /\ strip is_space u = u
                   /\ is_Some (extract_video_id u))
    (valid_urls BATCH_MAX_SIZE urls_text)
  /\ (exists k, valid_urls BATCH_MAX_SIZE urls_text = take k candidates)
  /\ (Z.of_nat (length candidates) <= BATCH_MAX_SIZE ->
      valid_urls BATCH_MAX_SIZE urls_text = candidates)
  /\ (0 <= BATCH_MAX_SIZE ->
      Z.of_nat (length (valid_urls BATCH_MAX_SIZE urls_text)) <= BATCH_MAX_SIZE)
  /\ (0 < BATCH_MAX_SIZE -> candidates <> [] ->
      valid_urls BATCH_MAX_SIZE urls_text <> []).
Proof.
  intros candidates.
  destruct (valid_urls_prefix BATCH_MAX_SIZE urls_text) as [k Hk].
  fold candidates in Hk.
  assert (urls_text = [] -> candidates = []) as Hempty by (by intros ->).
  split_and!.
  - rewrite Hk. apply Forall_take. apply Forall_forall. intros u Hu.
    apply list_elem_of_filter in Hu as [Hid Hu].
    pose proof (url_lines_stripped urls_text) as Hs.
    rewrite Forall_forall in Hs. destruct (Hs u Hu). done.
  - by exists k.
  - intros Hle. unfold valid_urls.
    destruct urls_text as [|x t]; [by rewrite Hempty|].
    cbv zeta. fold candidates.
    destruct candidates as [|u c'] eqn:E; [done|]. rewrite <- E in *.
    replace (Z.of_nat (length candidates) >? BATCH_MAX_SIZE) with false by lia.
    done.
  - apply valid_urls_length.
  - intros HB Hne. unfold valid_urls.
    destruct urls_text as [|x t]; [by rewrite Hempty in Hne|].
    cbv zeta. fold candidates.
    destruct candidates as [|u c'] eqn:E; [done|]. rewrite <- E in *.
    destruct (Z.of_nat (length candidates) >? BATCH_MAX_SIZE); [|by rewrite E].
    unfold slice_list. replace (0 <=? BATCH_MAX_SIZE) with true by lia.
    rewrite E. destruct (Z.to_nat BATCH_MAX_SIZE) eqn:En; [lia|done].
Qed.

Section InputProps.
Context {W : Type}.
Variable BATCH_MAX_SIZE : Z.
Variable fetch_metadata : str -> M W (option VideoMeta).

Local Abbreviation fetch_loop := (fetch_videos fetch_metadata).
Local Abbreviation render_input :=
  (render_input_phase BATCH_MAX_SIZE fetch_metadata).

(** The loop appends to [videos], at most one video per URL. *)
Lemma fetch_videos_appends (urls : list str) :
  forall (videos vs : list VideoMeta) (w w' : W),
    fetch_loop urls videos w = (inr vs, w') ->
    exists more, vs = videos ++ more /\ (length more <= length urls)%nat.
Proof.
  induction urls as [|u urls IH]; intros videos vs w w'.
  { intros [= <- <-]. exists []. by rewrite app_nil_r. }
  cbn [fetch_videos]. unfold bind.
  destruct (fetch_metadata u w) as [[e|meta] w1]; [done|].
  intros H. apply IH in H as (more & -> & Hl).
  destruct meta as [m|].
  - exists (m :: more). rewrite <- app_assoc. split; [done|simpl; lia].
  - exists more. split; [done|simpl; lia].
Qed.

(** A run of the input screen leaves the session as it is, or moves it to
    the review with the videos whose metadata was fetched: at least one,
    in the order of the URLs, no more than there are valid URLs and, for
    a bound that is not negative, no more than [BATCH_MAX_SIZE]; the
    results are not touched.  Without a click, or without a valid URL,
    nothing is fetched and nothing changes. *)
Theorem render_input_phase_moves
    (st st' : Session) (urls_text : str) (clicked : bool) (w w' : W) :
  render_input st urls_text clicked w = (inr st', w') ->
  (st' = st
   \/ (clicked = true
       /\ ss_phase st' = py "review"
       /\ ss_results st' = ss_results st
       /\ ss_pending_videos st' <> []
       /\ fetch_loop (valid_urls BATCH_MAX_SIZE urls_text) [] w
          = (inr (ss_pending_videos st'), w')
       /\ (length (ss_pending_videos st')
           <= length (valid_urls BATCH_MAX_SIZE urls_text))%nat
       /\ (0 <= BATCH_MAX_SIZE ->
           Z.of_nat (length (ss_pending_videos st')) <= BATCH_MAX_SIZE)))
  /\ (clicked = false \/ valid_urls BATCH_MAX_SIZE urls_text = [] ->
      st' = st /\ w' = w).
Proof.
  unfold render_input_phase, button. cbv zeta.
  pose proof (valid_urls_length BATCH_MAX_SIZE urls_text) as HB.
  set (valid := valid_urls BATCH_MAX_SIZE urls_text) in *.
  destruct clicked; cbn [andb].
  2:{ intros [= <- <-]. split; [by left|done]. }
  destruct (bool_decide (valid = [])) eqn:E; cbn [negb andb].
  { intros [= <- <-]. split; [by left|done]. }
  apply bool_decide_eq_false in E.
  unfold bind. destruct (fetch_loop valid [] w) as [[e|videos] w1] eqn:Ef; [done|].
  destruct (fetch_videos_appends _ _ _ _ _ Ef) as (more & Hm & Hl).
  cbn [app] in Hm. subst more.
  destruct videos as [|v videos]; unfold ret; intros [= <- <-].
  - split; [by left|]. intros [?|?]; done.
  - split; [|intros [?|?]; done].
    right. cbn [ss_phase ss_results ss_pending_videos].
    split_and!; try done. intros H. specialize (HB H). lia.
Qed.
End InputProps.

Lemma render_input_phase_moves_witness :
  ss_pending_videos
    (mkSession (py "review")
       [video_of_info (py "dQw4w9WgXcQ") (py "https://youtu.be/dQw4w9WgXcQ")
          demo_info] []) <> [].
Proof.
  pose proof (render_input_phase_moves 10
                (fetch_metadata demo_run_info demo_exists demo_load_json
                   demo_unlink_file)
                (mkSession (py "input") [] [])
                (mkSession (py "review")
                   [video_of_info (py "dQw4w9WgXcQ")
                      (py "https://youtu.be/dQw4w9WgXcQ") demo_info] [])
                (py " https://youtu.be/dQw4w9WgXcQ " ++ [newline]
                 ++ py "not a video" ++ [newline])
                true [] []) as H.
  destruct H as [[H|H] _]; [vm_compute; reflexivity|discriminate H|].
  apply H.
Defined.

(** ** The paragraphs of the transcript *)

Example md_transcript_ex1 :
  md_transcript []
    [mkEntry (py "[00:01]") (py "a"); mkEntry (py "[00:01]") (py "b");
     mkEntry (py "[00:05]") (py "c"); mkEntry (py "[00:01]") (py "d")]
  = [[newline] ++ py "---" ++ [newline; newline] ++ py "## Transcript"
     ++ [newline];
     py "**[00:01]** a b" ++ [newline];
     py "**[00:05]** c" ++ [newline];
     py "**[00:01]** d" ++ [newline]].
Proof. vm_compute. reflexivity. Qed.

Example docx_transcript_ex1 :
  docx_transcript
    [mkEntry (py "[00:01]") (py "a"); mkEntry (py "[00:01]") (py "b");
     mkEntry [] (py "c")]
  = [mkPara None [mkRun (py "[00:01] ") true; mkRun (py "a b") false];
     mkPara None [mkRun (py "c") false]].
Proof. vm_compute. reflexivity. Qed.

(** The paragraphs of a run that goes on. *)
Lemma group_from_spec (es : list TranscriptEntry) :
  forall (ts : str) (para : list str),
    para <> [] ->
    concat (map entries_of_group (group_from ts para es))
    = map (mkEntry ts) para ++ es
    /\ Forall (fun g => snd g <> []) (group_from ts para es)
    /\ adjacent_differ (group_from ts para es)
    /\ (exists p gs, group_from ts para es = (ts, p) :: gs).
Proof.
  induction es as [|e es IH]; intros ts para Hne.
  { cbn. rewrite !app_nil_r. split_and!; try done; [by constructor|by eauto]. }
  cbn [group_from]. destruct (decide (timestamp e = ts)) as [E|E].
  - destruct (IH ts (para ++ [text e])) as (H1 & H2 & H3 & H4);
      [by destruct para|].
    split_and!; [|done|done|done].
    rewrite H1, map_app, <- app_assoc. cbn. rewrite <- E. by destruct e.
  - destruct (IH (timestamp e) [text e]) as (H1 & H2 & H3 & (p & gs & H4));
      [done|].
    split_and!.
    + cbn [map concat]. rewrite H1. cbn. by destruct e.
    + by constructor.
    + cbn [adjacent_differ]. rewrite H4 in H3 |- *. split; [|done].
      cbn. congruence.
    + by eauto.
Qed.

(** The loop of [write_markdown], from a paragraph that is begun. *)
Lemma md_loop_groups (es : list TranscriptEntry) :
  forall (lines : list str) (ts : str) (para : list str),
    para <> [] ->
    let st := fold_left md_step es (mkMd lines (Some ts) para) in
    md_para_lines st <> []
    /\ md_lines st ++ [md_paragraph (md_current_ts st) (md_para_lines st)]
       = lines ++ map (fun g => md_paragraph (Some (fst g)) (snd g))
                    (group_from ts para es).
Proof.
  induction es as [|e es IH]; intros lines ts para Hne; [done|].
  cbv zeta. cbn [fold_left group_from].
  assert (md_step (mkMd lines (Some ts) para) e
          = if decide (timestamp e = ts)
            then mkMd lines (Some ts) (para ++ [text e])
            else mkMd (lines ++ [md_paragraph (Some ts) para])
                   (Some (timestamp e)) [text e]) as ->.
  { unfold md_step. cbn [md_current_ts md_para_lines md_lines].
    destruct (decide (timestamp e = ts)) as [E|E].
    - by rewrite bool_decide_false by (intros H; apply H; by rewrite E).
    - rewrite bool_decide_true by congruence. by destruct para. }
  destruct (decide (timestamp e = ts)) as [E|E].
  - apply IH. by destruct para.
  - destruct (IH (lines ++ [md_paragraph (Some ts) para])
                (timestamp e) [text e]) as [H1 H2]; [done|].
    cbv zeta in H1, H2. split; [exact H1|].
    rewrite H2. cbn [map fst snd]. by rewrite <- app_assoc.
Qed.

(** The loop of [write_docx], from a paragraph that is begun. *)
Lemma docx_loop_groups (es : list TranscriptEntry) :
  forall (paras : list Paragraph) (ts : str) (para : list str),
    para <> [] ->
    let st := fold_left docx_step es (mkDocx paras para (Some ts)) in
    docx_current_para_lines st <> []
    /\ docx_paragraphs st
       ++ [docx_paragraph (docx_last_timestamp st) (docx_current_para_lines st)]
       = paras ++ map (fun g => docx_paragraph (Some (fst g)) (snd g))
                    (group_from ts para es).
Proof.
  induction es as [|e es IH]; intros paras ts para Hne; [done|].
  cbv zeta. cbn [fold_left group_from].
  assert (docx_step (mkDocx paras para (Some ts)) e
          = if decide (timestamp e = ts)
            then mkDocx paras (para ++ [text e]) (Some ts)
            else mkDocx (paras ++ [docx_paragraph (Some ts) para])
                   [text e] (Some (timestamp e))) as ->.
  { unfold docx_step.
    cbn [docx_paragraphs docx_current_para_lines docx_last_timestamp].
    rewrite (bool_decide_false (Some ts = None)) by done. cbn [orb].
    destruct (decide (timestamp e = ts)) as [E|E].
    - by rewrite bool_decide_false by (intros H; apply H; by rewrite E).
    - rewrite bool_decide_true by congruence. by destruct para. }
  destruct (decide (timestamp e = ts)) as [E|E].
  - apply IH. by destruct para.
  - destruct (IH (paras ++ [docx_paragraph (Some ts) para])
                (timestamp e) [text e]) as [H1 H2]; [done|].
    cbv zeta in H1, H2. split; [exact H1|].
    rewrite H2. cbn [map fst snd]. by rewrite <- app_assoc.
Qed.

(** Both writers cut a transcript into the same paragraphs: the maximal
    runs of entries with one time stamp.  Every entry goes into exactly
    one paragraph, in the order of the transcript; no paragraph is empty
    and neighbouring paragraphs have different time stamps.  The Markdown
    paragraph is the time stamp in bold and the texts joined by spaces;
    the Word paragraph has the same text, without the run of the time
    stamp when the time stamp is empty.  An empty transcript gives the
    one line that says so. *)
Theorem transcript_paragraphs
    (lines : list str) (transcript : list TranscriptEntry) :
  let heading :=
    [newline] ++ py "---" ++ [newline; newline] ++ py "## Transcript"
    ++ [newline] in
  match transcript with
  | [] =>
      md_transcript lines transcript
      = lines ++ [heading; py "*No transcript available*"]
      /\ docx_transcript transcript
         = [mkPara (Some (py "Intense Quote"))
              [mkRun (py "No transcript available") false]]
  | _ =>
      exists groups : list Group,
        concat (map entries_of_group groups) = transcript
        /\ Forall (fun g => snd g <> []) groups
        /\ adjacent_differ groups
        /\ md_transcript lines transcript
           = lines ++ [heading]
             ++ map (fun g =>
                       py "**" ++ fst g ++ py "** "
                       ++ join_with (py " ") (snd g) ++ [newline]) groups
        /\ docx_transcript transcript
           = map (fun g =>
                    mkPara None
                      ((if bool_decide (fst g = []) then []
                        else [mkRun (fst g ++ py " ") true])
                       ++ [mkRun (join_with (py " ") (snd g)) false]))
               groups
  end.
Proof.
  intros heading. destruct transcript as [|e es].
  { split; [|done]. unfold md_transcript. by rewrite <- app_assoc. }
  exists (group_runs (e :: es)). cbn [group_runs].
  destruct (group_from_spec es (timestamp e) [text e]) as (H1 & H2 & H3 & _);
    [done|].
  split_and!; [|done|done| |].
  - rewrite H1. cbn. by destruct e.
  - unfold md_transcript. cbv zeta. fold heading.
    cbn [fold_left].
    assert (md_step (mkMd (lines ++ [heading]) None []) e
            = mkMd (lines ++ [heading]) (Some (timestamp e)) [text e]) as ->.
    { unfold md_step. cbn [md_current_ts md_para_lines md_lines].
      by rewrite bool_decide_true by done. }
    destruct (md_loop_groups es (lines ++ [heading]) (timestamp e) [text e])
      as [Hne Hmd]; [done|].
    cbv zeta in Hne, Hmd.
    destruct (md_para_lines _) eqn:E in |- *; [by rewrite E in Hne|].
    rewrite <- E, Hmd, <- app_assoc. done.
  - unfold docx_transcript.
    cbn [fold_left].
    assert (docx_step (mkDocx [] [] None) e
            = mkDocx [] [text e] (Some (timestamp e))) as ->.
    { unfold docx_step.
      cbn [docx_paragraphs docx_current_para_lines docx_last_timestamp].
      by rewrite (bool_decide_true (None = None)) by done. }
    destruct (docx_loop_groups es [] (timestamp e) [text e]) as [Hne Hd];
      [done|].
    cbv zeta in Hne, Hd.
    destruct (docx_current_para_lines _) eqn:E in |- *; [by rewrite E in Hne|].
    rewrite <- E, Hd. cbn [app]. apply map_ext. intros [ts p].
    unfold docx_paragraph. cbn [fst snd]. by destruct ts.
Qed.

(** ** No tag is left in a text *)

Section ScanFacts.
Variable m : str -> option nat.

Lemma delete_from_skip (s : str) :
  forall k, delete_from m k s = delete_from m 0 (drop k s).
Proof.
  induction s as [|x s IH]; intros k; [by destruct k|].
  destruct k as [|k]; [done|]. cbn [delete_from drop]. apply IH.
Qed.

Lemma delete_from_Forall (P : ascii -> Prop) (s : str) :
  forall k, Forall P s -> Forall P (delete_from m k s).
Proof.
  induction s as [|x s IH]; intros k Hs; [done|].
  apply Forall_cons in Hs as [Hx Hs]. cbn [delete_from].
  destruct k as [|k]; [|by apply IH].
  destruct (m (x :: s)) as [[|n]|]; [|by apply IH|];
    (constructor; [done|by apply IH]).
Qed.

(** A text in which the pattern matches nowhere is left as it is. *)
Lemma delete_from_fixed (r : str) :
  (forall k, m (drop k r) = None) -> delete_from m 0 r = r.
Proof.
  induction r as [|x r IH]; intros H; [done|].
  cbn [delete_from]. rewrite (H O : m (x :: r) = None).
  f_equal. apply IH. intros k. apply (H (S k)).
Qed.
End ScanFacts.

Lemma take_while_all {A} (p : A -> bool) (l : list A) :
  drop (length (take_while p l)) l = [] -> Forall (fun x => p x = true) l.
Proof.
  induction l as [|x l IH]; [done|]. cbn [take_while].
  destruct (p x) eqn:E; [|done]. cbn [length drop]. intros H.
  constructor; [done|by apply IH].
Qed.

Lemma take_while_whole {A} (p : A -> bool) (l : list A) :
  Forall (fun x => p x = true) l -> take_while p l = l.
Proof.
  induction 1 as [|x l Hx _ IH]; [done|]. cbn [take_while]. by rewrite Hx, IH.
Qed.

Lemma match_tag_long (s : str) (n : nat) : match_tag s = Some n -> (2 <= n)%nat.
Proof.
  unfold match_tag. destruct s as [|c r]; [done|].
  destruct (eqc c "<"); [|done].
  destruct (take_while _ r) as [|b body]; [done|].
  destruct (drop _ r); [done|]. intros [= <-]. lia.
Qed.

(** Where the tag pattern does not match before a text, it does not match
    before what is left of the text either. *)
Lemma match_tag_none_kept (x : ascii) (s : str) :
  match_tag (x :: s) = None ->
  match_tag (x :: delete_from match_tag 0 s) = None.
Proof.
  set (nongt := fun y => negb (eqc y ">")).
  assert (forall r,
    match_tag (x :: r)
    = if eqc x "<" then
        match take_while nongt r with
        | [] => None
        | body =>
            match drop (length body) r with
            | _ :: _ => Some (length body + 2)%nat
            | [] => None
            end
        end
      else None) as Hcons by done.
  rewrite (Hcons s), (Hcons (delete_from match_tag 0 s)). clear Hcons.
  destruct (eqc x "<"); [|done].
  destruct (take_while nongt s) as [|b body] eqn:Eb.
  - destruct s as [|y t]; [done|]. cbn [take_while] in Eb.
    destruct (nongt y) eqn:Ey; [done|]. intros _.
    assert (match_tag (y :: t) = None) as Hy.
    { unfold match_tag. unfold nongt in Ey.
      destruct (eqc y "<") eqn:E; [|done].
      apply eqc_eq in E. subst y. done. }
    cbn [delete_from]. rewrite Hy. cbn [take_while]. by rewrite Ey.
  - rewrite <- Eb. intros H.
    assert (drop (length (take_while nongt s)) s = []) as Hall.
    { cbv zeta in H.
      destruct (drop (length (take_while nongt s)) s); [done|discriminate H]. }
    apply take_while_all in Hall.
    pose proof (delete_from_Forall match_tag _ s 0 Hall) as Hr.
    rewrite (take_while_whole _ _ Hr).
    destruct (delete_from match_tag 0 s) as [|z r]; [done|].
    cbv zeta. by rewrite drop_all.
Qed.

Lemma remove_tags_tag_free (n : nat) :
  forall s, (length s <= n)%nat -> tag_free (delete_from match_tag 0 s).
Proof.
  induction n as [|n IH]; intros s Hl.
  { destruct s; [|simpl in Hl; lia]. intros k. by destruct k. }
  destruct s as [|x s]; [intros k; by destruct k|].
  simpl in Hl. cbn [delete_from].
  assert (tag_free (x :: delete_from match_tag 0 s)
          \/ match_tag (x :: s) <> None /\ match_tag (x :: s) <> Some O) as Hkeep.
  { destruct (match_tag (x :: s)) as [[|j]|] eqn:E.
    - apply match_tag_long in E. lia.
    - right. done.
    - left. intros [|k].
      + by apply match_tag_none_kept.
      + apply (IH s); lia. }
  destruct (match_tag (x :: s)) as [[|j]|] eqn:E.
  - destruct Hkeep as [H|[_ H]]; done.
  - rewrite delete_from_skip. apply IH. rewrite length_drop. lia.
  - destruct Hkeep as [H|[H _]]; done.
Qed.

(** The text of an entry is a line, stripped, with the tags removed. *)
Lemma clean_text_tags (raw c : str) :
  clean_text raw = Some c -> c = remove_tags (strip is_space raw).
Proof.
  unfold clean_text, parse_line, parse_start.
  set (line := strip is_space raw).
  destruct (bool_decide (line = []) || is_header line || isdigit line);
    [done|].
  destruct (contains (py "-->") line).
  { destruct (match_cue_time line) as [[[h m] s]|]; done. }
  destruct (negb (bool_decide (remove_tags line = []))
            && bool_decide (remove_tags line ∉ seen_text (mkParse [] None ∅)));
    [|done].
  cbn. by intros [= <-].
Qed.

(** Removing the tags leaves a text in which the tag pattern matches
    nowhere, so that removing them again changes nothing; and the text
    of every entry of a parsed transcript is such a text: a line of the
    file, stripped, without its tags. *)
Theorem transcript_texts_tag_free (s : str) (vtt : option str) :
  tag_free (remove_tags s)
  /\ remove_tags (remove_tags s) = remove_tags s
  /\ Forall (fun e =>
               tag_free (text e)
               /\ exists raw, text e = remove_tags (strip is_space raw))
       (parse_vtt_transcript vtt).
Proof.
  assert (forall t, tag_free (remove_tags t)) as Hfree.
  { intros t. by apply (remove_tags_tag_free (length t)). }
  split_and!.
  - apply Hfree.
  - apply delete_from_fixed, Hfree.
  - destruct vtt as [content|]; [|constructor].
    unfold parse_vtt_transcript.
    destruct (parse_lines_append (split_on newline content) (mkParse [] None ∅))
      as (more & -> & Hmore & _).
    cbn [entries app]. eapply Forall_impl; [exact Hmore|].
    intros e [_ (r & _ & Hc)]. apply clean_text_tags in Hc.
    split; [rewrite Hc; apply Hfree|by exists r].
Qed.

(** ** The review table *)

Lemma index_fresh (v : VideoMeta) (pre : list VideoMeta) :
  v ∉ pre -> forall rest, index v (pre ++ v :: rest) = length pre.
Proof.
  induction pre as [|x pre IH]; intros Hv rest; cbn [app index length].
  - by rewrite decide_True.
  - rewrite decide_False by (intros ->; apply Hv; by left).
    rewrite IH; [done|]. intros H. apply Hv. by right.
Qed.

(** Without two equal videos, the hidden index of a row is its position. *)
Lemma review_table_positions (videos : list VideoMeta) :
  NoDup videos ->
  map row_idx (review_table videos) = seq 0 (length videos).
Proof.
  intros Hnd. unfold review_table. rewrite map_map. cbn [row_idx].
  assert (forall pre rest, NoDup (pre ++ rest) ->
            map (fun v => index v (pre ++ rest)) rest
            = seq (length pre) (length rest)) as H.
  { intros pre rest. revert pre.
    induction rest as [|v rest IH]; intros pre Hn; [done|].
    cbn [map length seq]. f_equal.
    - apply index_fresh. apply NoDup_app in Hn as (_ & Hn & _).
      intros Hin. apply (Hn v Hin). by left.
    - specialize (IH (pre ++ [v])). rewrite <- app_assoc in IH. cbn [app] in IH.
      rewrite IH by done. rewrite length_app. cbn [length].
      by replace (length pre + 1)%nat with (S (length pre)) by lia. }
  apply (H [] videos Hnd).
Qed.

(** Rows whose hidden indices are the positions are applied each to the
    video of its position. *)
Lemma apply_rows_positions (rows : list Row) :
  forall (pre videos : list VideoMeta),
    map row_idx rows = seq (length pre) (length videos) ->
    apply_rows rows (pre ++ videos)
    = inr (pre ++ zip_with edit_video rows videos).
Proof.
  induction rows as [|r rows IH]; intros pre videos Hidx.
  { destruct videos; [done|discriminate Hidx]. }
  destruct videos as [|v videos]; [discriminate Hidx|].
  cbn [map length seq] in Hidx. injection Hidx as Hr Hrest.
  cbn [apply_rows zip_with]. rewrite Hr.
  rewrite list_lookup_middle by done.
  replace (length pre) with (length pre + 0)%nat at 1 by lia.
  rewrite insert_app_r. cbn [insert list_insert].
  specialize (IH (pre ++ [edit_video r v]) videos).
  rewrite <- !app_assoc in IH. cbn [app] in IH. apply IH.
  rewrite length_app. cbn [length].
  by replace (length pre + 1)%nat with (S (length pre)) by lia.
Qed.

(** Two rows for two equal videos both go to the first of them: the edit
    of the first row is lost and the second video is left as it was. *)
Example review_equal_videos :
  apply_rows
    [mkRow true (py "Chan") (py "first") (py "2024") 0;
     mkRow true (py "Chan") (py "second") (py "2024") 0]
    [demo_video (py "aaa") true; demo_video (py "aaa") true]
  = inr [edit_video (mkRow true (py "Chan") (py "second") (py "2024") 0)
           (demo_video (py "aaa") true);
         demo_video (py "aaa") true]
  /\ map row_idx
       (review_table [demo_video (py "aaa") true; demo_video (py "aaa") true])
     = [0%nat; 0%nat].
Proof. vm_compute. split; reflexivity. Qed.

(** When no two videos of the batch are equal, the table that comes back
    from the editor, with its hidden column as it was sent, is applied
    row by row: the video at each position takes the selection, author,
    topic and year of the row at that position and keeps everything
    else, and no exception is raised. *)
Theorem review_edits_by_position (videos : list VideoMeta) (edited : list Row) :
  NoDup videos ->
  map row_idx edited = map row_idx (review_table videos) ->
  apply_rows edited videos = inr (zip_with edit_video edited videos)
  /\ length (zip_with edit_video edited videos) = length videos
  /\ forall (i : nat) (r : Row) (v : VideoMeta),
       edited !! i = Some r -> videos !! i = Some v ->
       zip_with edit_video edited videos !! i = Some (edit_video r v)
       /\ selected (edit_video r v) = row_select r
       /\ proposed_author (edit_video r v) = row_author r
       /\ proposed_topic (edit_video r v) = row_topic r
       /\ proposed_year (edit_video r v) = row_year r
       /\ video_id (edit_video r v) = video_id v
       /\ video_url (edit_video r v) = video_url v
       /\ title (edit_video r v) = title v
       /\ channel (edit_video r v) = channel v
       /\ upload_date (edit_video r v) = upload_date v
       /\ description (edit_video r v) = description v
       /\ chapters (edit_video r v) = chapters v
       /\ links (edit_video r v) = links v
       /\ transcript (edit_video r v) = transcript v.
Proof.
  intros Hnd Hidx. rewrite review_table_positions in Hidx by done.
  split_and!.
  - apply (apply_rows_positions edited [] videos Hidx).
  - rewrite length_zip_with.
    apply (f_equal (@length nat)) in Hidx.
    rewrite length_map, length_seq in Hidx. lia.
  - intros i r v Hr Hv. split_and!; try done.
    rewrite lookup_zip_with, Hr. cbn. by rewrite Hv.
Qed.

Lemma review_edits_by_position_witness :
  apply_rows
    [mkRow false (py "A") (py "one") (py "2020") 0;
     mkRow true (py "B") (py "two") (py "2021") 1]
    [demo_video (py "aaa") true; demo_video (py "bbb") true]
  = inr (zip_with edit_video
           [mkRow false (py "A") (py "one") (py "2020") 0;
            mkRow true (py "B") (py "two") (py "2021") 1]
           [demo_video (py "aaa") true; demo_video (py "bbb") true]).
Proof.
  apply (review_edits_by_position
           [demo_video (py "aaa") true; demo_video (py "bbb") true]
           [mkRow false (py "A") (py "one") (py "2020") 0;
            mkRow true (py "B") (py "two") (py "2021") 1]).
  - apply NoDup_cons. split; [|apply NoDup_singleton].
    intros Hin%list_elem_of_singleton. discriminate Hin.
  - vm_compute. reflexivity.
Defined.

(** ** The command line *)

Example splitlines_ex1 :
  splitlines (py "a" ++ ["013"%char; newline] ++ py "b" ++ [newline; newline]
              ++ py "c" ++ [newline])
  = [py "a"; py "b"; []; py "c"].
Proof. vm_compute. reflexivity. Qed.

Example file_urls_ex1 :
  file_urls (py "# list" ++ [newline] ++ py "  https://youtu.be/dQw4w9WgXcQ "
             ++ [newline; newline] ++ py "x")
  = [py "https://youtu.be/dQw4w9WgXcQ"; py "x"].
Proof. vm_compute. reflexivity. Qed.

Section CliProps.
Context {W : Type}.
Variable expand_path : str -> Path.
Variable mkdir_p : Path -> M W unit.
Variable path_exists : Path -> W -> bool.
Variable read_text : Path -> M W str.
Variable load_config : M W Config.
Variable run_yt_dlp_info : str -> str -> M W unit.
Variable load_json : Path -> M W Info.
Variable unlink_if_exists : Path -> M W unit.
Variable run_yt_dlp : str -> str -> M W unit.
Variable read_text_if_exists : Path -> M W (option str).
Variable write_markdown write_docx write_json : VideoMeta -> Path -> M W unit.

Local Abbreviation single :=
  (process_single expand_path mkdir_p path_exists load_config run_yt_dlp_info
     load_json unlink_if_exists run_yt_dlp read_text_if_exists write_markdown
     write_docx write_json).
Local Abbreviation loop :=
  (process_urls expand_path mkdir_p path_exists load_config run_yt_dlp_info
     load_json unlink_if_exists run_yt_dlp read_text_if_exists write_markdown
     write_docx write_json).
Local Abbreviation output_base_of :=
  (load_output_base expand_path load_config).
Local Abbreviation cli_main :=
  (main expand_path mkdir_p path_exists read_text load_config run_yt_dlp_info
     load_json unlink_if_exists run_yt_dlp read_text_if_exists write_markdown
     write_docx write_json).

(** The call of [process_single] that the loop makes for a URL. *)
Local Abbreviation call urls url output_base include_links args :=
  (if (length urls =? 1)%nat
   then single url output_base (arg_author args) (arg_topic args)
          (arg_year args) include_links
   else single url output_base None None None include_links).

Lemma process_single_invalid (url output_base : str) (a t y : option str)
    (il : bool) (w : W) :
  extract_video_id url = None ->
  single url output_base a t y il w = (inr false, w).
Proof. intros E. unfold process_single. by rewrite E. Qed.

Lemma process_single_true (url output_base : str) (a t y : option str)
    (il : bool) (w w' : W) :
  single url output_base a t y il w = (inr true, w') ->
  is_Some (extract_video_id url).
Proof.
  unfold process_single. destruct (extract_video_id url); [by eauto|done].
Qed.

(** The counters of the loop: every URL is counted once, and a URL
    without a video id is counted as a failure. *)
Lemma process_urls_counts (urls todo : list str) (output_base : str)
    (il : bool) (args : Args) :
  forall (s f s' f' : Z) (w w' : W),
    loop urls todo output_base il args s f w = (inr (s', f'), w') ->
    s' + f' = s + f + Z.of_nat (length todo)
    /\ s <= s' /\ f <= f'
    /\ (f' = f -> Forall (fun u => is_Some (extract_video_id u)) todo).
Proof.
  induction todo as [|u todo IH]; intros s f s' f' w w'.
  { intros [= <- <- <-]. cbn. split_and!; [lia|lia|lia|done]. }
  cbn [process_urls]. unfold bind at 1.
  destruct (call urls u output_base il args w) as [[e|ok] w1] eqn:Ec; [done|].
  destruct ok.
  - intros H. apply IH in H as (H1 & H2 & H3 & H4).
    cbn [length]. split_and!; [lia|lia|lia|].
    intros Hf. constructor; [|by apply H4].
    destruct (length urls =? 1)%nat; by apply process_single_true in Ec.
  - intros H. apply IH in H as (H1 & H2 & H3 & H4).
    cbn [length]. split_and!; [lia|lia|lia|]. intros Hf. lia.
Qed.



(** The exit code is 0 or 1.  It is 0 only if there was a URL to work on
    and every URL, from the command line and from the file, had a video
    id and was counted as a success; without any URL the code is 1 and
    nothing is run. *)
Theorem cli_exit_code (args : Args) (code : Z) (w w' : W) :
  cli_main args w = (inr code, w') ->
  (code = 0 \/ code = 1)
  /\ (code = 0 ->
      exists (from_file urls : list str) (output_base : str) (w1 : W),
        urls = arg_urls args ++ from_file
        /\ urls <> []
        /\ (truthy (arg_from_file args) = false -> from_file = [])
        /\ Forall (fun u => is_Some (extract_video_id u)) urls
        /\ loop urls urls output_base (negb (arg_no_links args)) args 0 0 w1
           = (inr (Z.of_nat (length urls), 0), w'))
  /\ (arg_urls args = [] -> truthy (arg_from_file args) = false ->
      code = 1 /\ w' = w).
Proof.
  unfold main. cbv zeta. unfold bind at 1.
  set (collect := if truthy (arg_from_file args) then _ else _).
  assert (forall c w0, collect w = (inr (Some c), w0) ->
            exists from_file, c = arg_urls args ++ from_file
              /\ (truthy (arg_from_file args) = false ->
                  from_file = [] /\ w0 = w)) as Hcollect.
  { intros c w0. subst collect.
    destruct (truthy (arg_from_file args)).
    - destruct (path_exists _ w); cbn [negb]; [|done].
      unfold bind. destruct (read_text _ w) as [[e|content] w1]; [done|].
      intros [= <- <-]. by exists (file_urls content).
    - intros [= <- <-]. exists []. by rewrite app_nil_r. }
  destruct (collect w) as [[e|[c|]] w0] eqn:Ec; [done| |].
  2:{ intros [= <- <-]. split_and!; [by right|done|].
      intros _ Hf. subst collect. rewrite Hf in Ec. done. }
  destruct (Hcollect c w0 eq_refl) as (from_file & Hc & Hno).
  destruct c as [|u c].
  { intros [= <- <-]. split_and!; [by right|done|].
    intros _ Hf. destruct (Hno Hf) as [_ ->]. done. }
  unfold bind.
  destruct (output_base_of (arg_output_dir args) w0) as [[e|ob] w1]; [done|].
  destruct (loop (u :: c) (u :: c) ob (negb (arg_no_links args)) args 0 0 w1)
    as [[e|[s f]] w2] eqn:El; [done|].
  intros [= <- <-]. cbn [snd].
  destruct (process_urls_counts _ _ _ _ _ _ _ _ _ _ _ El) as (H1 & H2 & H3 & H4).
  split_and!.
  - destruct (f =? 0); [by left|by right].
  - destruct (f =? 0) eqn:E0; [|done]. intros _.
    assert (f = 0) as -> by lia.
    exists from_file, (u :: c), ob, w1.
    split_and!; [done|done|intros Hf; by destruct (Hno Hf)|by apply H4|].
    assert (s = Z.of_nat (length (u :: c))) as <- by lia. exact El.
  - intros Hu Hf. destruct (Hno Hf) as [-> _].
    rewrite Hu in Hc. done.
Qed.


End CliProps.

Example cli_ex1 :
  demo_cli demo_write
    (mkArgs [py "https://youtu.be/dQw4w9WgXcQ"] None (Some (py "/out"))
       (Some (py "Me")) None None false) []
  = (inr 0, [py "/out/Me/Me_A_talk_2024.md"; py "/out/Me/Me_A_talk_2024.docx";
             py "/out/Me/Me_A_talk_2024.json"]).
Proof. vm_compute. reflexivity. Qed.

Example cli_ex2 :
  fst (demo_cli demo_write
         (mkArgs [py "https://youtu.be/dQw4w9WgXcQ"; py "nothing"] None None
            None None None false) [])
  = inr 1.
Proof. vm_compute. reflexivity. Qed.

Lemma cli_exit_code_witness :
  demo_cli demo_write
    (mkArgs [py "https://youtu.be/dQw4w9WgXcQ"] (Some (py "urls.txt")) None
       None None None false) [py "urls.txt"]
  = (inr 0,
     [py "urls.txt"; py "~/transcripts/Chan/Chan_A_talk_2024.md";
      py "~/transcripts/Chan/Chan_A_talk_2024.docx";
      py "~/transcripts/Chan/Chan_A_talk_2024.json";
      py "~/transcripts/Chan/Chan_A_talk_2024.md";
      py "~/transcripts/Chan/Chan_A_talk_2024.docx";
      py "~/transcripts/Chan/Chan_A_talk_2024.json"])
  /\ (0 = 0 \/ 0 = 1).
Proof.
  split; [vm_compute; reflexivity|].
  apply (proj1 (cli_exit_code absolute demo_mkdir_p demo_exists demo_read_file
                  demo_load_config demo_run_info demo_load_json
                  demo_unlink_file demo_run_yt_dlp demo_read_text demo_write
                  demo_write demo_write
                  (mkArgs [py "https://youtu.be/dQw4w9WgXcQ"]
                     (Some (py "urls.txt")) None None None None false)
                  0 [py "urls.txt"]
                  [py "urls.txt"; py "~/transcripts/Chan/Chan_A_talk_2024.md";
                   py "~/transcripts/Chan/Chan_A_talk_2024.docx";
                   py "~/transcripts/Chan/Chan_A_talk_2024.json";
                   py "~/transcripts/Chan/Chan_A_talk_2024.md";
                   py "~/transcripts/Chan/Chan_A_talk_2024.docx";
                   py "~/transcripts/Chan/Chan_A_talk_2024.json"]
                  ltac:(vm_compute; reflexivity))).
Defined.



(** ** The screens together *)

Example ui_ex1 :
  exists v r,
    fst (demo_ui demo_visit new_session [])
    = inr (mkSession (py "complete") [v] [r])
    /\ status r = py "success"
    /\ files r = [py "/out/Chan/Chan_A_talk_2024.md";
                  py "/out/Chan/Chan_A_talk_2024.docx";
                  py "/out/Chan/Chan_A_talk_2024.json"].
Proof. do 2 eexists. vm_compute. split_and!; reflexivity. Qed.

Lemma render_review_phase_cases (st st' : Session) (edited : list Row)
    (click : Click) :
  render_review_phase st edited click = inr st' ->
  exists videos,
    apply_rows edited (ss_pending_videos st) = inr videos
    /\ (st' = mkSession (py "input") [] []
        \/ (st' = mkSession (py "processing") videos (ss_results st)
            /\ filter (fun v => selected v = true) videos <> [])
        \/ st' = mkSession (ss_phase st) videos (ss_results st)).
Proof.
  unfold render_review_phase.
  destruct (apply_rows edited (ss_pending_videos st)) as [e|videos]; [done|].
  cbv zeta. cbn [ss_pending_videos ss_results ss_phase].
  intros H. exists videos. split; [done|].
  destruct (button (clicked_back click) false); [left; by injection H|].
  unfold button in H.
  destruct (clicked_save click); cbn [andb] in H; [|right; right; by injection H].
  destruct (filter (fun v => selected v = true) videos) eqn:E; cbn in H.
  - right. right. by injection H.
  - right. left. split; [by injection H|done].
Qed.

Section Screens.
Context {W : Type}.
Variable BATCH_MAX_SIZE : Z.
Variable OUTPUT_BASE : str.
Variable FILENAME_MAX_LENGTH : Z.
Variable include_links_default : bool.
Variable fetch_metadata : str -> M W (option VideoMeta).
Variable expand_path : str -> Path.
Variable mkdir_p : Path -> M W unit.
Variable run_yt_dlp : str -> str -> M W unit.
Variable read_text_if_exists : Path -> M W (option str).
Variable unlink_if_exists : Path -> M W unit.
Variable write_markdown write_docx write_json : VideoMeta -> Path -> M W unit.

Local Abbreviation run_one :=
  (ui_main BATCH_MAX_SIZE OUTPUT_BASE FILENAME_MAX_LENGTH include_links_default
     fetch_metadata expand_path mkdir_p run_yt_dlp read_text_if_exists
     unlink_if_exists write_markdown write_docx write_json).
Local Abbreviation run_all :=
  (ui_runs BATCH_MAX_SIZE OUTPUT_BASE FILENAME_MAX_LENGTH include_links_default
     fetch_metadata expand_path mkdir_p run_yt_dlp read_text_if_exists
     unlink_if_exists write_markdown write_docx write_json).

Lemma render_input_phase_to (st st' : Session) (urls_text : str)
    (clicked : bool) (w w' : W) :
  render_input_phase BATCH_MAX_SIZE fetch_metadata st urls_text clicked w
  = (inr st', w') ->
  st' = st
  \/ exists videos,
       videos <> [] /\ st' = mkSession (py "review") videos (ss_results st).
Proof.
  unfold render_input_phase. cbv zeta.
  destruct (button clicked _ && _); [|intros [= <- <-]; by left].
  unfold bind.
  destruct (fetch_videos fetch_metadata _ [] w) as [[e|videos] w1]; [done|].
  destruct videos as [|v videos]; intros [= <- <-]; [by left|].
  right. by exists (v :: videos).
Qed.

(** One run of the script keeps what holds of the session. *)
Lemma ui_main_keeps (st st' : Session) (ui : Widgets) (w w' : W) :
  session_ok st -> run_one st ui w = (inr st', w') -> session_ok st'.
Proof.
  unfold session_ok, ui_main. cbv zeta.
  intros [(Hp & Hv & Hr)|[(Hp & Hv & Hr)|[(Hp & Hv & Hr)|(Hp & Hv & Hr)]]];
    rewrite Hp.
  - rewrite bool_decide_true by done.
    intros H. apply render_input_phase_to in H as [->|(videos & Hne & ->)].
    + left. done.
    + right. left. done.
  - rewrite bool_decide_false by done. rewrite bool_decide_true by done.
    destruct (render_review_phase st (ui_edited ui) (ui_review_click ui))
      as [e|st1] eqn:E; [done|].
    intros [= <- <-].
    apply render_review_phase_cases in E as (videos & Ha & E).
    apply apply_rows_keeps in Ha as (Hl & _ & _).
    assert (videos <> []) as Hne.
    { destruct videos; [|done]. destruct (ss_pending_videos st); done. }
    destruct E as [-> | [[-> Hsel] | ->]].
    + left. done.
    + right. right. left. done.
    + right. left. done.
  - rewrite !bool_decide_false by done. rewrite bool_decide_true by done.
    destruct (process_videos_acc OUTPUT_BASE FILENAME_MAX_LENGTH
                include_links_default expand_path mkdir_p run_yt_dlp
                read_text_if_exists unlink_if_exists write_markdown write_docx
                write_json
                (filter (fun v => selected v = true) (ss_pending_videos st))
                [] w) as (rs & w1 & Hrun & _ & HF).
    unfold render_processing_phase, bind. rewrite Hrun.
    intros [= <- <-]. right. right. right. done.
  - rewrite !bool_decide_false by done. rewrite bool_decide_true by done.
    intros [= <- <-]. unfold render_complete_phase, button.
    destruct (ui_new_batch_clicked ui); cbn [andb negb].
    + left. done.
    + right. right. right. done.
Qed.

(** Whatever the visitor does, from a new session on, and whatever the
    fetches and the writers do, as long as no run of the script ends
    with an exception the session is in one of the four phases, and: in
    [input] it holds no video and no result; in [review] it holds at
    least one video and no result; [processing] is only entered with at
    least one selected video; and in [complete] there is exactly one
    result for each selected video, in their order, with its id and URL
    and the status [success] or [error]. *)
Theorem ui_session_invariant (uis : list Widgets) (st' : Session) (w w' : W) :
  run_all uis new_session w = (inr st', w') ->
  session_ok st'.
Proof.
  assert (forall st, session_ok st ->
            forall w, run_all uis st w = (inr st', w') -> session_ok st') as H.
  { induction uis as [|ui uis IH]; intros st Hst w0.
    - by intros [= <- <-].
    - cbn [ui_runs]. unfold bind.
      destruct (run_one st ui w0) as [[e|st1] w1] eqn:E; [done|].
      apply IH. by eapply ui_main_keeps. }
  apply H. left. done.
Qed.
End Screens.

Lemma ui_session_invariant_witness :
  session_ok
    (match fst (demo_ui demo_visit new_session []) with
     | inr st => st
     | inl _ => new_session
     end).
Proof.
  apply (ui_session_invariant 10 (py "/out") 50 true
           (fetch_metadata demo_run_info demo_exists demo_load_json
              demo_unlink_file)
           absolute demo_mkdir_p demo_run_yt_dlp demo_read_text demo_unlink
           demo_write demo_write demo_write demo_visit
           (match fst (demo_ui demo_visit new_session []) with
            | inr st => st
            | inl _ => new_session
            end)
           [] (snd (demo_ui demo_visit new_session []))).
  vm_compute. reflexivity.
Defined.
